(** * terraform-provider-influxdb-v2: the provider, the bucket and
      authorization resources and the readiness data source

    A shallow embedding of [influxdbProvider.Configure]
    ([influxdbv2/provider.go]), [ReadyDataSource.Read]
    ([influxdbv2/datasource_ready.go]), the bucket resource ([Create],
    [Read], [readBucket] and the two retention rule conversions) and the
    authorization resource ([Schema], [Create], [Read], [Update],
    [readAuthorization], [convertPermissionsToDomain]), with the properties
    of the specification proved, or refuted, over it.

    Conventions of the embedding.
    - A Go pointer field ([*string], [*time.Time], ...) is an [option]; a
      dereference the source performs without a nil test is a [Panicked]
      outcome on [None].
    - A Go [error] is the text of its [Error()] method.
    - A call [(T, error)] of the InfluxDB client yields [GoErr e] or
      [GoOk v].  The remote store is a black box: every client call takes the
      store's state and returns the next one.  Every call is appended to a
      log, so that what an operation sends to the store can be stated.
    - A method that receives its model by pointer and mutates it returns the
      mutated model next to its error.
    - [tflog] calls and the [context.Context] argument have no effect on the
      values computed and are left out. *)

From Stdlib Require Import ZArith.
From stdpp Require Import base option strings list gmap.

Set Warnings "-register-all".

(** ** Terraform plugin framework: values *)

Inductive ValueState := ValueStateNull | ValueStateUnknown | ValueStateKnown.

(** [types.String]: null, unknown, or a known string.  The zero value of the
    Go struct is null. *)
Inductive types_String :=
| StringNull
| StringUnknown
| StringValue (value : string).

Definition String_IsNull (s : types_String) : bool :=
  match s with StringNull => true | _ => false end.

(** [ValueString] returns the empty string for null and unknown. *)
Definition ValueString (s : types_String) : string :=
  match s with StringValue v => v | _ => "" end.

Inductive types_Int64 :=
| Int64Null
| Int64Unknown
| Int64Value (value : Z).

Definition ValueInt64 (i : types_Int64) : Z :=
  match i with Int64Value v => v | _ => 0%Z end.

Inductive types_Bool :=
| BoolNull
| BoolUnknown
| BoolValue (value : bool).

(** [attr.Type], as far as the two resources use it.  The attribute types of
    an object are a Go map literal; they are kept as the list of its entries
    and read with [attr_lookup]. *)
Inductive attr_Type :=
| StringType
| Int64Type
| ObjectType (AttrTypes : list (string * attr_Type))
| SetType (ElemType : attr_Type).

Fixpoint attr_lookup {A : Type} (k : string) (m : list (string * A)) : option A :=
  match m with
  | [] => None
  | (k', v) :: m' => if String.eqb k k' then Some v else attr_lookup k m'
  end.

(** [attr.Type.Equal]: maps are compared by their entries, whatever the
    order. *)
Fixpoint Type_Equal (a b : attr_Type) : bool :=
  match a, b with
  | StringType, StringType => true
  | Int64Type, Int64Type => true
  | SetType x, SetType y => Type_Equal x y
  | ObjectType xs, ObjectType ys =>
      Nat.eqb (length xs) (length ys)
      && forallb (fun kt => match attr_lookup (fst kt) ys with
                            | Some t' => Type_Equal (snd kt) t'
                            | None => false
                            end) xs
  | _, _ => false
  end.

(** [attr.Value]: a string, an integer, an object or a set.  [types.Object]
    and [types.Set] carry their types, their state and their content. *)
Inductive attr_Value :=
| String_ (v : types_String)
| Int64_ (v : types_Int64)
| Object_ (v : types_Object)
| Set_ (v : types_Set)
with types_Object :=
| mkObject (attributeTypes : list (string * attr_Type)) (state : ValueState)
           (attributes : list (string * attr_Value))
with types_Set :=
| mkSet (elementType : attr_Type) (state : ValueState)
        (elements : list attr_Value).

Definition Set_state (s : types_Set) : ValueState :=
  let 'mkSet _ st _ := s in st.
Definition Set_Elements (s : types_Set) : list attr_Value :=
  let 'mkSet _ _ es := s in es.

Definition SetNull (t : attr_Type) : types_Set := mkSet t ValueStateNull [].
Definition SetUnknown (t : attr_Type) : types_Set := mkSet t ValueStateUnknown [].
Definition ObjectUnknown (ts : list (string * attr_Type)) : types_Object :=
  mkObject ts ValueStateUnknown [].

Definition Value_Type (v : attr_Value) : attr_Type :=
  match v with
  | String_ _ => StringType
  | Int64_ _ => Int64Type
  | Object_ (mkObject ts _ _) => ObjectType ts
  | Set_ (mkSet t _ _) => SetType t
  end.

(** Diagnostics: the accumulator every response carries. *)
Inductive Severity := SeverityError | SeverityWarning.

Record Diagnostic := {
  Severity_ : Severity;
  Summary : string;
  Detail : string
}.

Definition Diagnostics := list Diagnostic.

Definition is_error (d : Diagnostic) : bool :=
  match Severity_ d with SeverityError => true | SeverityWarning => false end.

Definition HasError (ds : Diagnostics) : bool := existsb is_error ds.

Definition AddError (ds : Diagnostics) (summary detail : string) : Diagnostics :=
  ds ++ [{| Severity_ := SeverityError; Summary := summary; Detail := detail |}].

(** [types.ObjectValue]: every declared attribute must be given, with the
    declared type, and no other attribute may be given.  The result is the
    object and whether an error diagnostic was raised. *)
Definition ObjectValue (attributeTypes : list (string * attr_Type))
    (attributes : list (string * attr_Value)) : types_Object * bool :=
  let declared_ok :=
    forallb (fun kt => match attr_lookup (fst kt) attributes with
                       | Some v => Type_Equal (snd kt) (Value_Type v)
                       | None => false
                       end) attributeTypes in
  let no_extra :=
    forallb (fun kv => match attr_lookup (fst kv) attributeTypes with
                       | Some _ => true
                       | None => false
                       end) attributes in
  if declared_ok && no_extra
  then (mkObject attributeTypes ValueStateKnown attributes, false)
  else (ObjectUnknown attributeTypes, true).

(** [types.SetValue]: every element must have the element type. *)
Definition SetValue (elementType : attr_Type) (elements : list attr_Value)
    : types_Set * bool :=
  if forallb (fun v => Type_Equal elementType (Value_Type v)) elements
  then (mkSet elementType ValueStateKnown elements, false)
  else (SetUnknown elementType, true).

(** [types.Set.ElementsAs(ctx, &target, false)] into a slice of structs: the
    reflection decodes each element with [decode]; an unknown set cannot be
    held by a slice and is an error, a null set gives the nil slice.  [None]
    stands for diagnostics with an error. *)
Fixpoint decode_all {A : Type} (decode : attr_Value -> option A)
    (vs : list attr_Value) : option (list A) :=
  match vs with
  | [] => Some []
  | v :: vs' =>
      match decode v, decode_all decode vs' with
      | Some a, Some l => Some (a :: l)
      | _, _ => None
      end
  end.

Definition ElementsAs {A : Type} (decode : attr_Value -> option A)
    (s : types_Set) : option (list A) :=
  match Set_state s with
  | ValueStateNull => Some []
  | ValueStateUnknown => None
  | ValueStateKnown => decode_all decode (Set_Elements s)
  end.

(** ** Terraform plugin framework: validation of a set on [State.Set]

    [State.Set] validates the values of the model before it writes them.
    For a set this is [SetType.Validate]: each fully known element is
    compared with the elements after it, and every pair of equal elements
    raises the error "Duplicate Set Element", whose detail prints the
    element.  How a value is printed is left abstract. *)
Class ValueRendering : Type := {
  Value_String : attr_Value -> string
}.

Definition ValueState_eqb (a b : ValueState) : bool :=
  match a, b with
  | ValueStateNull, ValueStateNull => true
  | ValueStateUnknown, ValueStateUnknown => true
  | ValueStateKnown, ValueStateKnown => true
  | _, _ => false
  end.

Definition String_Equal (a b : types_String) : bool :=
  match a, b with
  | StringNull, StringNull => true
  | StringUnknown, StringUnknown => true
  | StringValue x, StringValue y => String.eqb x y
  | _, _ => false
  end.

Definition Int64_Equal (a b : types_Int64) : bool :=
  match a, b with
  | Int64Null, Int64Null => true
  | Int64Unknown, Int64Unknown => true
  | Int64Value x, Int64Value y => Z.eqb x y
  | _, _ => false
  end.

(** [Equal] of two values: of their types, their states and, for known
    values, their contents; the attributes of an object are compared by
    name, and the elements of a set whatever their order. *)
Fixpoint Value_Equal (a b : attr_Value) {struct a} : bool :=
  match a, b with
  | String_ x, String_ y => String_Equal x y
  | Int64_ x, Int64_ y => Int64_Equal x y
  | Object_ x, Object_ y => Object_Equal x y
  | Set_ x, Set_ y => Set_Equal x y
  | _, _ => false
  end
with Object_Equal (a b : types_Object) {struct a} : bool :=
  match a, b with
  | mkObject ts st attrs, mkObject ts' st' attrs' =>
      Type_Equal (ObjectType ts) (ObjectType ts')
      && ValueState_eqb st st'
      && (negb (ValueState_eqb st ValueStateKnown)
          || Nat.eqb (length attrs) (length attrs')
             && (fix all_equal (l : list (string * attr_Value)) : bool :=
                   match l with
                   | [] => true
                   | (k, v) :: l' =>
                       match attr_lookup k attrs' with
                       | Some v' => Value_Equal v v'
                       | None => false
                       end && all_equal l'
                   end) attrs)
  end
with Set_Equal (a b : types_Set) {struct a} : bool :=
  match a, b with
  | mkSet t st elems, mkSet t' st' elems' =>
      Type_Equal (SetType t) (SetType t')
      && ValueState_eqb st st'
      && (negb (ValueState_eqb st ValueStateKnown)
          || Nat.eqb (length elems) (length elems')
             && (fix all_contained (l : list attr_Value) : bool :=
                   match l with
                   | [] => true
                   | v :: r =>
                       existsb (fun v' => Value_Equal v v') elems'
                       && all_contained r
                   end) elems)
  end.

(** A value is fully known when it is known and so is all it contains. *)
Fixpoint Value_IsFullyKnown (a : attr_Value) : bool :=
  match a with
  | String_ (StringValue _) => true
  | String_ _ => false
  | Int64_ (Int64Value _) => true
  | Int64_ _ => false
  | Object_ x => Object_IsFullyKnown x
  | Set_ x => Set_IsFullyKnown x
  end
with Object_IsFullyKnown (a : types_Object) : bool :=
  match a with
  | mkObject _ ValueStateKnown attrs =>
      (fix all_known (l : list (string * attr_Value)) : bool :=
         match l with
         | [] => true
         | (_, v) :: l' => Value_IsFullyKnown v && all_known l'
         end) attrs
  | mkObject _ _ _ => false
  end
with Set_IsFullyKnown (a : types_Set) : bool :=
  match a with
  | mkSet _ ValueStateKnown elems =>
      (fix all_known (l : list attr_Value) : bool :=
         match l with
         | [] => true
         | v :: l' => Value_IsFullyKnown v && all_known l'
         end) elems
  | mkSet _ _ _ => false
  end.

(** [SetType.Validate] on the elements of a known set. *)
Fixpoint SetType_Validate {VR : ValueRendering} (elems : list attr_Value)
    : Diagnostics :=
  match elems with
  | [] => []
  | elemOuter :: rest =>
      (if Value_IsFullyKnown elemOuter
       then flat_map
              (fun elemInner =>
                 if Value_Equal elemInner elemOuter
                 then [{| Severity_ := SeverityError;
                          Summary := "Duplicate Set Element";
                          Detail := "This attribute contains duplicate values of: "
                                    +:+ Value_String elemInner |}]
                 else [])
              rest
       else [])
      ++ SetType_Validate rest
  end.

Definition Set_Validate {VR : ValueRendering} (s : types_Set) : Diagnostics :=
  match Set_state s with
  | ValueStateKnown => SetType_Validate (Set_Elements s)
  | _ => []
  end.

(** ** The Go side: errors and results *)

Definition error := string.

Inductive GoResult (A : Type) :=
| GoErr (err : error)
| GoOk (v : A).
Arguments GoErr {A} err.
Arguments GoOk {A} v.

(** [time.Time] is observed by the provider through its [String()] method
    only; the type and the method are left abstract. *)
Class TimeImpl : Type := {
  time_Time : Type;
  Time_String : time_Time -> string
}.

(** ** The InfluxDB client: [domain] records

    Only the fields the provider reads or writes are kept. *)

Module RetentionRule.
Record t := {
  EverySeconds : Z;
  Type_ : option string
}.
End RetentionRule.

Module Bucket.
Record t {TI : TimeImpl} := {
  CreatedAt : option time_Time;
  Description : option string;
  Id : option string;
  Name : string;
  OrgID : option string;
  RetentionRules : list RetentionRule.t;
  Rp : option string;
  Type_ : option string;
  UpdatedAt : option time_Time
}.
End Bucket.

Module Resource.
Record t := {
  Id : option string;
  Name : option string;
  Org : option string;
  OrgID : option string;
  Type_ : string
}.
End Resource.

Module Permission.
Record t := {
  Action : string;
  Resource : Resource.t
}.
End Permission.

Module Authorization.
(** [Description] and [Status] come from the embedded
    [AuthorizationUpdateRequest]. *)
Record t := {
  Description : option string;
  Status : option string;
  Id : option string;
  OrgID : option string;
  Permissions : option (list Permission.t);
  Token : option string;
  UserID : option string
}.

End Authorization.

Module Ready.
Record t {TI : TimeImpl} := {
  Started : option time_Time;
  Status : option string;
  Up : option string
}.
End Ready.

(** ** The provider's models *)

Module influxdbProviderModel.
Record t := {
  URL : types_String;
  Token : types_String
}.
End influxdbProviderModel.

Module ReadyDataSourceModel.
Record t := {
  ID : types_String;
  URL : types_String;
  Ready : types_Bool;
  Status : types_String;
  Started : types_String
}.

(** [var state ReadyDataSourceModel]: every attribute null. *)
Definition zero : t :=
  {| ID := StringNull; URL := StringNull; Ready := BoolNull;
     Status := StringNull; Started := StringNull |}.
End ReadyDataSourceModel.

Module BucketResourceModel.
Record t := {
  ID : types_String;
  Name : types_String;
  Description : types_String;
  OrgID : types_String;
  RetentionRules : types_Set;
  RP : types_String;
  CreatedAt : types_String;
  UpdatedAt : types_String;
  Type_ : types_String
}.

(** Assignments to one field of the struct. *)
Definition set_ID (v : types_String) (m : t) : t :=
  {| ID := v; Name := Name m; Description := Description m;
     OrgID := OrgID m; RetentionRules := RetentionRules m; RP := RP m;
     CreatedAt := CreatedAt m; UpdatedAt := UpdatedAt m;
     Type_ := Type_ m |}.
Definition set_Name (v : types_String) (m : t) : t :=
  {| ID := ID m; Name := v; Description := Description m; OrgID := OrgID m;
     RetentionRules := RetentionRules m; RP := RP m;
     CreatedAt := CreatedAt m; UpdatedAt := UpdatedAt m;
     Type_ := Type_ m |}.
Definition set_Description (v : types_String) (m : t) : t :=
  {| ID := ID m; Name := Name m; Description := v; OrgID := OrgID m;
     RetentionRules := RetentionRules m; RP := RP m;
     CreatedAt := CreatedAt m; UpdatedAt := UpdatedAt m;
     Type_ := Type_ m |}.
Definition set_OrgID (v : types_String) (m : t) : t :=
  {| ID := ID m; Name := Name m; Description := Description m; OrgID := v;
     RetentionRules := RetentionRules m; RP := RP m;
     CreatedAt := CreatedAt m; UpdatedAt := UpdatedAt m;
     Type_ := Type_ m |}.
Definition set_RetentionRules (v : types_Set) (m : t) : t :=
  {| ID := ID m; Name := Name m; Description := Description m;
     OrgID := OrgID m; RetentionRules := v; RP := RP m;
     CreatedAt := CreatedAt m; UpdatedAt := UpdatedAt m;
     Type_ := Type_ m |}.
Definition set_RP (v : types_String) (m : t) : t :=
  {| ID := ID m; Name := Name m; Description := Description m;
     OrgID := OrgID m; RetentionRules := RetentionRules m; RP := v;
     CreatedAt := CreatedAt m; UpdatedAt := UpdatedAt m;
     Type_ := Type_ m |}.
Definition set_CreatedAt (v : types_String) (m : t) : t :=
  {| ID := ID m; Name := Name m; Description := Description m;
     OrgID := OrgID m; RetentionRules := RetentionRules m; RP := RP m;
     CreatedAt := v; UpdatedAt := UpdatedAt m; Type_ := Type_ m |}.
Definition set_UpdatedAt (v : types_String) (m : t) : t :=
  {| ID := ID m; Name := Name m; Description := Description m;
     OrgID := OrgID m; RetentionRules := RetentionRules m; RP := RP m;
     CreatedAt := CreatedAt m; UpdatedAt := v; Type_ := Type_ m |}.
Definition set_Type_ (v : types_String) (m : t) : t :=
  {| ID := ID m; Name := Name m; Description := Description m;
     OrgID := OrgID m; RetentionRules := RetentionRules m; RP := RP m;
     CreatedAt := CreatedAt m; UpdatedAt := UpdatedAt m; Type_ := v |}.
End BucketResourceModel.

Module RetentionRuleModel.
Record t := {
  EverySeconds : types_Int64;
  Type_ : types_String
}.

(** What the reflection of [ElementsAs] does for one element: a known
    object with exactly the attributes [every_seconds] and [type]. *)
Definition decode (v : attr_Value) : option t :=
  match v with
  | Object_ (mkObject _ ValueStateKnown attrs) =>
      match attr_lookup "every_seconds" attrs, attr_lookup "type" attrs with
      | Some (Int64_ e), Some (String_ ty) =>
          if Nat.eqb (length attrs) 2
          then Some {| EverySeconds := e; Type_ := ty |}
          else None
      | _, _ => None
      end
  | _ => None
  end.
End RetentionRuleModel.

Module AuthorizationResourceModel.
Record t := {
  ID : types_String;
  OrgID : types_String;
  Description : types_String;
  Status : types_String;
  Permissions : types_Set;
  UserID : types_String;
  UserOrgID : types_String;
  Token : types_String
}.

(** Assignments to one field of the struct. *)
Definition set_ID (v : types_String) (m : t) : t :=
  {| ID := v; OrgID := OrgID m; Description := Description m;
     Status := Status m; Permissions := Permissions m; UserID := UserID m;
     UserOrgID := UserOrgID m; Token := Token m |}.
Definition set_Status (v : types_String) (m : t) : t :=
  {| ID := ID m; OrgID := OrgID m; Description := Description m;
     Status := v; Permissions := Permissions m; UserID := UserID m;
     UserOrgID := UserOrgID m; Token := Token m |}.
Definition set_UserID (v : types_String) (m : t) : t :=
  {| ID := ID m; OrgID := OrgID m; Description := Description m;
     Status := Status m; Permissions := Permissions m; UserID := v;
     UserOrgID := UserOrgID m; Token := Token m |}.
Definition set_UserOrgID (v : types_String) (m : t) : t :=
  {| ID := ID m; OrgID := OrgID m; Description := Description m;
     Status := Status m; Permissions := Permissions m; UserID := UserID m;
     UserOrgID := v; Token := Token m |}.
Definition set_Token (v : types_String) (m : t) : t :=
  {| ID := ID m; OrgID := OrgID m; Description := Description m;
     Status := Status m; Permissions := Permissions m; UserID := UserID m;
     UserOrgID := UserOrgID m; Token := v |}.
End AuthorizationResourceModel.

Module ResourceModel.
Record t := {
  ID : types_String;
  Org : types_String;
  OrgID : types_String;
  Type_ : types_String
}.

Definition decode (v : attr_Value) : option t :=
  match v with
  | Object_ (mkObject _ ValueStateKnown attrs) =>
      match attr_lookup "id" attrs, attr_lookup "org" attrs,
            attr_lookup "org_id" attrs, attr_lookup "type" attrs with
      | Some (String_ i), Some (String_ o), Some (String_ oi), Some (String_ ty) =>
          if Nat.eqb (length attrs) 4
          then Some {| ID := i; Org := o; OrgID := oi; Type_ := ty |}
          else None
      | _, _, _, _ => None
      end
  | _ => None
  end.
End ResourceModel.

Module PermissionModel.
Record t := {
  Action : types_String;
  Resource : types_Set
}.

Definition decode (v : attr_Value) : option t :=
  match v with
  | Object_ (mkObject _ ValueStateKnown attrs) =>
      match attr_lookup "action" attrs, attr_lookup "resource" attrs with
      | Some (String_ a), Some (Set_ r) =>
          if Nat.eqb (length attrs) 2
          then Some {| Action := a; Resource := r |}
          else None
      | _, _ => None
      end
  | _ => None
  end.
End PermissionModel.

(** ** Resource schemas

    An attribute with the settings that drive planning.  The description
    strings of the source are documentation and are left out. *)

Inductive PlanModifier := UseStateForUnknown | RequiresReplace.

Inductive Attribute :=
| StringAttribute (Required Optional Computed Sensitive : bool)
    (Default : option string) (PlanModifiers : list PlanModifier)
| SetNestedAttribute (Required : bool) (PlanModifiers : list PlanModifier)
    (NestedObject : gmap string Attribute).

Definition Attribute_PlanModifiers (a : Attribute) : list PlanModifier :=
  match a with
  | StringAttribute _ _ _ _ _ pms => pms
  | SetNestedAttribute _ pms _ => pms
  end.

Definition is_RequiresReplace (p : PlanModifier) : bool :=
  match p with RequiresReplace => true | UseStateForUnknown => false end.

(** How the framework plans a change of the value of attribute [name] of an
    existing resource: replacement when one of the attribute's plan
    modifiers requires it, an in-place update otherwise. *)
Inductive PlannedAction := ActionUpdate | ActionReplace.

Definition plan_change (schema : gmap string Attribute) (name : string)
    : option PlannedAction :=
  a ← schema !! name;
  Some (if existsb is_RequiresReplace (Attribute_PlanModifiers a)
        then ActionReplace else ActionUpdate).

(** [AuthorizationResource.Schema] *)
Definition AuthorizationResource_Schema : gmap string Attribute :=
  list_to_map [
    ("id", StringAttribute false false true false None [UseStateForUnknown]);
    ("org_id", StringAttribute true false false false None [RequiresReplace]);
    ("description", StringAttribute false true true false (Some "") []);
    ("status", StringAttribute false true true false (Some "active") []);
    ("permissions", SetNestedAttribute true
       [ (* Permissions cannot be updated once created *) ]
       (list_to_map [
          ("action", StringAttribute true false false false None []);
          ("resource", SetNestedAttribute true []
             (list_to_map [
                ("id", StringAttribute true false false false None []);
                ("org", StringAttribute false true true false (Some "") []);
                ("org_id", StringAttribute true false false false None []);
                ("type", StringAttribute true false false false None [])]))]));
    ("user_id", StringAttribute false false true false None [UseStateForUnknown]);
    ("user_org_id", StringAttribute false false true false None [UseStateForUnknown]);
    ("token", StringAttribute false false true true None [UseStateForUnknown])].

(** ** Requests and responses

    A request's plan, state or configuration is read with [Get], which
    decodes it into a model and may raise diagnostics.  A response records
    the diagnostics and the model given to [State.Set], if it was called;
    [State.Set] of a model struct whose tags are those of the schema raises
    no diagnostic. *)

Record Source (Model : Type) := {
  Get_Diagnostics : Diagnostics;
  Get_Model : Model
}.
Arguments Get_Diagnostics {Model} _.
Arguments Get_Model {Model} _.

Record Response (Model : Type) := {
  Resp_Diagnostics : Diagnostics;
  State_Set : option Model
}.
Arguments Resp_Diagnostics {Model} _.
Arguments State_Set {Model} _.

Definition respond {Model : Type} (ds : Diagnostics) : Response Model :=
  {| Resp_Diagnostics := ds; State_Set := None |}.

Definition respond_state {Model : Type} (ds : Diagnostics) (m : Model)
    : Response Model :=
  {| Resp_Diagnostics := ds; State_Set := Some m |}.

(** ** The remote store, the client and the monad of an operation *)

Section Provider.
Context {TI : TimeImpl} {Remote : Type}.

(** [influxdb2.Client] with its [BucketsAPI] and [AuthorizationsAPI].
    [Ready] may return a nil pointer with a nil error: the provider's
    [Configure] tests it.  [FindAuthorizationsByOrgID] returns a pointer to
    a slice, which is nil when the reply of the server has no list. *)
Record Client := {
  ServerURL : string;
  Ready : Remote -> GoResult (option Ready.t) * Remote;
  CreateBucket : Bucket.t -> Remote -> GoResult Bucket.t * Remote;
  FindBucketByID : string -> Remote -> GoResult Bucket.t * Remote;
  UpdateBucket : Bucket.t -> Remote -> GoResult Bucket.t * Remote;
  DeleteBucketWithID : string -> Remote -> option error * Remote;
  CreateAuthorization :
    Authorization.t -> Remote -> GoResult Authorization.t * Remote;
  FindAuthorizationsByOrgID :
    string -> Remote -> GoResult (option (list Authorization.t)) * Remote;
  UpdateAuthorizationStatus :
    Authorization.t -> string -> Remote -> GoResult Authorization.t * Remote;
  DeleteAuthorization : Authorization.t -> Remote -> option error * Remote
}.

(** The calls an operation makes, in order. *)
Inductive Call :=
| call_NewClientWithOptions (url token : string)
| call_Ready
| call_CreateBucket (b : Bucket.t)
| call_FindBucketByID (id : string)
| call_UpdateBucket (b : Bucket.t)
| call_DeleteBucketWithID (id : string)
| call_CreateAuthorization (a : Authorization.t)
| call_FindAuthorizationsByOrgID (orgID : string)
| call_UpdateAuthorizationStatus (a : Authorization.t) (status : string)
| call_DeleteAuthorization (a : Authorization.t).

(** The calls that change the store. *)
Definition is_mutation (c : Call) : bool :=
  match c with
  | call_CreateBucket _ | call_UpdateBucket _ | call_DeleteBucketWithID _
  | call_CreateAuthorization _ | call_UpdateAuthorizationStatus _ _
  | call_DeleteAuthorization _ => true
  | _ => false
  end.

Record World := {
  remote : Remote;
  calls : list Call
}.

Inductive Outcome (A : Type) :=
| Done (a : A)
| Panicked.
Arguments Done {A} a.
Arguments Panicked {A}.

Definition M (A : Type) : Type := World -> Outcome A * World.

Definition ret {A : Type} (a : A) : M A := fun w => (Done a, w).

Definition bind {A B : Type} (m : M A) (k : A -> M B) : M B :=
  fun w => match m w with
           | (Done a, w') => k a w'
           | (Panicked, w') => (Panicked, w')
           end.

(** A nil pointer dereference. *)
Definition panic {A : Type} : M A := fun w => (Panicked, w).

Definition deref {A : Type} (p : option A) : M A :=
  match p with Some a => ret a | None => panic end.

(** A client call: logged, then run on the store. *)
Definition call {A : Type} (c : Call) (f : Remote -> A * Remote) : M A :=
  fun w => let (a, s) := f (remote w) in
           (Done a, {| remote := s; calls := calls w ++ [c] |}).
End Provider.

Arguments Client {TI} Remote.
Arguments Call {TI}.
Arguments World {TI} Remote.
Arguments M {TI} Remote A.
Arguments Done {A} a.
Arguments Panicked {A}.

Notation "'let*' x ':=' c 'in' k" := (bind c (fun x => k))
  (at level 10, x name, c at level 200, k at level 200).


(** ** The bucket resource *)

Section BucketResource.
Context {TI : TimeImpl} {VR : ValueRendering} {Remote : Type}.

(** [resp.State.Set(ctx, &model)] with the diagnostics it returns appended
    to those of the response.  The retention rules are the only set of the
    model; a model that does not validate is not written.  (The sets of an
    authorization model are those of its plan, which Terraform hands over
    without equal elements.) *)
Definition BucketState_Set (diags : Diagnostics) (model : BucketResourceModel.t)
    : Response BucketResourceModel.t :=
  let set_diags := Set_Validate (BucketResourceModel.RetentionRules model) in
  if HasError set_diags
  then respond (diags ++ set_diags)
  else respond_state (diags ++ set_diags) model.

(** The object type of one retention rule, local to
    [convertRetentionRulesToTerraform]. *)
Definition retentionRuleType : list (string * attr_Type) :=
  [("every_seconds", Int64Type); ("type", StringType)].

(** [convertRetentionRulesToDomain] *)
Definition convertRetentionRulesToDomain (rulesSet : types_Set)
    : GoResult (list RetentionRule.t) :=
  match ElementsAs RetentionRuleModel.decode rulesSet with
  | None => GoErr "error converting retention rules set"
  | Some rules =>
      GoOk (fold_left
              (fun domainRules rule =>
                 let ruleType := ValueString (RetentionRuleModel.Type_ rule) in
                 domainRules ++
                 [{| RetentionRule.EverySeconds :=
                       ValueInt64 (RetentionRuleModel.EverySeconds rule);
                     RetentionRule.Type_ := Some ruleType |}])
              rules [])
  end.

(** The loop of [convertRetentionRulesToTerraform]: [None] is the return
    taken when [types.ObjectValue] raises an error. *)
Fixpoint retentionRuleElements (domainRules : list RetentionRule.t)
    (elements : list attr_Value) : option (list attr_Value) :=
  match domainRules with
  | [] => Some elements
  | rule :: rest =>
      let ruleTypeValue :=
        match RetentionRule.Type_ rule with
        | Some ty => ty
        | None => "expire"
        end in
      let (ruleObj, diags_HasError) :=
        ObjectValue retentionRuleType
          [("every_seconds", Int64_ (Int64Value (RetentionRule.EverySeconds rule)));
           ("type", String_ (StringValue ruleTypeValue))] in
      if diags_HasError then None
      else retentionRuleElements rest (elements ++ [Object_ ruleObj])
  end.

(** [convertRetentionRulesToTerraform] *)
Definition convertRetentionRulesToTerraform (domainRules : list RetentionRule.t)
    : types_Set * option error :=
  match retentionRuleElements domainRules [] with
  | None =>
      (SetNull (ObjectType retentionRuleType),
       Some "error creating retention rule object")
  | Some elements =>
      let (setValue, diags_HasError) :=
        SetValue (ObjectType retentionRuleType) elements in
      if diags_HasError
      then (SetNull (ObjectType retentionRuleType),
            Some "error creating retention rules set")
      else (setValue, None)
  end.

(** What [readBucket] assigns to the model from the bucket found, up to the
    conversion of the retention rules. *)
Definition readBucket_fields (result : Bucket.t) (model : BucketResourceModel.t) : BucketResourceModel.t :=
  let model := BucketResourceModel.set_Name (StringValue (Bucket.Name result)) model in
  let model :=
    match Bucket.Description result with
    | Some d => BucketResourceModel.set_Description (StringValue d) model
    | None => BucketResourceModel.set_Description (StringValue "") model
    end in
  let model :=
    match Bucket.OrgID result with
    | Some o => BucketResourceModel.set_OrgID (StringValue o) model
    | None => model
    end in
  let model :=
    match Bucket.Rp result with
    | Some rp => BucketResourceModel.set_RP (StringValue rp) model
    | None => BucketResourceModel.set_RP (StringValue "") model
    end in
  let model :=
    match Bucket.CreatedAt result with
    | Some t => BucketResourceModel.set_CreatedAt (StringValue (Time_String t)) model
    | None => model
    end in
  let model :=
    match Bucket.UpdatedAt result with
    | Some t => BucketResourceModel.set_UpdatedAt (StringValue (Time_String t)) model
    | None => model
    end in
  match Bucket.Type_ result with
  | Some ty => BucketResourceModel.set_Type_ (StringValue ty) model
  | None => model
  end.

(** [readBucket]: the model is mutated through its pointer, so the model as
    it stands is returned with the error. *)
Definition readBucket (client : Client Remote) (model : BucketResourceModel.t)
    : M Remote (BucketResourceModel.t * option error) :=
  let id := ValueString (BucketResourceModel.ID model) in
  let* result := call (call_FindBucketByID id) (FindBucketByID client id) in
  match result with
  | GoErr err => ret (model, Some ("error finding bucket: " +:+ err))
  | GoOk result =>
      let model := readBucket_fields result model in
      let (retentionRulesSet, err) :=
        convertRetentionRulesToTerraform (Bucket.RetentionRules result) in
      match err with
      | Some err =>
          ret (model, Some ("error converting retention rules: " +:+ err))
      | None =>
          ret (BucketResourceModel.set_RetentionRules retentionRulesSet model,
               None)
      end
  end.

(** The [domain.Bucket] that [Create] builds from the plan: the fields it
    does not name are nil. *)
Definition Create_newBucket (plan : BucketResourceModel.t)
    (retentionRules : list RetentionRule.t) : Bucket.t :=
  let desc := ValueString (BucketResourceModel.Description plan) in
  let orgID := ValueString (BucketResourceModel.OrgID plan) in
  let rp := ValueString (BucketResourceModel.RP plan) in
  {| Bucket.CreatedAt := None;
     Bucket.Description := Some desc;
     Bucket.Id := None;
     Bucket.Name := ValueString (BucketResourceModel.Name plan);
     Bucket.OrgID := Some orgID;
     Bucket.RetentionRules := retentionRules;
     Bucket.Rp := Some rp;
     Bucket.Type_ := None;
     Bucket.UpdatedAt := None |}.

(** [BucketResource.Create] *)
Definition BucketResource_Create (client : Client Remote) (req_Plan : Source BucketResourceModel.t)
    : M Remote (Response BucketResourceModel.t) :=
  let plan := Get_Model req_Plan in
  let diags := Get_Diagnostics req_Plan in
  if HasError diags then ret (respond diags) else
  match convertRetentionRulesToDomain (BucketResourceModel.RetentionRules plan) with
  | GoErr err =>
      ret (respond (AddError diags "Error Converting Retention Rules"
                      ("Could not convert retention rules: " +:+ err)))
  | GoOk retentionRules =>
      let newBucket := Create_newBucket plan retentionRules in
      let* result := call (call_CreateBucket newBucket) (CreateBucket client newBucket) in
      match result with
      | GoErr err =>
          ret (respond (AddError diags "Error Creating Bucket"
                          ("Could not create bucket, unexpected error: " +:+ err)))
      | GoOk result =>
          let* id := deref (Bucket.Id result) in
          let plan := BucketResourceModel.set_ID (StringValue id) plan in
          let* r := readBucket client plan in
          let (plan, err) := r in
          match err with
          | Some err =>
              ret (respond (AddError diags "Error Reading Bucket After Creation"
                              ("Could not read bucket after creation: " +:+ err)))
          | None => ret (BucketState_Set diags plan)
          end
      end
  end.

(** [BucketResource.Read] *)
Definition BucketResource_Read (client : Client Remote) (req_State : Source BucketResourceModel.t)
    : M Remote (Response BucketResourceModel.t) :=
  let state := Get_Model req_State in
  let diags := Get_Diagnostics req_State in
  if HasError diags then ret (respond diags) else
  let* r := readBucket client state in
  let (state, err) := r in
  match err with
  | Some err =>
      ret (respond (AddError diags "Error Reading Bucket"
                      ("Could not read bucket ID "
                       +:+ ValueString (BucketResourceModel.ID state)
                       +:+ ": " +:+ err)))
  | None => ret (BucketState_Set diags state)
  end.

End BucketResource.


(** ** The readiness data source *)

Section ReadyDataSource.
Context {TI : TimeImpl} {Remote : Type}.

(** [ReadyDataSource.Read].  The request is not read.  [ready.Status] is
    the first use of the pointer [Ready] returned. *)
Definition ReadyDataSource_Read (client : Client Remote)
    : M Remote (Response ReadyDataSourceModel.t) :=
  let state := ReadyDataSourceModel.zero in
  let* ready := call call_Ready (Ready client) in
  match ready with
  | GoErr err =>
      ret (respond (AddError [] "Error Checking Server Status"
                      ("Could not check if server is ready: " +:+ err)))
  | GoOk ready =>
      let serverURL := ServerURL client in
      let state_ID := StringValue serverURL in
      let state_URL := StringValue serverURL in
      let state_Ready := BoolValue true in
      let* ready := deref ready in
      let state_Status :=
        match Ready.Status ready with
        | Some st => StringValue st
        | None => StringValue "unknown"
        end in
      let state_Started :=
        match Ready.Started ready with
        | Some t => StringValue (Time_String t)
        | None => StringValue ""
        end in
      ret (respond_state []
             {| ReadyDataSourceModel.ID := state_ID;
                ReadyDataSourceModel.URL := state_URL;
                ReadyDataSourceModel.Ready := state_Ready;
                ReadyDataSourceModel.Status := state_Status;
                ReadyDataSourceModel.Started := state_Started |})
  end.

End ReadyDataSource.

(** ** The provider *)

Section influxdbProvider.
Context {TI : TimeImpl} {Remote : Type}.

Definition newline : string := String (Ascii.ascii_of_nat 10) "".

(** [os.Getenv]: the empty string for a variable that is not set. *)
Definition Getenv (env : gmap string string) (key : string) : string :=
  default "" (env !! key).

Record ConfigureResponse := {
  Configure_Diagnostics : Diagnostics;
  DataSourceData : option (Client Remote);
  ResourceData : option (Client Remote)
}.

Definition configure_failed (ds : Diagnostics) : ConfigureResponse :=
  {| Configure_Diagnostics := ds; DataSourceData := None; ResourceData := None |}.

(** The url [Configure] works with: lines 81 to 87 of [provider.go]. *)
Definition Configure_url (env : gmap string string)
    (config : influxdbProviderModel.t) : string :=
  let url := Getenv env "INFLUXDB_V2_URL" in
  let url :=
    if negb (String_IsNull (influxdbProviderModel.URL config))
    then ValueString (influxdbProviderModel.URL config)
    else url in
  if String.eqb url "" then "http://localhost:8086" else url.

(** The token [Configure] works with: lines 89 to 92. *)
Definition Configure_token (env : gmap string string)
    (config : influxdbProviderModel.t) : string :=
  let token := Getenv env "INFLUXDB_V2_TOKEN" in
  if negb (String_IsNull (influxdbProviderModel.Token config))
  then ValueString (influxdbProviderModel.Token config)
  else token.

(** The two tests on missing configuration: lines 96 to 112. *)
Definition Configure_missing (url token : string) (diags : Diagnostics)
    : Diagnostics :=
  let diags :=
    if String.eqb url ""
    then AddError diags "Missing InfluxDB URL Configuration"
           ("While configuring the provider, the InfluxDB URL was not found in "
            +:+ "the INFLUXDB_V2_URL environment variable or provider "
            +:+ "configuration block url attribute.")
    else diags in
  if String.eqb token ""
  then AddError diags "Missing InfluxDB Token Configuration"
         ("While configuring the provider, the InfluxDB token was not found in "
          +:+ "the INFLUXDB_V2_TOKEN environment variable or provider "
          +:+ "configuration block token attribute.")
  else diags.

(** [influxdbProvider.Configure].  [NewClientWithOptions] builds the client
    of a url and a token; building it is logged as a call. *)
Definition influxdbProvider_Configure
    (NewClientWithOptions : string -> string -> Client Remote)
    (env : gmap string string) (req_Config : Source influxdbProviderModel.t)
    : M Remote ConfigureResponse :=
  let config := Get_Model req_Config in
  let diags := Get_Diagnostics req_Config in
  if HasError diags then ret (configure_failed diags) else
  let url := Configure_url env config in
  let token := Configure_token env config in
  let diags := Configure_missing url token diags in
  if HasError diags then ret (configure_failed diags) else
  let* client := call (call_NewClientWithOptions url token)
                      (fun s => (NewClientWithOptions url token, s)) in
  let* ready := call call_Ready (Ready client) in
  match ready with
  | GoErr err =>
      ret (configure_failed
             (AddError diags "Unable to Connect to InfluxDB Server"
                ("An unexpected error occurred when connecting to the InfluxDB server. "
                 +:+ "If the error is not clear, please contact the provider developers."
                 +:+ newline +:+ newline
                 +:+ "InfluxDB Client Error: " +:+ err)))
  | GoOk ready =>
      let not_ready :=
        match ready with
        | None => true
        | Some ready =>
            match Ready.Status ready with None => true | Some _ => false end
        end in
      if not_ready
      then ret (configure_failed
                  (AddError diags "InfluxDB Server Not Ready"
                     "The InfluxDB server is not ready to accept connections."))
      else ret {| Configure_Diagnostics := diags;
                  DataSourceData := Some client;
                  ResourceData := Some client |}
  end.

End influxdbProvider.


(** ** The authorization resource *)

Section AuthorizationResource.
Context {TI : TimeImpl} {Remote : Type}.

(** The search loop of [readAuthorization]: the [Id] pointer of every record
    is dereferenced, without a nil test, up to the first match. *)
Fixpoint findAuthorization (authorizations : list Authorization.t) (id : string)
    : M Remote (option Authorization.t) :=
  match authorizations with
  | [] => ret None
  | a :: rest =>
      let* a_Id := deref (Authorization.Id a) in
      if String.eqb a_Id id then ret (Some a) else findAuthorization rest id
  end.

(** What [readAuthorization] assigns to the model from the record found. *)
Definition readAuthorization_fields (auth : Authorization.t)
    (model : AuthorizationResourceModel.t) : AuthorizationResourceModel.t :=
  let model :=
    match Authorization.Status auth with
    | Some st => AuthorizationResourceModel.set_Status (StringValue st) model
    | None => model
    end in
  let model :=
    match Authorization.UserID auth with
    | Some u => AuthorizationResourceModel.set_UserID (StringValue u) model
    | None => model
    end in
  let model :=
    match Authorization.OrgID auth with
    | Some o => AuthorizationResourceModel.set_UserOrgID (StringValue o) model
    | None => model
    end in
  match Authorization.Token auth with
  | Some tok => AuthorizationResourceModel.set_Token (StringValue tok) model
  | None => model
  end.

(** [readAuthorization]: the loop ranges over the slice behind the pointer
    returned, which is dereferenced without a nil test. *)
Definition readAuthorization (client : Client Remote)
    (model : AuthorizationResourceModel.t)
    : M Remote (AuthorizationResourceModel.t * option error) :=
  let orgID := ValueString (AuthorizationResourceModel.OrgID model) in
  let* authorizations :=
    call (call_FindAuthorizationsByOrgID orgID)
         (FindAuthorizationsByOrgID client orgID) in
  match authorizations with
  | GoErr err => ret (model, Some ("error finding authorizations: " +:+ err))
  | GoOk authorizations =>
      let* authorizations := deref authorizations in
      let* auth :=
        findAuthorization authorizations
          (ValueString (AuthorizationResourceModel.ID model)) in
      match auth with
      | None => ret (model, Some "authorization not found")
      | Some auth => ret (readAuthorization_fields auth model, None)
      end
  end.

(** One permission of the plan and one of its resources give one
    [domain.Permission]. *)
Definition domainPermission (perm : PermissionModel.t) (res : ResourceModel.t)
    : Permission.t :=
  let id := ValueString (ResourceModel.ID res) in
  let orgID := ValueString (ResourceModel.OrgID res) in
  let org := ValueString (ResourceModel.Org res) in
  let name := "" in
  let domainResource :=
    {| Resource.Type_ := ValueString (ResourceModel.Type_ res);
       Resource.Id := Some id;
       Resource.OrgID := Some orgID;
       Resource.Name := Some name;
       Resource.Org := Some org |} in
  {| Permission.Action := ValueString (PermissionModel.Action perm);
     Permission.Resource := domainResource |}.

(** The outer loop of [convertPermissionsToDomain], the inner loop being a
    fold that appends to [domainPermissions]. *)
Fixpoint convertPermissions_loop (permissions : list PermissionModel.t)
    (domainPermissions : list Permission.t) : GoResult (list Permission.t) :=
  match permissions with
  | [] => GoOk domainPermissions
  | perm :: rest =>
      match ElementsAs ResourceModel.decode (PermissionModel.Resource perm) with
      | None => GoErr "error converting resources set"
      | Some resources =>
          convertPermissions_loop rest
            (fold_left
               (fun domainPermissions res =>
                  domainPermissions ++ [domainPermission perm res])
               resources domainPermissions)
      end
  end.

(** [convertPermissionsToDomain] *)
Definition convertPermissionsToDomain (permsSet : types_Set)
    : GoResult (list Permission.t) :=
  match ElementsAs PermissionModel.decode permsSet with
  | None => GoErr "error converting permissions set"
  | Some permissions => convertPermissions_loop permissions []
  end.

(** [AuthorizationResource.Create] *)
Definition AuthorizationResource_Create (client : Client Remote)
    (req_Plan : Source AuthorizationResourceModel.t)
    : M Remote (Response AuthorizationResourceModel.t) :=
  let plan := Get_Model req_Plan in
  let diags := Get_Diagnostics req_Plan in
  if HasError diags then ret (respond diags) else
  match convertPermissionsToDomain (AuthorizationResourceModel.Permissions plan) with
  | GoErr err =>
      ret (respond (AddError diags "Error Converting Permissions"
                      ("Could not convert permissions: " +:+ err)))
  | GoOk permissions =>
      let orgID := ValueString (AuthorizationResourceModel.OrgID plan) in
      let desc := ValueString (AuthorizationResourceModel.Description plan) in
      let status := ValueString (AuthorizationResourceModel.Status plan) in
      let authorization :=
        {| Authorization.Description := Some desc;
           Authorization.Status := Some status;
           Authorization.Id := None;
           Authorization.OrgID := Some orgID;
           Authorization.Permissions := Some permissions;
           Authorization.Token := None;
           Authorization.UserID := None |} in
      let* result :=
        call (call_CreateAuthorization authorization)
             (CreateAuthorization client authorization) in
      match result with
      | GoErr err =>
          ret (respond (AddError diags "Error Creating Authorization"
                          ("Could not create authorization: " +:+ err)))
      | GoOk result =>
          let* id := deref (Authorization.Id result) in
          let plan := AuthorizationResourceModel.set_ID (StringValue id) plan in
          let plan :=
            match Authorization.Token result with
            | Some tok => AuthorizationResourceModel.set_Token (StringValue tok) plan
            | None => plan
            end in
          let plan :=
            match Authorization.UserID result with
            | Some u => AuthorizationResourceModel.set_UserID (StringValue u) plan
            | None => plan
            end in
          let plan :=
            match Authorization.OrgID result with
            | Some o => AuthorizationResourceModel.set_UserOrgID (StringValue o) plan
            | None => plan
            end in
          ret (respond_state diags plan)
      end
  end.

(** [AuthorizationResource.Read] *)
Definition AuthorizationResource_Read (client : Client Remote)
    (req_State : Source AuthorizationResourceModel.t)
    : M Remote (Response AuthorizationResourceModel.t) :=
  let state := Get_Model req_State in
  let diags := Get_Diagnostics req_State in
  if HasError diags then ret (respond diags) else
  let* r := readAuthorization client state in
  let (state, err) := r in
  match err with
  | Some err =>
      ret (respond (AddError diags "Error Reading Authorization"
                      ("Could not read authorization ID "
                       +:+ ValueString (AuthorizationResourceModel.ID state)
                       +:+ ": " +:+ err)))
  | None => ret (respond_state diags state)
  end.

(** [AuthorizationResource.Update] *)
Definition AuthorizationResource_Update (client : Client Remote)
    (req_Plan : Source AuthorizationResourceModel.t)
    : M Remote (Response AuthorizationResourceModel.t) :=
  let plan := Get_Model req_Plan in
  let diags := Get_Diagnostics req_Plan in
  if HasError diags then ret (respond diags) else
  let id := ValueString (AuthorizationResourceModel.ID plan) in
  let authorization :=
    {| Authorization.Description := None;
       Authorization.Status := None;
       Authorization.Id := Some id;
       Authorization.OrgID := None;
       Authorization.Permissions := None;
       Authorization.Token := None;
       Authorization.UserID := None |} in
  let statusUpdate := ValueString (AuthorizationResourceModel.Status plan) in
  let* result :=
    call (call_UpdateAuthorizationStatus authorization statusUpdate)
         (UpdateAuthorizationStatus client authorization statusUpdate) in
  match result with
  | GoErr err =>
      ret (respond (AddError diags "Error Updating Authorization"
                      ("Could not update authorization status: " +:+ err)))
  | GoOk _ =>
      let* r := readAuthorization client plan in
      let (plan, err) := r in
      match err with
      | Some err =>
          ret (respond (AddError diags "Error Reading Authorization After Update"
                          ("Could not read authorization after update: " +:+ err)))
      | None => ret (respond_state diags plan)
      end
  end.

End AuthorizationResource.


(** ** The bucket resource: [Update] and [Delete] *)

Section BucketResource_Update_Delete.
Context {TI : TimeImpl} {VR : ValueRendering} {Remote : Type}.

(** The [domain.Bucket] that [Update] builds from the plan: that of
    [Create], with the id. *)
Definition Update_updateBucket (plan : BucketResourceModel.t)
    (retentionRules : list RetentionRule.t) : Bucket.t :=
  let id := ValueString (BucketResourceModel.ID plan) in
  let desc := ValueString (BucketResourceModel.Description plan) in
  let orgID := ValueString (BucketResourceModel.OrgID plan) in
  let rp := ValueString (BucketResourceModel.RP plan) in
  {| Bucket.CreatedAt := None;
     Bucket.Description := Some desc;
     Bucket.Id := Some id;
     Bucket.Name := ValueString (BucketResourceModel.Name plan);
     Bucket.OrgID := Some orgID;
     Bucket.RetentionRules := retentionRules;
     Bucket.Rp := Some rp;
     Bucket.Type_ := None;
     Bucket.UpdatedAt := None |}.

(** [BucketResource.Update] *)
Definition BucketResource_Update (client : Client Remote)
    (req_Plan : Source BucketResourceModel.t)
    : M Remote (Response BucketResourceModel.t) :=
  let plan := Get_Model req_Plan in
  let diags := Get_Diagnostics req_Plan in
  if HasError diags then ret (respond diags) else
  match convertRetentionRulesToDomain (BucketResourceModel.RetentionRules plan) with
  | GoErr err =>
      ret (respond (AddError diags "Error Converting Retention Rules"
                      ("Could not convert retention rules: " +:+ err)))
  | GoOk retentionRules =>
      let updateBucket := Update_updateBucket plan retentionRules in
      let* result :=
        call (call_UpdateBucket updateBucket) (UpdateBucket client updateBucket) in
      match result with
      | GoErr err =>
          ret (respond (AddError diags "Error Updating Bucket"
                          ("Could not update bucket, unexpected error: " +:+ err)))
      | GoOk _ =>
          let* r := readBucket client plan in
          let (plan, err) := r in
          match err with
          | Some err =>
              ret (respond (AddError diags "Error Reading Bucket After Update"
                              ("Could not read bucket after update: " +:+ err)))
          | None => ret (BucketState_Set diags plan)
          end
      end
  end.

(** [BucketResource.Delete]: the response carries diagnostics only; the
    method never touches the state. *)
Definition BucketResource_Delete (client : Client Remote)
    (req_State : Source BucketResourceModel.t) : M Remote Diagnostics :=
  let state := Get_Model req_State in
  let diags := Get_Diagnostics req_State in
  if HasError diags then ret diags else
  let id := ValueString (BucketResourceModel.ID state) in
  let* err := call (call_DeleteBucketWithID id) (DeleteBucketWithID client id) in
  match err with
  | Some err =>
      ret (AddError diags "Error Deleting Bucket"
             ("Could not delete bucket, unexpected error: " +:+ err))
  | None => ret diags
  end.

End BucketResource_Update_Delete.

(** ** The authorization resource: [Delete] and
       [convertPermissionsToTerraform] *)

Section AuthorizationResource_Delete.
Context {TI : TimeImpl} {Remote : Type}.

(** [AuthorizationResource.Delete] *)
Definition AuthorizationResource_Delete (client : Client Remote)
    (req_State : Source AuthorizationResourceModel.t) : M Remote Diagnostics :=
  let state := Get_Model req_State in
  let diags := Get_Diagnostics req_State in
  if HasError diags then ret diags else
  let id := ValueString (AuthorizationResourceModel.ID state) in
  let authorization :=
    {| Authorization.Description := None;
       Authorization.Status := None;
       Authorization.Id := Some id;
       Authorization.OrgID := None;
       Authorization.Permissions := None;
       Authorization.Token := None;
       Authorization.UserID := None |} in
  let* err :=
    call (call_DeleteAuthorization authorization)
         (DeleteAuthorization client authorization) in
  match err with
  | Some err =>
      ret (AddError diags "Error Deleting Authorization"
             ("Could not delete authorization: " +:+ err))
  | None => ret diags
  end.

End AuthorizationResource_Delete.

(** The object types local to [convertPermissionsToTerraform]. *)
Definition resourceType : list (string * attr_Type) :=
  [("id", StringType); ("org", StringType); ("org_id", StringType);
   ("type", StringType)].

Definition permissionType : list (string * attr_Type) :=
  [("action", StringType); ("resource", SetType (ObjectType resourceType))].

(** The loop of [convertPermissionsToTerraform]: the error is that of the
    first constructor of the framework that raises a diagnostic. *)
Fixpoint permissionElements (domainPerms : list Permission.t)
    (elements : list attr_Value) : GoResult (list attr_Value) :=
  match domainPerms with
  | [] => GoOk elements
  | perm :: rest =>
      let resourceElements : list attr_Value := [] in
      let id := match Resource.Id (Permission.Resource perm) with
                | Some i => i
                | None => ""
                end in
      let orgID := match Resource.OrgID (Permission.Resource perm) with
                   | Some o => o
                   | None => ""
                   end in
      let org := match Resource.Org (Permission.Resource perm) with
                 | Some o => o
                 | None => ""
                 end in
      let (resObj, diags_HasError) :=
        ObjectValue resourceType
          [("id", String_ (StringValue id));
           ("org", String_ (StringValue org));
           ("org_id", String_ (StringValue orgID));
           ("type", String_ (StringValue (Resource.Type_ (Permission.Resource perm))))] in
      if diags_HasError then GoErr "error creating resource object" else
      let resourceElements := resourceElements ++ [Object_ resObj] in
      let (resourceSet, diags_HasError) :=
        SetValue (ObjectType resourceType) resourceElements in
      if diags_HasError then GoErr "error creating resource set" else
      let (permObj, diags_HasError) :=
        ObjectValue permissionType
          [("action", String_ (StringValue (Permission.Action perm)));
           ("resource", Set_ resourceSet)] in
      if diags_HasError then GoErr "error creating permission object" else
      permissionElements rest (elements ++ [Object_ permObj])
  end.

(** [convertPermissionsToTerraform] *)
Definition convertPermissionsToTerraform (domainPerms : list Permission.t)
    : types_Set * option error :=
  match permissionElements domainPerms [] with
  | GoErr err => (SetNull (ObjectType permissionType), Some err)
  | GoOk elements =>
      let (setValue, diags_HasError) :=
        SetValue (ObjectType permissionType) elements in
      if diags_HasError
      then (SetNull (ObjectType permissionType),
            Some "error creating permissions set")
      else (setValue, None)
  end.

(** ** [Configure] of the resources and of the data source

    [req.ProviderData] is an [any]: nil, a client, or a value of another
    type, of which the message prints the type name.  The receiver's
    [client] field is nil until a client is assigned. *)

Section Configure.
Context {TI : TimeImpl} {Remote : Type}.

Inductive any :=
| any_Client (client : Client Remote)
| any_other (typeName : string).

Definition resource_Configure (summary : string)
    (r_client : option (Client Remote)) (req_ProviderData : option any)
    : option (Client Remote) * Diagnostics :=
  match req_ProviderData with
  | None => (r_client, [])
  | Some (any_Client client) => (Some client, [])
  | Some (any_other typeName) =>
      (r_client,
       AddError [] summary
         ("Expected influxdb2.Client, got: " +:+ typeName
          +:+ ". Please report this issue to the provider developers."))
  end.

(** [BucketResource.Configure] *)
Definition BucketResource_Configure :=
  resource_Configure "Unexpected Resource Configure Type".

(** [AuthorizationResource.Configure] *)
Definition AuthorizationResource_Configure :=
  resource_Configure "Unexpected Resource Configure Type".

(** [ReadyDataSource.Configure] *)
Definition ReadyDataSource_Configure :=
  resource_Configure "Unexpected Data Source Configure Type".

(** ** The provider of the plugin SDK: [providerConfigure] and
       [DataGetReady]

    [d.Get("url")] and [d.Get("token")] are the strings the SDK resolved.
    Of the [schema.ResourceData] of the data source, the id and the
    [output] map are kept. *)

(** [providerConfigure] *)
Definition providerConfigure
    (NewClientWithOptions : string -> string -> Client Remote)
    (d_url d_token : string) : M Remote (GoResult (Client Remote)) :=
  let* influx := call (call_NewClientWithOptions d_url d_token)
                      (fun s => (NewClientWithOptions d_url d_token, s)) in
  let* ready := call call_Ready (Ready influx) in
  match ready with
  | GoErr err => ret (GoErr ("error pinging server: " +:+ err))
  | GoOk _ => ret (GoOk influx)
  end.

Record schema_ResourceData := {
  Data_Id : string;
  Data_output : option (gmap string string)
}.

(** [DataGetReady].  The assertion [meta.(influxdb2.Client)] panics on a
    value of another type; [ready.Started.Before] dereferences [ready] and
    [ready.Started].  The comparison with [time.Now()] decides a log line
    only. *)
Definition DataGetReady (d : schema_ResourceData) (meta : any)
    : M Remote (schema_ResourceData * option error) :=
  match meta with
  | any_other _ => panic
  | any_Client influx =>
      let* ready := call call_Ready (Ready influx) in
      match ready with
      | GoErr err => ret (d, Some ("server is not ready: " +:+ err))
      | GoOk ready =>
          let* ready := deref ready in
          let* started := deref (Ready.Started ready) in
          let output : gmap string string := {[ "url" := ServerURL influx ]} in
          let id := ServerURL influx in
          ret ({| Data_Id := id; Data_output := Some output |}, None)
      end
  end.

End Configure.

Arguments any {TI} Remote.

(** ** Vocabulary of the statements *)

(** The retention rule, as a Terraform object, that a rule of the store
    reads back as. *)
Definition retentionRuleObject (rule : RetentionRule.t) : attr_Value :=
  Object_ (mkObject retentionRuleType ValueStateKnown
    [("every_seconds", Int64_ (Int64Value (RetentionRule.EverySeconds rule)));
     ("type", String_ (StringValue (default "expire" (RetentionRule.Type_ rule))))]).

(** The model of a retention rule that a rule of the store reads back as. *)
Definition retentionRuleRead (rule : RetentionRule.t) : RetentionRuleModel.t :=
  {| RetentionRuleModel.EverySeconds := Int64Value (RetentionRule.EverySeconds rule);
     RetentionRuleModel.Type_ :=
       StringValue (default "expire" (RetentionRule.Type_ rule)) |}.

(** ** A scripted store, for the examples

    Times are given by their rendering.  The scripted client answers every
    call with the result it was built with and keeps no state. *)

Definition rendered_time : TimeImpl :=
  {| time_Time := string; Time_String := fun t => t |}.

Definition at_time (rendering : string) : @time_Time rendered_time := rendering.

Definition scripted_client
    (ready : GoResult (option (@Ready.t rendered_time)))
    (bucket : GoResult (@Bucket.t rendered_time))
    (authorization : GoResult Authorization.t)
    (authorizations : GoResult (list Authorization.t))
    : @Client rendered_time unit :=
  {| ServerURL := "http://localhost:8086";
     Ready := fun s => (ready, s);
     CreateBucket := fun _ s => (bucket, s);
     FindBucketByID := fun _ s => (bucket, s);
     UpdateBucket := fun _ s => (bucket, s);
     DeleteBucketWithID := fun _ s => (None, s);
     CreateAuthorization := fun _ s => (authorization, s);
     FindAuthorizationsByOrgID :=
       fun _ s => (match authorizations with
                   | GoErr err => GoErr err
                   | GoOk listed => GoOk (Some listed)
                   end, s);
     UpdateAuthorizationStatus := fun _ _ s => (authorization, s);
     DeleteAuthorization := fun _ s => (None, s) |}.

Definition start : @World rendered_time unit := {| remote := tt; calls := [] |}.

Definition no_error {A : Type} : GoResult A := GoErr "not scripted".

(** The bucket of scenario 6 of the specification, as the store returns it
    when it leaves description, retention policy and rule type unset. *)
Definition temp_bucket : @Bucket.t rendered_time :=
  {| Bucket.CreatedAt := Some (at_time "2024-01-01 00:00:00 +0000 UTC");
     Bucket.Description := None;
     Bucket.Id := Some "b1";
     Bucket.Name := "temp";
     Bucket.OrgID := Some "org1";
     Bucket.RetentionRules :=
       [{| RetentionRule.EverySeconds := 2592000; RetentionRule.Type_ := None |}];
     Bucket.Rp := None;
     Bucket.Type_ := Some "user";
     Bucket.UpdatedAt := Some (at_time "2024-01-01 00:00:00 +0000 UTC") |}.

Definition temp_plan : BucketResourceModel.t :=
  {| BucketResourceModel.ID := StringUnknown;
     BucketResourceModel.Name := StringValue "temp";
     BucketResourceModel.Description := StringValue "";
     BucketResourceModel.OrgID := StringValue "org1";
     BucketResourceModel.RetentionRules :=
       mkSet (ObjectType retentionRuleType) ValueStateKnown
         [Object_ (mkObject retentionRuleType ValueStateKnown
            [("every_seconds", Int64_ (Int64Value 2592000));
             ("type", String_ (StringValue "expire"))])];
     BucketResourceModel.RP := StringValue "";
     BucketResourceModel.CreatedAt := StringUnknown;
     BucketResourceModel.UpdatedAt := StringUnknown;
     BucketResourceModel.Type_ := StringUnknown |}.

(** Permissions as Terraform values: the object types are those of the
    authorization schema. *)
Definition resourceAttrTypes : list (string * attr_Type) :=
  [("id", StringType); ("org", StringType); ("org_id", StringType);
   ("type", StringType)].

Definition permissionAttrTypes : list (string * attr_Type) :=
  [("action", StringType);
   ("resource", SetType (ObjectType resourceAttrTypes))].

Definition resource_value (id org orgID type : string) : attr_Value :=
  Object_ (mkObject resourceAttrTypes ValueStateKnown
    [("id", String_ (StringValue id)); ("org", String_ (StringValue org));
     ("org_id", String_ (StringValue orgID));
     ("type", String_ (StringValue type))]).

Definition permission_value (action : string) (resources : list attr_Value)
    : attr_Value :=
  Object_ (mkObject permissionAttrTypes ValueStateKnown
    [("action", String_ (StringValue action));
     ("resource",
      Set_ (mkSet (ObjectType resourceAttrTypes) ValueStateKnown resources))]).

Definition permissions_value (permissions : list attr_Value) : types_Set :=
  mkSet (ObjectType permissionAttrTypes) ValueStateKnown permissions.

(** Scenario 7 of the specification: read and write on the bucket "temp". *)
Definition read_write_temp : types_Set :=
  permissions_value
    [permission_value "read" [resource_value "b1" "" "org1" "buckets"];
     permission_value "write" [resource_value "b1" "" "org1" "buckets"]].

(** One entry with two resources, one entry with none. *)
Definition read_two_write_none : types_Set :=
  permissions_value
    [permission_value "read" [resource_value "b1" "" "org1" "buckets";
                              resource_value "b2" "" "org1" "buckets"];
     permission_value "write" []].

Definition auth_model : AuthorizationResourceModel.t :=
  {| AuthorizationResourceModel.ID := StringValue "a1";
     AuthorizationResourceModel.OrgID := StringValue "org1";
     AuthorizationResourceModel.Description := StringValue "Test authorization";
     AuthorizationResourceModel.Status := StringValue "active";
     AuthorizationResourceModel.Permissions := read_write_temp;
     AuthorizationResourceModel.UserID := StringValue "u1";
     AuthorizationResourceModel.UserOrgID := StringValue "org1";
     AuthorizationResourceModel.Token := StringValue "issued-token" |}.

(** The record of "a1" as the store lists it: the status has changed and
    the list carries a token. *)
Definition listed_a1 : Authorization.t :=
  {| Authorization.Description := Some "Test authorization";
     Authorization.Status := Some "inactive";
     Authorization.Id := Some "a1";
     Authorization.OrgID := Some "org1";
     Authorization.Permissions := None;
     Authorization.Token := Some "listed-token";
     Authorization.UserID := Some "u1" |}.

Definition listed_a2 : Authorization.t :=
  {| Authorization.Description := Some "another";
     Authorization.Status := Some "active";
     Authorization.Id := Some "a2";
     Authorization.OrgID := Some "org1";
     Authorization.Permissions := None;
     Authorization.Token := None;
     Authorization.UserID := Some "u2" |}.

(** A request whose plan, state or configuration decodes without
    diagnostics. *)
Definition decoded {Model : Type} (m : Model) : Source Model :=
  {| Get_Diagnostics := []; Get_Model := m |}.

(** [mentions pattern text]: the pattern occurs in the text. *)
Definition mentions (pattern text : string) : bool :=
  match String.index 0 pattern text with
  | Some _ => true
  | None => false
  end.

(** The plan of a change of the description of "a1", everything else as in
    the state. *)
Definition auth_plan_new_description : AuthorizationResourceModel.t :=
  {| AuthorizationResourceModel.ID := StringValue "a1";
     AuthorizationResourceModel.OrgID := StringValue "org1";
     AuthorizationResourceModel.Description := StringValue "Updated description";
     AuthorizationResourceModel.Status := StringValue "active";
     AuthorizationResourceModel.Permissions := read_write_temp;
     AuthorizationResourceModel.UserID := StringValue "u1";
     AuthorizationResourceModel.UserOrgID := StringValue "org1";
     AuthorizationResourceModel.Token := StringValue "issued-token" |}.

(** A server that answers the readiness probe. *)
Definition ready_server : @Ready.t rendered_time :=
  {| Ready.Started := Some (at_time "2024-01-01 00:00:00 +0000 UTC");
     Ready.Status := Some "ready";
     Ready.Up := Some "1h" |}.

(** A provider block that sets nothing, and one that sets the url to the
    empty string. *)
Definition config_unset : influxdbProviderModel.t :=
  {| influxdbProviderModel.URL := StringNull;
     influxdbProviderModel.Token := StringNull |}.

Definition config_empty_url : influxdbProviderModel.t :=
  {| influxdbProviderModel.URL := StringValue "";
     influxdbProviderModel.Token := StringValue "secret" |}.

Definition env_with_url : gmap string string :=
  {[ "INFLUXDB_V2_URL" := "http://influx.example:8086" ]}.

Definition scripted_NewClientWithOptions (url token : string)
    : @Client rendered_time unit :=
  scripted_client (GoOk (Some ready_server)) no_error no_error no_error.

(** A rule of the store with its type defaulted, as it comes back from a
    conversion to Terraform and back. *)
Definition retentionRuleDefaulted (rule : RetentionRule.t) : RetentionRule.t :=
  {| RetentionRule.EverySeconds := RetentionRule.EverySeconds rule;
     RetentionRule.Type_ := Some (default "expire" (RetentionRule.Type_ rule)) |}.

(** The rule of the store that a rule of the plan is sent as. *)
Definition retentionRuleSent (rule : RetentionRuleModel.t) : RetentionRule.t :=
  {| RetentionRule.EverySeconds := ValueInt64 (RetentionRuleModel.EverySeconds rule);
     RetentionRule.Type_ := Some (ValueString (RetentionRuleModel.Type_ rule)) |}.

(** A rule of the plan whose two attributes are known. *)
Definition retentionRuleKnown (rule : RetentionRuleModel.t) : Prop :=
  exists (every : Z) (type : string),
    rule = {| RetentionRuleModel.EverySeconds := Int64Value every;
              RetentionRuleModel.Type_ := StringValue type |}.

(** A plan whose retention rules are not known yet. *)
Definition temp_plan_unknown_rules : BucketResourceModel.t :=
  BucketResourceModel.set_RetentionRules
    (SetUnknown (ObjectType retentionRuleType)) temp_plan.

(** The state of the bucket "temp" after its creation. *)
Definition temp_state : BucketResourceModel.t :=
  BucketResourceModel.set_ID (StringValue "b1") temp_plan.

(** The bucket "temp" as a store returns it that keeps what it was sent. *)
Definition temp_bucket_kept : @Bucket.t rendered_time :=
  {| Bucket.CreatedAt := Some (at_time "2024-01-01 00:00:00 +0000 UTC");
     Bucket.Description := Some "";
     Bucket.Id := Some "b1";
     Bucket.Name := "temp";
     Bucket.OrgID := Some "org1";
     Bucket.RetentionRules :=
       [{| RetentionRule.EverySeconds := 2592000;
           RetentionRule.Type_ := Some "expire" |}];
     Bucket.Rp := Some "";
     Bucket.Type_ := Some "user";
     Bucket.UpdatedAt := Some (at_time "2024-01-01 00:00:00 +0000 UTC") |}.

(** The rule of scenario 6 as it is sent to the store. *)
Definition temp_rules : list RetentionRule.t :=
  [{| RetentionRule.EverySeconds := 2592000;
      RetentionRule.Type_ := Some "expire" |}].

(** A permission of the store as a Terraform permission with one resource,
    the way [convertPermissionsToTerraform] builds it. *)
Definition permissionObject (perm : Permission.t) : attr_Value :=
  permission_value (Permission.Action perm)
    [resource_value
       (default "" (Resource.Id (Permission.Resource perm)))
       (default "" (Resource.Org (Permission.Resource perm)))
       (default "" (Resource.OrgID (Permission.Resource perm)))
       (Resource.Type_ (Permission.Resource perm))].

(** A permission of the store with its nil fields defaulted, as it comes
    back from a conversion to Terraform and back. *)
Definition permissionDefaulted (perm : Permission.t) : Permission.t :=
  {| Permission.Action := Permission.Action perm;
     Permission.Resource :=
       {| Resource.Id := Some (default "" (Resource.Id (Permission.Resource perm)));
          Resource.Name := Some "";
          Resource.Org := Some (default "" (Resource.Org (Permission.Resource perm)));
          Resource.OrgID :=
            Some (default "" (Resource.OrgID (Permission.Resource perm)));
          Resource.Type_ := Resource.Type_ (Permission.Resource perm) |} |}.

(** The record [Create] sends for a plan and its converted permissions. *)
Definition Create_authorization (plan : AuthorizationResourceModel.t)
    (permissions : list Permission.t) : Authorization.t :=
  {| Authorization.Description :=
       Some (ValueString (AuthorizationResourceModel.Description plan));
     Authorization.Status :=
       Some (ValueString (AuthorizationResourceModel.Status plan));
     Authorization.Id := None;
     Authorization.OrgID :=
       Some (ValueString (AuthorizationResourceModel.OrgID plan));
     Authorization.Permissions := Some permissions;
     Authorization.Token := None;
     Authorization.UserID := None |}.

(** The plan of scenario 7, and what the store answers to its creation. *)
Definition auth_plan : AuthorizationResourceModel.t :=
  {| AuthorizationResourceModel.ID := StringUnknown;
     AuthorizationResourceModel.OrgID := StringValue "org1";
     AuthorizationResourceModel.Description := StringValue "Test authorization";
     AuthorizationResourceModel.Status := StringValue "active";
     AuthorizationResourceModel.Permissions := read_write_temp;
     AuthorizationResourceModel.UserID := StringUnknown;
     AuthorizationResourceModel.UserOrgID := StringUnknown;
     AuthorizationResourceModel.Token := StringUnknown |}.

Definition created_a1 : Authorization.t :=
  {| Authorization.Description := Some "Test authorization";
     Authorization.Status := Some "active";
     Authorization.Id := Some "a1";
     Authorization.OrgID := Some "org1";
     Authorization.Permissions := None;
     Authorization.Token := Some "issued-token";
     Authorization.UserID := Some "u1" |}.

(** A permission as the store returns it, with the fields it leaves out. *)
Definition read_b1 : Permission.t :=
  {| Permission.Action := "read";
     Permission.Resource :=
       {| Resource.Id := Some "b1";
          Resource.Name := None;
          Resource.Org := None;
          Resource.OrgID := Some "org1";
          Resource.Type_ := "buckets" |} |}.

(** A provider block with a url and a token, and an environment with both
    variables set. *)
Definition config_set : influxdbProviderModel.t :=
  {| influxdbProviderModel.URL := StringValue "http://configured:8086";
     influxdbProviderModel.Token := StringValue "secret" |}.

Definition env_set : gmap string string :=
  {[ "INFLUXDB_V2_URL" := "http://influx.example:8086";
     "INFLUXDB_V2_TOKEN" := "env-secret" ]}.

(** A server that answers the probe without a start time. *)
Definition ready_server_no_start : @Ready.t rendered_time :=
  {| Ready.Started := None; Ready.Status := Some "ready"; Ready.Up := None |}.

Definition no_data : schema_ResourceData :=
  {| Data_Id := ""; Data_output := None |}.

(** A listed record without id, and a client whose listing returns a nil
    pointer and no error. *)
Definition listed_no_id : Authorization.t :=
  {| Authorization.Description := Some "no id";
     Authorization.Status := Some "active";
     Authorization.Id := None;
     Authorization.OrgID := Some "org1";
     Authorization.Permissions := None;
     Authorization.Token := None;
     Authorization.UserID := Some "u3" |}.

Definition scripted_client_no_list : @Client rendered_time unit :=
  let client := scripted_client no_error no_error no_error no_error in
  {| ServerURL := ServerURL client;
     Ready := Ready client;
     CreateBucket := CreateBucket client;
     FindBucketByID := FindBucketByID client;
     UpdateBucket := UpdateBucket client;
     DeleteBucketWithID := DeleteBucketWithID client;
     CreateAuthorization := CreateAuthorization client;
     FindAuthorizationsByOrgID := fun _ s => (GoOk None, s);
     UpdateAuthorizationStatus := UpdateAuthorizationStatus client;
     DeleteAuthorization := DeleteAuthorization client |}.

(** A rendering of values that does not tell them apart, and a bucket
    whose two rules differ by the nil type only. *)
Definition plain_rendering : ValueRendering :=
  {| Value_String := fun _ => "<value>" |}.

Definition colliding_bucket : @Bucket.t rendered_time :=
  {| Bucket.CreatedAt := None;
     Bucket.Description := None;
     Bucket.Id := Some "b1";
     Bucket.Name := "temp";
     Bucket.OrgID := Some "org1";
     Bucket.RetentionRules :=
       [{| RetentionRule.EverySeconds := 2592000; RetentionRule.Type_ := None |};
        {| RetentionRule.EverySeconds := 2592000;
           RetentionRule.Type_ := Some "expire" |}];
     Bucket.Rp := None;
     Bucket.Type_ := None;
     Bucket.UpdatedAt := None |}.

(** ** Properties of the bucket resource *)

Section BucketResource_facts.
Context {TI : TimeImpl} {Remote : Type}.
Implicit Types (client : Client Remote) (w : World Remote).
Implicit Types (model plan : BucketResourceModel.t).

Lemma retentionRuleElements_eq (domainRules : list RetentionRule.t) :
  forall elements,
    retentionRuleElements domainRules elements
    = Some (elements ++ map retentionRuleObject domainRules).
Proof.
  induction domainRules as [|rule rest IH]; intros elements; cbn [retentionRuleElements].
  - by rewrite app_nil_r.
  - destruct rule as [every [ty|]]; cbn; rewrite IH, <- app_assoc; reflexivity.
Qed.

Lemma retentionRuleObjects_typed (domainRules : list RetentionRule.t) :
  forallb (fun v => Type_Equal (ObjectType retentionRuleType) (Value_Type v))
          (map retentionRuleObject domainRules) = true.
Proof. induction domainRules as [|rule rest IH]; [done|]. cbn. exact IH. Qed.

(** The conversion of the rules of the store never fails: the objects it
    builds have the declared attributes, with the declared types. *)
Lemma convertRetentionRulesToTerraform_eq (domainRules : list RetentionRule.t) :
  convertRetentionRulesToTerraform domainRules
  = (mkSet (ObjectType retentionRuleType) ValueStateKnown
       (map retentionRuleObject domainRules), None).
Proof.
  unfold convertRetentionRulesToTerraform, SetValue.
  rewrite retentionRuleElements_eq. cbn [app].
  by rewrite retentionRuleObjects_typed.
Qed.

Lemma readBucket_found client model w (result : Bucket.t) (s : Remote) :
  FindBucketByID client (ValueString (BucketResourceModel.ID model)) (remote w)
    = (GoOk result, s) ->
  readBucket client model w
  = (Done (BucketResourceModel.set_RetentionRules
             (mkSet (ObjectType retentionRuleType) ValueStateKnown
                (map retentionRuleObject (Bucket.RetentionRules result)))
             (readBucket_fields result model), None),
     {| remote := s;
        calls := calls w ++ [call_FindBucketByID
                               (ValueString (BucketResourceModel.ID model))] |}).
Proof.
  intros Hfind. unfold readBucket, bind, call. rewrite Hfind.
  by rewrite convertRetentionRulesToTerraform_eq.
Qed.

Lemma readBucket_failed client model w (err : error) (s : Remote) :
  FindBucketByID client (ValueString (BucketResourceModel.ID model)) (remote w)
    = (GoErr err, s) ->
  readBucket client model w
  = (Done (model, Some ("error finding bucket: " +:+ err)),
     {| remote := s;
        calls := calls w ++ [call_FindBucketByID
                               (ValueString (BucketResourceModel.ID model))] |}).
Proof. intros Hfind. unfold readBucket, bind, call. by rewrite Hfind. Qed.

Lemma readBucket_fields_ID (result : Bucket.t) model :
  BucketResourceModel.ID (readBucket_fields result model)
  = BucketResourceModel.ID model.
Proof.
  unfold readBucket_fields.
  destruct result as [[?|] [?|] ? ? [?|] ? [?|] [?|] [?|]]; reflexivity.
Qed.

End BucketResource_facts.

Section BucketResource_claims.
Context {TI : TimeImpl} {Remote : Type}.
Implicit Types (client : Client Remote) (w : World Remote).
Implicit Types (model plan : BucketResourceModel.t).

Lemma decode_retentionRuleObjects (domainRules : list RetentionRule.t) :
  decode_all RetentionRuleModel.decode (map retentionRuleObject domainRules)
  = Some (map retentionRuleRead domainRules).
Proof.
  induction domainRules as [|rule rest IH]; [done|].
  cbn [map decode_all]. rewrite IH. reflexivity.
Qed.

(** C3.  For every bucket that [FindBucketByID] returns, [readBucket]
    succeeds and sets the model's description and retention-policy name to
    known strings: the empty string when the bucket's [Description] or [Rp]
    is nil, the bucket's value otherwise.  [convertRetentionRulesToTerraform]
    never fails, keeps one Terraform rule per rule of the store, in order,
    and a rule whose [Type] is nil becomes a rule whose [type] is the
    string "expire". *)
Theorem readBucket_materializes_defaults client model w (result : Bucket.t)
    (s : Remote) :
  FindBucketByID client (ValueString (BucketResourceModel.ID model)) (remote w)
    = (GoOk result, s) ->
  (exists model' w',
     readBucket client model w = (Done (model', None), w')
     /\ BucketResourceModel.Description model'
        = StringValue (default "" (Bucket.Description result))
     /\ BucketResourceModel.RP model'
        = StringValue (default "" (Bucket.Rp result))
     /\ (Bucket.Description result = None ->
         BucketResourceModel.Description model' = StringValue "")
     /\ (Bucket.Rp result = None ->
         BucketResourceModel.RP model' = StringValue "")
     /\ fst (convertRetentionRulesToTerraform (Bucket.RetentionRules result))
        = BucketResourceModel.RetentionRules model')
  /\ (forall domainRules : list RetentionRule.t,
        exists rulesSet,
          convertRetentionRulesToTerraform domainRules = (rulesSet, None)
          /\ Set_state rulesSet = ValueStateKnown
          /\ ElementsAs RetentionRuleModel.decode rulesSet
             = Some (map retentionRuleRead domainRules)
          /\ (forall (i : nat) rule,
                domainRules !! i = Some rule ->
                RetentionRule.Type_ rule = None ->
                exists attrs,
                  Set_Elements rulesSet !! i
                  = Some (Object_ (mkObject retentionRuleType ValueStateKnown attrs))
                  /\ attr_lookup "type" attrs
                     = Some (String_ (StringValue "expire"))
                  /\ attr_lookup "every_seconds" attrs
                     = Some (Int64_ (Int64Value (RetentionRule.EverySeconds rule))))).
Proof.
  intros Hfind. split.
  - rewrite (readBucket_found _ _ _ _ _ Hfind).
    eexists _, _. split; [reflexivity|].
    rewrite convertRetentionRulesToTerraform_eq.
    unfold readBucket_fields.
    destruct result as [[?|] [?|] ? ? [?|] ? [?|] [?|] [?|]];
      cbn; repeat split; congruence.
  - intros domainRules. eexists. split; [apply convertRetentionRulesToTerraform_eq|].
    split; [reflexivity|]. split.
    + unfold ElementsAs; cbn. apply decode_retentionRuleObjects.
    + intros i rule Hi Hty. cbn [Set_Elements].
      rewrite list_lookup_fmap, Hi. cbn. unfold retentionRuleObject.
      rewrite Hty. eexists. split; [reflexivity|]. split; reflexivity.
Qed.

End BucketResource_claims.

(** The scenario of the specification: the bucket "temp" read back from a
    store that leaves description, retention policy and rule type unset. *)
Lemma readBucket_materializes_defaults_witness :
  let client := scripted_client no_error (GoOk temp_bucket) no_error no_error in
  exists model',
    fst (readBucket client temp_plan start) = Done (model', None)
    /\ BucketResourceModel.Description model' = StringValue ""
    /\ BucketResourceModel.RP model' = StringValue ""
    /\ ElementsAs RetentionRuleModel.decode
         (BucketResourceModel.RetentionRules model')
       = Some [{| RetentionRuleModel.EverySeconds := Int64Value 2592000;
                  RetentionRuleModel.Type_ := StringValue "expire" |}].
Proof.
  intros client.
  destruct (readBucket_materializes_defaults (TI := rendered_time)
              client temp_plan start temp_bucket tt eq_refl)
    as [(model' & w' & Hrun & _ & _ & Hdesc & Hrp & Hrules) _].
  exists model'. rewrite Hrun. split; [reflexivity|].
  split; [exact (Hdesc eq_refl)|]. split; [exact (Hrp eq_refl)|].
  rewrite <- Hrules. reflexivity.
Defined.

(** ** [State.Set] of a bucket model *)

Section BucketState_facts.
Context {VR : ValueRendering}.

#[local] Instance RetentionRule_eq_dec : EqDecision RetentionRule.t.
Proof. solve_decision. Defined.

(** Two rules of the store read back as equal Terraform rules exactly when
    they are equal once their type is defaulted. *)
Lemma Value_Equal_retentionRuleObject (r1 r2 : RetentionRule.t) :
  Value_Equal (retentionRuleObject r1) (retentionRuleObject r2) = true
  <-> retentionRuleDefaulted r1 = retentionRuleDefaulted r2.
Proof.
  destruct r1 as [e1 t1], r2 as [e2 t2]. unfold retentionRuleDefaulted. cbn.
  rewrite !andb_true_r.
  destruct (Z.eqb_spec e1 e2) as [->|He];
    destruct (String.eqb_spec (default "expire" t1) (default "expire" t2))
      as [Ht|Ht]; cbn; split; try done; try congruence.
Qed.

(** The diagnostics of [SetType.Validate] are errors. *)
Lemma SetType_Validate_errors (elems : list attr_Value) :
  HasError (SetType_Validate elems) = false -> SetType_Validate elems = [].
Proof.
  induction elems as [|outer rest IH]; [done|]. cbn [SetType_Validate].
  unfold HasError in *. rewrite existsb_app.
  intros [Hpairs Hrest]%orb_false_elim. rewrite (IH Hrest), app_nil_r.
  destruct (Value_IsFullyKnown outer); [|done].
  clear IH Hrest. induction rest as [|inner rest IH]; [done|].
  cbn [flat_map] in *. destruct (Value_Equal inner outer); [done|].
  cbn [app] in *. by apply IH.
Qed.

(** The rules read from the store validate exactly when no two of them are
    equal once their type is defaulted. *)
Lemma SetType_Validate_retentionRules (rules : list RetentionRule.t) :
  (NoDup (map retentionRuleDefaulted rules) ->
   SetType_Validate (map retentionRuleObject rules) = [])
  /\ (~ NoDup (map retentionRuleDefaulted rules) ->
      HasError (SetType_Validate (map retentionRuleObject rules)) = true).
Proof.
  induction rules as [|rule rest [IHok IHdup]].
  { split; [done|]. intros Hdup. destruct Hdup. constructor. }
  assert (Hpairs : forall others,
    (retentionRuleDefaulted rule ∉ map retentionRuleDefaulted others ->
     flat_map (fun elemInner =>
                 if Value_Equal elemInner (retentionRuleObject rule)
                 then [{| Severity_ := SeverityError;
                          Summary := "Duplicate Set Element";
                          Detail := "This attribute contains duplicate values of: "
                                    +:+ Value_String elemInner |}]
                 else []) (map retentionRuleObject others) = [])
    /\ (retentionRuleDefaulted rule ∈ map retentionRuleDefaulted others ->
        HasError
          (flat_map (fun elemInner =>
                 if Value_Equal elemInner (retentionRuleObject rule)
                 then [{| Severity_ := SeverityError;
                          Summary := "Duplicate Set Element";
                          Detail := "This attribute contains duplicate values of: "
                                    +:+ Value_String elemInner |}]
                 else []) (map retentionRuleObject others)) = true)).
  { induction others as [|other others [IHout IHin]].
    { split; [done|]. by intros Hin%elem_of_nil. }
    cbn [map flat_map].
    destruct (Value_Equal (retentionRuleObject other) (retentionRuleObject rule))
      eqn:Heq.
    - apply Value_Equal_retentionRuleObject in Heq. split; [|done].
      intros Hout. destruct Hout. rewrite <- Heq. left.
    - split.
      + intros Hout. cbn [app]. apply IHout. intros Hin. apply Hout. by right.
      + intros [Hhere|Hin]%elem_of_cons; [|by apply IHin].
        symmetry in Hhere. apply Value_Equal_retentionRuleObject in Hhere.
        by rewrite Hhere in Heq. }
  destruct (Hpairs rest) as [Hout Hin].
  cbn [map SetType_Validate].
  change (Value_IsFullyKnown (retentionRuleObject rule)) with true. cbv iota.
  split.
  - intros [Hnotin Hrest]%NoDup_cons. by rewrite (Hout Hnotin), (IHok Hrest).
  - intros Hdup. unfold HasError. rewrite existsb_app.
    destruct (decide (retentionRuleDefaulted rule ∈ map retentionRuleDefaulted rest))
      as [Helem|Hnotin].
    + fold (HasError (flat_map
          (fun elemInner =>
             if Value_Equal elemInner (retentionRuleObject rule)
             then [{| Severity_ := SeverityError;
                      Summary := "Duplicate Set Element";
                      Detail := "This attribute contains duplicate values of: "
                                +:+ Value_String elemInner |}]
             else []) (map retentionRuleObject rest))).
      by rewrite (Hin Helem).
    + fold (HasError (SetType_Validate (map retentionRuleObject rest))).
      rewrite IHdup; [apply orb_true_r|].
      intros Hrest. apply Hdup. by constructor.
Qed.

(** [State.Set] either saves the model, adding no diagnostic, or adds
    errors and saves nothing. *)
Lemma BucketState_Set_cases (diags : Diagnostics) (model : BucketResourceModel.t) :
  (HasError (Set_Validate (BucketResourceModel.RetentionRules model)) = false
   /\ BucketState_Set diags model = respond_state diags model)
  \/ (exists errors,
        HasError errors = true
        /\ BucketState_Set diags model = respond (diags ++ errors)).
Proof.
  unfold BucketState_Set.
  destruct (HasError (Set_Validate _)) eqn:Herrors.
  - right. by eexists.
  - left. split; [done|].
    assert (Hnone : Set_Validate (BucketResourceModel.RetentionRules model) = []).
    { unfold Set_Validate in *.
      destruct (Set_state _); [done|done|by apply SetType_Validate_errors]. }
    by rewrite Hnone, app_nil_r.
Qed.

(** [State.Set] of a model whose rules pass the validation of the set, and
    of one whose rules do not. *)
Lemma BucketState_Set_valid (diags : Diagnostics) (model : BucketResourceModel.t) :
  HasError (Set_Validate (BucketResourceModel.RetentionRules model)) = false ->
  BucketState_Set diags model = respond_state diags model.
Proof.
  intros Hvalid.
  destruct (BucketState_Set_cases diags model) as [[_ Hsave]|(errors & _ & _)];
    [exact Hsave|].
  unfold BucketState_Set. rewrite Hvalid.
  assert (Hnone : Set_Validate (BucketResourceModel.RetentionRules model) = []).
  { unfold Set_Validate in *.
    destruct (Set_state _); [done|done|by apply SetType_Validate_errors]. }
  by rewrite Hnone, app_nil_r.
Qed.

Lemma BucketState_Set_invalid (diags : Diagnostics) (model : BucketResourceModel.t) :
  HasError (Set_Validate (BucketResourceModel.RetentionRules model)) = true ->
  BucketState_Set diags model
  = respond (diags ++ Set_Validate (BucketResourceModel.RetentionRules model)).
Proof.
  intros Hinvalid. unfold BucketState_Set. by rewrite Hinvalid.
Qed.

(** [State.Set] of a model read from the store. *)
Lemma BucketState_Set_read (diags : Diagnostics) (model : BucketResourceModel.t)
    (rules : list RetentionRule.t) :
  let read :=
    BucketResourceModel.set_RetentionRules
      (mkSet (ObjectType retentionRuleType) ValueStateKnown
         (map retentionRuleObject rules)) model in
  (NoDup (map retentionRuleDefaulted rules) ->
   BucketState_Set diags read = respond_state diags read)
  /\ (~ NoDup (map retentionRuleDefaulted rules) ->
      exists errors,
        HasError errors = true
        /\ BucketState_Set diags read = respond (diags ++ errors)).
Proof.
  intros read. destruct (SetType_Validate_retentionRules rules) as [Hok Hdup].
  unfold BucketState_Set, Set_Validate.
  cbn [read BucketResourceModel.set_RetentionRules BucketResourceModel.RetentionRules
       Set_state Set_Elements].
  split.
  - intros Hnodup. rewrite (Hok Hnodup), app_nil_r. reflexivity.
  - intros Hnot. rewrite (Hdup Hnot). eexists. split; [exact (Hdup Hnot)|].
    reflexivity.
Qed.

End BucketState_facts.

Section BucketResource_Create_claims.
Context {TI : TimeImpl} {VR : ValueRendering} {Remote : Type}.
Implicit Types (client : Client Remote) (w : World Remote).
Implicit Types (model plan : BucketResourceModel.t).

(** [Create], once [CreateBucket] has returned a bucket with an id, is the
    shared [readBucket] run on the plan with that id, followed by
    [State.Set]. *)
Lemma BucketResource_Create_created client (req : Source BucketResourceModel.t) w
    (retentionRules : list RetentionRule.t) (result : Bucket.t) (id : string)
    (s : Remote) :
  HasError (Get_Diagnostics req) = false ->
  convertRetentionRulesToDomain (BucketResourceModel.RetentionRules (Get_Model req))
    = GoOk retentionRules ->
  CreateBucket client (Create_newBucket (Get_Model req) retentionRules) (remote w)
    = (GoOk result, s) ->
  Bucket.Id result = Some id ->
  BucketResource_Create client req w
  = match readBucket client
            (BucketResourceModel.set_ID (StringValue id) (Get_Model req))
            {| remote := s;
               calls := calls w ++ [call_CreateBucket
                                      (Create_newBucket (Get_Model req) retentionRules)] |}
    with
    | (Done (plan, None), w') =>
        (Done (BucketState_Set (Get_Diagnostics req) plan), w')
    | (Done (_, Some err), w') =>
        (Done (respond (AddError (Get_Diagnostics req)
                          "Error Reading Bucket After Creation"
                          ("Could not read bucket after creation: " +:+ err))), w')
    | (Panicked, w') => (Panicked, w')
    end.
Proof.
  intros Hdiags Hrules Hcreate Hid.
  unfold BucketResource_Create. rewrite Hdiags, Hrules.
  unfold bind at 1. unfold call at 1. rewrite Hcreate.
  unfold bind at 1. rewrite Hid. cbn [deref ret].
  unfold bind.
  destruct (readBucket _ _ _) as [[[plan [err|]]|] w']; reflexivity.
Qed.

(** C2.  When [CreateBucket] succeeds and returns an id, [Create] sets the
    model's id to it and runs [readBucket], the routine [Read] runs, before
    it saves state.  If the bucket is found, [Create] ends as the [Read] of
    the plan with the new id does, by [State.Set] of the model [readBucket]
    returned: a state that [Create] saves is that model, with the new id
    and the diagnostics of the request, and its created_at, updated_at and
    type are those that any [Read] of the new id saves from the bucket.
    The state is saved when the rules of the bucket found are distinct once
    their type is defaulted; otherwise [State.Set] refuses the set and
    nothing is saved.  If the read fails, the response carries the error
    diagnostic "Error Reading Bucket After Creation" and no state is
    saved. *)
Theorem BucketResource_Create_hydrates client (req : Source BucketResourceModel.t) w
    (retentionRules : list RetentionRule.t) (result : Bucket.t) (id : string)
    (s : Remote) :
  HasError (Get_Diagnostics req) = false ->
  convertRetentionRulesToDomain (BucketResourceModel.RetentionRules (Get_Model req))
    = GoOk retentionRules ->
  CreateBucket client (Create_newBucket (Get_Model req) retentionRules) (remote w)
    = (GoOk result, s) ->
  Bucket.Id result = Some id ->
  let plan_id := BucketResourceModel.set_ID (StringValue id) (Get_Model req) in
  let w_created :=
    {| remote := s;
       calls := calls w ++ [call_CreateBucket
                              (Create_newBucket (Get_Model req) retentionRules)] |} in
  (forall (found : Bucket.t) (s' : Remote),
      FindBucketByID client id s = (GoOk found, s') ->
      exists hydrated,
        fst (readBucket client plan_id w_created) = Done (hydrated, None)
        /\ BucketResourceModel.ID hydrated = StringValue id
        /\ BucketResource_Read client
             {| Get_Diagnostics := Get_Diagnostics req; Get_Model := plan_id |}
             w_created
           = BucketResource_Create client req w
        /\ (forall resp saved,
              fst (BucketResource_Create client req w) = Done resp ->
              State_Set resp = Some saved ->
              saved = hydrated /\ Resp_Diagnostics resp = Get_Diagnostics req)
        /\ (NoDup (map retentionRuleDefaulted (Bucket.RetentionRules found)) ->
            fst (BucketResource_Create client req w)
            = Done {| Resp_Diagnostics := Get_Diagnostics req;
                      State_Set := Some hydrated |})
        /\ (~ NoDup (map retentionRuleDefaulted (Bucket.RetentionRules found)) ->
            exists resp,
              fst (BucketResource_Create client req w) = Done resp
              /\ State_Set resp = None
              /\ HasError (Resp_Diagnostics resp) = true)
        /\ (forall (state : Source BucketResourceModel.t) (v : World Remote)
                   resp read,
              HasError (Get_Diagnostics state) = false ->
              BucketResourceModel.ID (Get_Model state) = StringValue id ->
              remote v = s ->
              fst (BucketResource_Read client state v) = Done resp ->
              State_Set resp = Some read ->
              (is_Some (Bucket.CreatedAt found) ->
               BucketResourceModel.CreatedAt read
               = BucketResourceModel.CreatedAt hydrated)
              /\ (is_Some (Bucket.UpdatedAt found) ->
                  BucketResourceModel.UpdatedAt read
                  = BucketResourceModel.UpdatedAt hydrated)
              /\ (is_Some (Bucket.Type_ found) ->
                  BucketResourceModel.Type_ read
                  = BucketResourceModel.Type_ hydrated)))
  /\ (forall (err : error) (s' : Remote),
        FindBucketByID client id s = (GoErr err, s') ->
        fst (BucketResource_Create client req w)
        = Done {| Resp_Diagnostics :=
                    Get_Diagnostics req ++
                    [{| Severity_ := SeverityError;
                        Summary := "Error Reading Bucket After Creation";
                        Detail := "Could not read bucket after creation: "
                                  +:+ "error finding bucket: " +:+ err |}];
                  State_Set := None |}).
Proof.
  intros Hdiags Hrules Hcreate Hid plan_id w_created.
  rewrite (BucketResource_Create_created _ _ _ _ _ _ _ Hdiags Hrules Hcreate Hid).
  fold plan_id w_created.
  assert (Hid' : ValueString (BucketResourceModel.ID plan_id) = id) by reflexivity.
  split.
  - intros found s' Hfind.
    assert (Hfind' : FindBucketByID client
                       (ValueString (BucketResourceModel.ID plan_id))
                       (remote w_created) = (GoOk found, s'))
      by (rewrite Hid'; exact Hfind).
    rewrite (readBucket_found _ _ _ _ _ Hfind').
    destruct (BucketState_Set_read (Get_Diagnostics req)
                (readBucket_fields found plan_id) (Bucket.RetentionRules found))
      as [Hok Hdup].
    eexists. split; [reflexivity|]. split.
    { cbn. apply readBucket_fields_ID. }
    split.
    { unfold BucketResource_Read. cbn [Get_Diagnostics Get_Model].
      rewrite Hdiags. unfold bind.
      rewrite (readBucket_found _ _ _ _ _ Hfind'). reflexivity. }
    cbn [fst]. split.
    { intros resp saved [= <-].
      destruct (BucketState_Set_cases (Get_Diagnostics req)
                  (BucketResourceModel.set_RetentionRules
                     (mkSet (ObjectType retentionRuleType) ValueStateKnown
                        (map retentionRuleObject (Bucket.RetentionRules found)))
                     (readBucket_fields found plan_id)))
        as [[_ ->]|(errors & _ & ->)]; cbn; [|done].
      by intros [= <-]. }
    split.
    { intros Hnodup. by rewrite (Hok Hnodup). }
    split.
    { intros Hnot. destruct (Hdup Hnot) as (errors & Herrors & ->).
      eexists. split; [reflexivity|]. split; [reflexivity|].
      unfold respond; cbn [Resp_Diagnostics]. unfold HasError in Herrors |- *.
      rewrite existsb_app, Herrors. apply orb_true_r. }
    intros state v resp read Hstate Hsid Hv.
    assert (Hfind'' : FindBucketByID client
                        (ValueString (BucketResourceModel.ID (Get_Model state)))
                        (remote v) = (GoOk found, s'))
      by (rewrite Hsid, Hv; exact Hfind).
    unfold BucketResource_Read. rewrite Hstate. unfold bind.
    rewrite (readBucket_found _ _ _ _ _ Hfind''). cbn [fst ret].
    intros [= <-].
    match goal with |- context [BucketState_Set ?d ?m] =>
      destruct (BucketState_Set_cases d m) as [[_ ->]|(errors & _ & ->)] end;
      cbn; [|done].
    intros [= <-]. unfold readBucket_fields.
    destruct found as [[?|] ? ? ? [?|] ? [?|] [?|] [?|]]; cbn;
      repeat split; intros [? ?]; (reflexivity || discriminate).
  - intros err s' Hfind.
    assert (Hfind' : FindBucketByID client
                       (ValueString (BucketResourceModel.ID plan_id))
                       (remote w_created) = (GoErr err, s'))
      by (rewrite Hid'; exact Hfind).
    rewrite (readBucket_failed _ _ _ _ _ Hfind'). reflexivity.
Qed.

End BucketResource_Create_claims.

(** Scenario 6 of the specification: the bucket "temp" is created and read
    back with the id the store gave it; and a store that returns two rules
    which collide once the type is defaulted. *)
Lemma BucketResource_Create_hydrates_witness :
  let client := scripted_client no_error (GoOk temp_bucket) no_error no_error in
  let colliding := scripted_client no_error (GoOk colliding_bucket)
                     no_error no_error in
  (exists saved,
     fst (BucketResource_Create (VR := plain_rendering) client
            (decoded temp_plan) start)
       = Done {| Resp_Diagnostics := []; State_Set := Some saved |}
     /\ BucketResourceModel.ID saved = StringValue "b1")
  /\ (exists resp,
        fst (BucketResource_Create (VR := plain_rendering) colliding
               (decoded temp_plan) start) = Done resp
        /\ State_Set resp = None
        /\ HasError (Resp_Diagnostics resp) = true).
Proof.
  intros client colliding. split.
  - destruct (BucketResource_Create_hydrates (TI := rendered_time)
                (VR := plain_rendering) client (decoded temp_plan) start
                [{| RetentionRule.EverySeconds := 2592000;
                    RetentionRule.Type_ := Some "expire" |}]
                temp_bucket "b1" tt eq_refl eq_refl eq_refl eq_refl)
      as [Hfound _].
    destruct (Hfound temp_bucket tt eq_refl)
      as (hydrated & _ & Hid & _ & _ & Hsaved & _).
    exists hydrated. split; [|exact Hid]. apply Hsaved.
    repeat constructor. by intros Hin%elem_of_nil.
  - destruct (BucketResource_Create_hydrates (TI := rendered_time)
                (VR := plain_rendering) colliding (decoded temp_plan) start
                [{| RetentionRule.EverySeconds := 2592000;
                    RetentionRule.Type_ := Some "expire" |}]
                colliding_bucket "b1" tt eq_refl eq_refl eq_refl eq_refl)
      as [Hfound _].
    destruct (Hfound colliding_bucket tt eq_refl)
      as (hydrated & _ & _ & _ & _ & _ & Hrefused & _).
    apply Hrefused. intros [Hnotin _]%NoDup_cons. apply Hnotin. left.
Defined.

(** ** Properties of the authorization resource *)

Section AuthorizationResource_facts.
Context {TI : TimeImpl} {Remote : Type}.
Implicit Types (client : Client Remote) (w : World Remote).
Implicit Types (model plan : AuthorizationResourceModel.t).
Implicit Types (auth : Authorization.t) (authorizations : list Authorization.t).

(** The search makes no call. *)
Lemma findAuthorization_world authorizations (id : string) w :
  snd (findAuthorization (Remote := Remote) authorizations id w) = w.
Proof.
  induction authorizations as [|a rest IH]; [done|].
  cbn [findAuthorization]. unfold bind.
  destruct (Authorization.Id a) as [a_Id|]; cbn; [|done].
  destruct (String.eqb a_Id id); [done|]. apply IH.
Qed.

(** No record with the id: the search ends with nil when every record has
    an id. *)
Lemma findAuthorization_absent authorizations (id : string) w :
  Forall (fun a => exists a_Id, Authorization.Id a = Some a_Id /\ a_Id <> id)
         authorizations ->
  findAuthorization authorizations id w = (Done None, w).
Proof.
  induction 1 as [|a rest (a_Id & Ha & Hne) _ IH]; [done|].
  cbn [findAuthorization]. unfold bind. rewrite Ha. cbn.
  apply String.eqb_neq in Hne. by rewrite Hne.
Qed.

(** No record with the id: whatever the records, the search finds none. *)
Lemma findAuthorization_none authorizations (id : string) w :
  (forall a, a ∈ authorizations -> Authorization.Id a <> Some id) ->
  forall auth, fst (findAuthorization authorizations id w) <> Done (Some auth).
Proof.
  induction authorizations as [|a rest IH]; intros Hall auth; [done|].
  cbn [findAuthorization]. unfold bind.
  destruct (Authorization.Id a) as [a_Id|] eqn:Ha; cbn; [|done].
  destruct (String.eqb a_Id id) eqn:Heq.
  - apply String.eqb_eq in Heq. subst a_Id.
    exfalso. apply (Hall a); [left|exact Ha].
  - apply IH. intros b Hb. apply Hall. by right.
Qed.

(** The first record with the id is the one found. *)
Lemma findAuthorization_first before auth after (id : string) w :
  Forall (fun a => exists a_Id, Authorization.Id a = Some a_Id /\ a_Id <> id)
         before ->
  Authorization.Id auth = Some id ->
  findAuthorization (before ++ auth :: after) id w = (Done (Some auth), w).
Proof.
  induction 1 as [|a rest (a_Id & Ha & Hne) _ IH]; intros Hid.
  - cbn. unfold bind. rewrite Hid. cbn. by rewrite String.eqb_refl.
  - cbn [app findAuthorization]. unfold bind. rewrite Ha. cbn.
    apply String.eqb_neq in Hne. rewrite Hne. by apply IH.
Qed.

(** [readAuthorization] makes one call, the listing of the organization's
    authorizations. *)
Lemma readAuthorization_calls client model w :
  calls (snd (readAuthorization client model w))
  = calls w ++ [call_FindAuthorizationsByOrgID
                  (ValueString (AuthorizationResourceModel.OrgID model))].
Proof.
  unfold readAuthorization, bind, call.
  destruct (FindAuthorizationsByOrgID _ _ _) as [[err|[authorizations|]] s];
    [done| |done]. cbn [deref ret].
  match goal with |- context [findAuthorization ?l ?i ?v] =>
    pose proof (findAuthorization_world l i v) as Hw;
    destruct (findAuthorization l i v) as [[[auth|]|] w'] end;
    cbn in Hw |- *; by subst w'.
Qed.

(** What the assignments of [readAuthorization] leave alone. *)
Lemma readAuthorization_fields_frame auth model :
  let model' := readAuthorization_fields auth model in
  AuthorizationResourceModel.ID model' = AuthorizationResourceModel.ID model
  /\ AuthorizationResourceModel.OrgID model' = AuthorizationResourceModel.OrgID model
  /\ AuthorizationResourceModel.Description model'
     = AuthorizationResourceModel.Description model
  /\ AuthorizationResourceModel.Permissions model'
     = AuthorizationResourceModel.Permissions model.
Proof.
  unfold readAuthorization_fields.
  destruct auth as [? [?|] ? [?|] ? [?|] [?|]]; cbn; done.
Qed.

Lemma readAuthorization_fields_Token auth model :
  AuthorizationResourceModel.Token (readAuthorization_fields auth model)
  = match Authorization.Token auth with
    | Some tok => StringValue tok
    | None => AuthorizationResourceModel.Token model
    end.
Proof.
  unfold readAuthorization_fields.
  destruct auth as [? [?|] ? [?|] ? [?|] [?|]]; cbn; done.
Qed.

Lemma readAuthorization_fields_Status auth model :
  AuthorizationResourceModel.Status (readAuthorization_fields auth model)
  = match Authorization.Status auth with
    | Some st => StringValue st
    | None => AuthorizationResourceModel.Status model
    end.
Proof.
  unfold readAuthorization_fields.
  destruct auth as [? [?|] ? [?|] ? [?|] [?|]]; cbn; done.
Qed.

End AuthorizationResource_facts.

Section AuthorizationResource_claims.
Context {TI : TimeImpl} {Remote : Type}.
Implicit Types (client : Client Remote) (w : World Remote).
Implicit Types (model plan : AuthorizationResourceModel.t).
Implicit Types (auth : Authorization.t) (authorizations : list Authorization.t).

(** No record of the list has the model's id.  When every record has an
    id, [readAuthorization] returns the error "authorization not found" and
    [Read] reports it; whatever the records, [readAuthorization] does not
    succeed and [Read] saves no state. *)
Lemma AuthorizationResource_Read_absent client model w authorizations
    (s : Remote) :
  FindAuthorizationsByOrgID client
    (ValueString (AuthorizationResourceModel.OrgID model)) (remote w)
    = (GoOk (Some authorizations), s) ->
  (forall a, a ∈ authorizations ->
             Authorization.Id a <> Some (ValueString (AuthorizationResourceModel.ID model))) ->
  (Forall (fun a => is_Some (Authorization.Id a)) authorizations ->
     fst (readAuthorization client model w)
       = Done (model, Some "authorization not found")
     /\ forall diags : Diagnostics,
          HasError diags = false ->
          fst (AuthorizationResource_Read client
                 {| Get_Diagnostics := diags; Get_Model := model |} w)
          = Done {| Resp_Diagnostics :=
                      diags ++
                      [{| Severity_ := SeverityError;
                          Summary := "Error Reading Authorization";
                          Detail := "Could not read authorization ID "
                                    +:+ ValueString (AuthorizationResourceModel.ID model)
                                    +:+ ": " +:+ "authorization not found" |}];
                    State_Set := None |})
  /\ (forall model', fst (readAuthorization client model w) <> Done (model', None))
  /\ (forall (diags : Diagnostics) resp,
        fst (AuthorizationResource_Read client
               {| Get_Diagnostics := diags; Get_Model := model |} w) = Done resp ->
        State_Set resp = None /\ HasError (Resp_Diagnostics resp) = true).
Proof.
  intros Hfind Habsent.
  assert (Hread : forall model',
             fst (readAuthorization client model w) <> Done (model', None)).
  { intros model'. unfold readAuthorization, bind, call. rewrite Hfind.
    cbn [deref ret].
    match goal with |- context [findAuthorization ?l ?i ?v] =>
      pose proof (findAuthorization_none l i v Habsent) as Hnone;
      destruct (findAuthorization l i v) as [[[auth|]|] w'] end;
      cbn in *; [|done..].
    exfalso. by apply (Hnone auth). }
  split; [|split; [exact Hread|]].
  - intros Hids.
    assert (Hfound : forall v,
               findAuthorization (Remote := Remote) authorizations
                 (ValueString (AuthorizationResourceModel.ID model)) v
               = (Done None, v)).
    { intros v. apply findAuthorization_absent.
      apply Forall_forall. intros a Ha.
      destruct (proj1 (Forall_forall _ _) Hids a Ha) as [a_Id Hid].
      exists a_Id. split; [exact Hid|].
      intros ->. by apply (Habsent a Ha). }
    assert (Hrun : forall v, remote v = remote w ->
               fst (readAuthorization client model v)
               = Done (model, Some "authorization not found")).
    { intros v Hv. unfold readAuthorization, bind, call.
      rewrite Hv, Hfind. cbn [deref ret]. rewrite Hfound. reflexivity. }
    split; [by apply Hrun|].
    intros diags Hdiags. unfold AuthorizationResource_Read.
    cbn [Get_Diagnostics Get_Model]. rewrite Hdiags. unfold bind.
    specialize (Hrun w eq_refl).
    destruct (readAuthorization client model w) as [[[m e]|] w'];
      cbn in Hrun; [|done].
    injection Hrun as -> ->. reflexivity.
  - intros diags resp. unfold AuthorizationResource_Read.
    cbn [Get_Diagnostics Get_Model].
    destruct (HasError diags) eqn:Hdiags.
    + cbn. intros [= <-]. by cbn.
    + unfold bind. specialize (Hread).
      destruct (readAuthorization client model w) as [[[m [e|]]|] w'];
        cbn in *.
      * intros [= <-]. cbn. split; [done|].
        unfold AddError, HasError. rewrite existsb_app. cbn.
        by rewrite orb_true_r.
      * exfalso. by apply (Hread m).
      * done.
Qed.

(** A record without id, met before any record with the id sought, stops
    the search with a nil dereference. *)
Lemma findAuthorization_nil_Id authorizations (id : string) w :
  (forall a, a ∈ authorizations -> Authorization.Id a <> Some id) ->
  Exists (fun a => Authorization.Id a = None) authorizations ->
  findAuthorization authorizations id w = (Panicked, w).
Proof.
  intros Habsent Hnil.
  induction Hnil as [a rest Ha|a rest _ IH]; cbn [findAuthorization]; unfold bind.
  - by rewrite Ha.
  - destruct (Authorization.Id a) as [a_Id|] eqn:Ha; cbn; [|done].
    destruct (String.eqb a_Id id) eqn:Heq.
    + apply String.eqb_eq in Heq. subst a_Id.
      exfalso. apply (Habsent a); [left|exact Ha].
    + apply IH. intros b Hb. apply Habsent. by right.
Qed.

(** C1.  The code breaks the claim on two inputs.  When the list that
    [FindAuthorizationsByOrgID] returns for the model's org_id has no record
    whose [Id] is the model's id and every record has an id,
    [readAuthorization] returns the error "authorization not found", [Read]
    reports it as the error diagnostic "Error Reading Authorization" and
    saves no state, as the claim says.  But when a record of such a list has
    a nil [Id], or when the pointer returned is nil, the unguarded
    dereferences of the search loop panic: [readAuthorization] returns no
    error and [Read] reports no diagnostic.  In no case does
    [readAuthorization] succeed or [Read] save a state. *)
Theorem AuthorizationResource_Read_not_found client model w (s : Remote) :
  let id := ValueString (AuthorizationResourceModel.ID model) in
  let listing :=
    FindAuthorizationsByOrgID client
      (ValueString (AuthorizationResourceModel.OrgID model)) (remote w) in
  let req (diags : Diagnostics) :=
    {| Get_Diagnostics := diags; Get_Model := model |} in
  (forall authorizations,
     listing = (GoOk (Some authorizations), s) ->
     (forall a, a ∈ authorizations -> Authorization.Id a <> Some id) ->
     (Forall (fun a => is_Some (Authorization.Id a)) authorizations ->
        fst (readAuthorization client model w)
          = Done (model, Some "authorization not found")
        /\ forall diags : Diagnostics,
             HasError diags = false ->
             fst (AuthorizationResource_Read client (req diags) w)
             = Done {| Resp_Diagnostics :=
                         diags ++
                         [{| Severity_ := SeverityError;
                             Summary := "Error Reading Authorization";
                             Detail := "Could not read authorization ID "
                                       +:+ id +:+ ": "
                                       +:+ "authorization not found" |}];
                       State_Set := None |})
     /\ (Exists (fun a => Authorization.Id a = None) authorizations ->
         fst (readAuthorization client model w) = Panicked
         /\ forall diags : Diagnostics,
              HasError diags = false ->
              fst (AuthorizationResource_Read client (req diags) w) = Panicked)
     /\ (forall model', fst (readAuthorization client model w) <> Done (model', None))
     /\ (forall (diags : Diagnostics) resp,
           fst (AuthorizationResource_Read client (req diags) w) = Done resp ->
           State_Set resp = None /\ HasError (Resp_Diagnostics resp) = true))
  /\ (listing = (GoOk None, s) ->
      fst (readAuthorization client model w) = Panicked
      /\ forall diags : Diagnostics,
           HasError diags = false ->
           fst (AuthorizationResource_Read client (req diags) w) = Panicked).
Proof.
  intros id listing req. split.
  - intros authorizations Hfind Habsent.
    destruct (AuthorizationResource_Read_absent _ _ _ _ _ Hfind Habsent)
      as (Herror & Hnever & Hstate).
    split; [exact Herror|]. split; [|split; [exact Hnever|exact Hstate]].
    intros Hnil.
    assert (Hrun : fst (readAuthorization client model w) = Panicked).
    { unfold readAuthorization, bind, call. fold listing. rewrite Hfind.
      cbn [deref ret].
      by rewrite (findAuthorization_nil_Id _ _ _ Habsent Hnil). }
    split; [exact Hrun|].
    intros diags Hdiags. unfold AuthorizationResource_Read, req.
    cbn [Get_Diagnostics Get_Model]. rewrite Hdiags. unfold bind.
    by destruct (readAuthorization client model w) as [[[m e]|] w'].
  - intros Hfind.
    assert (Hrun : fst (readAuthorization client model w) = Panicked).
    { unfold readAuthorization, bind, call. fold listing. by rewrite Hfind. }
    split; [exact Hrun|].
    intros diags Hdiags. unfold AuthorizationResource_Read, req.
    cbn [Get_Diagnostics Get_Model]. rewrite Hdiags. unfold bind.
    by destruct (readAuthorization client model w) as [[[m e]|] w'].
Qed.

End AuthorizationResource_claims.

(** A list in which "a1" is absent and one record has no id, and a reply
    without list: the provider panics instead of reporting that the
    authorization was not found. *)
Lemma AuthorizationResource_Read_not_found_witness :
  fst (AuthorizationResource_Read
         (scripted_client no_error no_error no_error
            (GoOk [listed_a2; listed_no_id]))
         (decoded auth_model) start) = Panicked
  /\ fst (AuthorizationResource_Read scripted_client_no_list
            (decoded auth_model) start) = Panicked
  /\ fst (readAuthorization
            (scripted_client no_error no_error no_error (GoOk [listed_a2]))
            auth_model start)
     = Done (auth_model, Some "authorization not found").
Proof.
  pose (client := scripted_client no_error no_error no_error
                    (GoOk [listed_a2; listed_no_id])).
  pose (present := scripted_client no_error no_error no_error
                     (GoOk [listed_a2])).
  destruct (AuthorizationResource_Read_not_found (TI := rendered_time)
              client auth_model start tt) as [Hlisted _].
  destruct (AuthorizationResource_Read_not_found (TI := rendered_time)
              scripted_client_no_list auth_model start tt) as [_ Hnil].
  destruct (AuthorizationResource_Read_not_found (TI := rendered_time)
              present auth_model start tt) as [Hpresent _].
  split; [|split].
  - destruct (Hlisted [listed_a2; listed_no_id] eq_refl) as (_ & Hpanic & _).
    { intros a Ha. apply elem_of_cons in Ha as [->|Ha]; [done|].
      apply list_elem_of_singleton in Ha. by subst a. }
    destruct Hpanic as [_ Hread]; [right; by left|].
    exact (Hread [] eq_refl).
  - destruct (Hnil eq_refl) as [_ Hread]. exact (Hread [] eq_refl).
  - destruct (Hpresent [listed_a2] eq_refl) as (Herror & _).
    { intros a Ha. apply list_elem_of_singleton in Ha. by subst a. }
    destruct Herror as [Hrun _]; [|exact Hrun].
    repeat constructor. by eexists.
Defined.

Section AuthorizationResource_frame.
Context {TI : TimeImpl} {Remote : Type}.
Implicit Types (client : Client Remote) (w : World Remote).
Implicit Types (model plan : AuthorizationResourceModel.t).
Implicit Types (auth : Authorization.t) (authorizations : list Authorization.t).

(** Whatever the store answers, [readAuthorization] leaves id, org_id,
    description and permissions of the model as they were. *)
Lemma readAuthorization_never_assigns client model w model' (err : option error)
    (w' : World Remote) :
  readAuthorization client model w = (Done (model', err), w') ->
  AuthorizationResourceModel.ID model' = AuthorizationResourceModel.ID model
  /\ AuthorizationResourceModel.OrgID model' = AuthorizationResourceModel.OrgID model
  /\ AuthorizationResourceModel.Description model'
     = AuthorizationResourceModel.Description model
  /\ AuthorizationResourceModel.Permissions model'
     = AuthorizationResourceModel.Permissions model.
Proof.
  unfold readAuthorization, bind, call.
  destruct (FindAuthorizationsByOrgID _ _ _) as [[e|[authorizations|]] s].
  - intros [= <- _ _]. done.
  - cbn [deref ret].
    destruct (findAuthorization _ _ _) as [[[auth|]|] v]; [| |done].
    + intros [= <- _ _]. apply readAuthorization_fields_frame.
    + intros [= <- _ _]. done.
  - done.
Qed.

(** C4, as amended.  When [Read] finds the record of the model's id (the
    first record of the list with that id), [readAuthorization] succeeds and
    leaves the model's permissions at their prior value, whatever the record
    holds; the token is left at its prior value when the record's [Token] is
    nil, and is overwritten with the record's token otherwise.  On every
    path [readAuthorization] leaves the permissions as they were. *)
Theorem readAuthorization_keeps_permissions client model w before auth after
    (s : Remote) :
  FindAuthorizationsByOrgID client
    (ValueString (AuthorizationResourceModel.OrgID model)) (remote w)
    = (GoOk (Some (before ++ auth :: after)), s) ->
  Forall (fun a => exists a_Id, Authorization.Id a = Some a_Id
                   /\ a_Id <> ValueString (AuthorizationResourceModel.ID model))
         before ->
  Authorization.Id auth = Some (ValueString (AuthorizationResourceModel.ID model)) ->
  (exists model',
     fst (readAuthorization client model w) = Done (model', None)
     /\ AuthorizationResourceModel.Permissions model'
        = AuthorizationResourceModel.Permissions model
     /\ (Authorization.Token auth = None ->
         AuthorizationResourceModel.Token model'
         = AuthorizationResourceModel.Token model)
     /\ (forall tok, Authorization.Token auth = Some tok ->
         AuthorizationResourceModel.Token model' = StringValue tok)
     /\ AuthorizationResourceModel.Status model'
        = match Authorization.Status auth with
          | Some st => StringValue st
          | None => AuthorizationResourceModel.Status model
          end)
  /\ (forall (client' : Client Remote) (v v' : World Remote) model'
             (err : option error),
        readAuthorization client' model v = (Done (model', err), v') ->
        AuthorizationResourceModel.Permissions model'
        = AuthorizationResourceModel.Permissions model).
Proof.
  intros Hfind Hbefore Hid. split.
  - unfold readAuthorization, bind, call. rewrite Hfind. cbn [deref ret].
    rewrite (findAuthorization_first _ _ _ _ _ Hbefore Hid). cbn.
    eexists. split; [reflexivity|].
    split; [apply readAuthorization_fields_frame|].
    rewrite readAuthorization_fields_Token, readAuthorization_fields_Status.
    split; [by intros ->|]. split; [by intros tok ->|done].
  - intros client' v v' model' err Hrun.
    by apply (readAuthorization_never_assigns _ _ _ _ _ _ Hrun).
Qed.

End AuthorizationResource_frame.

(** Scenario 7: the two permissions survive a read that follows a change of
    status in the store. *)
Lemma readAuthorization_keeps_permissions_witness :
  let client := scripted_client no_error no_error no_error
                  (GoOk [listed_a2; listed_a1]) in
  exists model',
    fst (readAuthorization client auth_model start) = Done (model', None)
    /\ AuthorizationResourceModel.Permissions model' = read_write_temp
    /\ AuthorizationResourceModel.Status model' = StringValue "inactive".
Proof.
  intros client.
  destruct (readAuthorization_keeps_permissions (TI := rendered_time)
              client auth_model start [listed_a2] listed_a1 [] tt eq_refl)
    as [(model' & Hrun & Hperm & _ & _ & Hstatus) _].
  { repeat constructor. by eexists. }
  { reflexivity. }
  exists model'. split; [exact Hrun|]. split; [exact Hperm|exact Hstatus].
Defined.

(** C4, as stated, fails: the listed record of "a1" carries a token, and the
    read replaces the token issued at creation by it. *)
Lemma readAuthorization_overwrites_Token :
  let client := scripted_client no_error no_error no_error (GoOk [listed_a1]) in
  ~ (forall model',
       fst (readAuthorization client auth_model start) = Done (model', None) ->
       AuthorizationResourceModel.Permissions model'
         = AuthorizationResourceModel.Permissions auth_model
       /\ AuthorizationResourceModel.Token model'
          = AuthorizationResourceModel.Token auth_model).
Proof.
  intros client Hclaim.
  destruct (Hclaim _ eq_refl) as [_ Htoken]. discriminate Htoken.
Qed.

Section AuthorizationResource_Update_claims.
Context {TI : TimeImpl} {Remote : Type}.
Implicit Types (client : Client Remote) (w : World Remote).
Implicit Types (model plan : AuthorizationResourceModel.t).

(** C6.  [Update] makes no call when the plan does not decode.  Otherwise
    its one mutation of the store is one [UpdateAuthorizationStatus] call,
    made first, whose authorization record carries the plan's id and nothing
    else (no description, org_id or permissions) and whose status is the
    plan's.  When that call fails, nothing else is called and no state is
    saved; when it succeeds, [readAuthorization] is run on the plan (one
    listing of the organization's authorizations) and the state saved is the
    model it returns. *)
Theorem AuthorizationResource_Update_only_status client
    (req : Source AuthorizationResourceModel.t) w :
  let plan := Get_Model req in
  let diags := Get_Diagnostics req in
  let authorization :=
    {| Authorization.Description := None;
       Authorization.Status := None;
       Authorization.Id := Some (ValueString (AuthorizationResourceModel.ID plan));
       Authorization.OrgID := None;
       Authorization.Permissions := None;
       Authorization.Token := None;
       Authorization.UserID := None |} in
  let status := ValueString (AuthorizationResourceModel.Status plan) in
  let update := call_UpdateAuthorizationStatus authorization status in
  let w_updated s := {| remote := s; calls := calls w ++ [update] |} in
  (HasError diags = true ->
     AuthorizationResource_Update client req w = (Done (respond diags), w))
  /\ (HasError diags = false ->
      List.filter is_mutation (calls (snd (AuthorizationResource_Update client req w)))
        = List.filter is_mutation (calls w) ++ [update]
      /\ (forall (err : error) (s : Remote),
            UpdateAuthorizationStatus client authorization status (remote w)
              = (GoErr err, s) ->
            AuthorizationResource_Update client req w
            = (Done {| Resp_Diagnostics :=
                         diags ++
                         [{| Severity_ := SeverityError;
                             Summary := "Error Updating Authorization";
                             Detail := "Could not update authorization status: "
                                       +:+ err |}];
                       State_Set := None |},
               w_updated s))
      /\ (forall (result : Authorization.t) (s : Remote),
            UpdateAuthorizationStatus client authorization status (remote w)
              = (GoOk result, s) ->
            calls (snd (AuthorizationResource_Update client req w))
              = calls w ++
                [update;
                 call_FindAuthorizationsByOrgID
                   (ValueString (AuthorizationResourceModel.OrgID plan))]
            /\ AuthorizationResource_Update client req w
               = match readAuthorization client plan (w_updated s) with
                 | (Done (saved, None), w') =>
                     (Done {| Resp_Diagnostics := diags; State_Set := Some saved |},
                      w')
                 | (Done (_, Some err), w') =>
                     (Done {| Resp_Diagnostics :=
                                diags ++
                                [{| Severity_ := SeverityError;
                                    Summary := "Error Reading Authorization After Update";
                                    Detail := "Could not read authorization after update: "
                                              +:+ err |}];
                              State_Set := None |},
                      w')
                 | (Panicked, w') => (Panicked, w')
                 end)).
Proof.
  intros plan diags authorization status update w_updated.
  split; [|intros Hdiags; split; [|split]].
  - intros Hdiags. unfold AuthorizationResource_Update.
    fold diags. by rewrite Hdiags.
  - unfold AuthorizationResource_Update. fold diags plan. rewrite Hdiags.
    fold authorization status update.
    unfold bind at 1. unfold call at 1.
    destruct (UpdateAuthorizationStatus _ _ _ _) as [[err|result] s].
    + cbn. rewrite List.filter_app. reflexivity.
    + unfold bind.
      match goal with |- context [readAuthorization client plan ?v] =>
        pose proof (readAuthorization_calls client plan v) as Hcalls;
        destruct (readAuthorization client plan v) as [[[m [e|]]|] w'] end;
        cbn in Hcalls |- *; rewrite Hcalls;
        rewrite !List.filter_app; cbn; by rewrite app_nil_r.
  - intros err s Hupdate. unfold AuthorizationResource_Update.
    fold diags plan. rewrite Hdiags. fold authorization status update.
    unfold bind, call. rewrite Hupdate. reflexivity.
  - intros result s Hupdate.
    match goal with |- _ /\ _ = ?rhs =>
      assert (Hrun : AuthorizationResource_Update client req w = rhs) end.
    { unfold AuthorizationResource_Update.
      fold diags plan. rewrite Hdiags. fold authorization status update.
      unfold bind at 1. unfold call at 1. rewrite Hupdate. fold (w_updated s).
      unfold bind.
      destruct (readAuthorization client plan (w_updated s))
        as [[[m [e|]]|] w']; reflexivity. }
    split; [|exact Hrun]. rewrite Hrun.
    pose proof (readAuthorization_calls client plan (w_updated s)) as Hcalls.
    destruct (readAuthorization client plan (w_updated s)) as [[[m [e|]]|] w'];
      cbn in Hcalls |- *; rewrite Hcalls, <- app_assoc; reflexivity.
Qed.

End AuthorizationResource_Update_claims.

(** An update of the status of "a1": one status update, one listing, and
    the permissions of the plan in the saved state. *)
Lemma AuthorizationResource_Update_only_status_witness :
  let client := scripted_client no_error no_error (GoOk listed_a1)
                  (GoOk [listed_a1]) in
  calls (snd (AuthorizationResource_Update client (decoded auth_model) start))
  = [call_UpdateAuthorizationStatus
       {| Authorization.Description := None;
          Authorization.Status := None;
          Authorization.Id := Some "a1";
          Authorization.OrgID := None;
          Authorization.Permissions := None;
          Authorization.Token := None;
          Authorization.UserID := None |} "active";
     call_FindAuthorizationsByOrgID "org1"].
Proof.
  intros client.
  destruct (AuthorizationResource_Update_only_status (TI := rendered_time)
              client (decoded auth_model) start) as [_ Hrun].
  destruct (Hrun eq_refl) as (_ & _ & Hok).
  destruct (Hok listed_a1 tt eq_refl) as [Hcalls _].
  exact Hcalls.
Defined.

Section AuthorizationResource_Create_claims.
Context {TI : TimeImpl} {Remote : Type}.
Implicit Types (client : Client Remote) (w : World Remote).
Implicit Types (permissions : list PermissionModel.t).
Implicit Types (resources : list (list ResourceModel.t)).

(** A loop that appends one element per step is a map. *)
Lemma fold_left_append {A B : Type} (f : A -> B) (l : list A) :
  forall acc : list B,
    fold_left (fun acc a => acc ++ [f a]) l acc = acc ++ map f l.
Proof.
  induction l as [|a l IH]; intros acc; cbn.
  - by rewrite app_nil_r.
  - by rewrite IH, <- app_assoc.
Qed.

(** The domain permissions of the entries, one group per entry. *)
Lemma convertPermissions_loop_groups permissions resources :
  Forall2 (fun perm rs =>
             ElementsAs ResourceModel.decode (PermissionModel.Resource perm)
             = Some rs) permissions resources ->
  forall domainPermissions,
    convertPermissions_loop permissions domainPermissions
    = GoOk (domainPermissions ++
            concat (zip_with (fun perm rs => map (domainPermission perm) rs)
                             permissions resources)).
Proof.
  induction 1 as [|perm rs permissions resources Hrs _ IH]; intros acc; cbn.
  - by rewrite app_nil_r.
  - rewrite Hrs, fold_left_append, IH, <- app_assoc. reflexivity.
Qed.

Lemma length_groups permissions resources :
  length permissions = length resources ->
  length (concat (zip_with (fun perm rs => map (domainPermission perm) rs)
                           permissions resources))
  = sum_list (length <$> resources).
Proof.
  revert resources.
  induction permissions as [|perm permissions IH]; intros [|rs resources];
    cbn; try done.
  intros [= Hlen]. rewrite length_app, length_map, IH; done.
Qed.



End AuthorizationResource_Create_claims.


(** ** The schema of the authorization resource *)

(** C5.  In the schema of the authorization resource, [org_id] is the only
    attribute with a [RequiresReplace] plan modifier: [permissions] has an
    empty list of plan modifiers and [description] has none, so a change of
    either is planned as an update in place, not as a replacement. *)
Theorem AuthorizationResource_Schema_replacement :
  plan_change AuthorizationResource_Schema "org_id" = Some ActionReplace
  /\ Attribute_PlanModifiers <$> AuthorizationResource_Schema !! "permissions"
     = Some []
  /\ Attribute_PlanModifiers <$> AuthorizationResource_Schema !! "description"
     = Some []
  /\ plan_change AuthorizationResource_Schema "permissions" = Some ActionUpdate
  /\ plan_change AuthorizationResource_Schema "description" = Some ActionUpdate
  /\ (forall name a,
        AuthorizationResource_Schema !! name = Some a ->
        existsb is_RequiresReplace (Attribute_PlanModifiers a) = true ->
        name = "org_id").
Proof.
  repeat (split; [vm_compute; reflexivity|]).
  intros name a Hlookup Hreplace.
  apply elem_of_list_to_map_2 in Hlookup.
  repeat (apply elem_of_cons in Hlookup as [[= -> ->]|Hlookup];
          [first [reflexivity | by cbn in Hreplace]|]).
  by apply elem_of_nil in Hlookup.
Qed.

(** What the missing rule lets through: a plan that changes the description
    only is applied by [Update], which sends the status alone; the state
    saved holds the new description and the store the old one. *)
Example AuthorizationResource_Update_description_drift :
  let client := scripted_client no_error no_error (GoOk listed_a1)
                  (GoOk [listed_a1]) in
  let run := AuthorizationResource_Update client
               (decoded auth_plan_new_description) start in
  (exists saved,
     fst run = Done {| Resp_Diagnostics := []; State_Set := Some saved |}
     /\ AuthorizationResourceModel.Description saved
        = StringValue "Updated description")
  /\ Authorization.Description listed_a1 = Some "Test authorization"
  /\ List.filter is_mutation (calls (snd run))
     = [call_UpdateAuthorizationStatus
          {| Authorization.Description := None;
             Authorization.Status := None;
             Authorization.Id := Some "a1";
             Authorization.OrgID := None;
             Authorization.Permissions := None;
             Authorization.Token := None;
             Authorization.UserID := None |} "active"].
Proof.
  cbv zeta. split; [eexists; split; reflexivity|]. split; reflexivity.
Qed.

(** ** Properties of the provider's configuration *)

Section influxdbProvider_claims.
Context {TI : TimeImpl} {Remote : Type}.
Implicit Types (env : gmap string string) (config : influxdbProviderModel.t).
Implicit Types (w : World Remote) (diags : Diagnostics).

(** The default is applied before the url is tested. *)
Lemma Configure_url_eqb env config :
  String.eqb (Configure_url env config) "" = false.
Proof.
  unfold Configure_url.
  match goal with |- context [if String.eqb ?u "" then _ else _] =>
    destruct (String.eqb u "") eqn:Hurl end; [reflexivity|exact Hurl].
Qed.

Lemma elem_of_AddError (d : Diagnostic) diags (summary detail : string) :
  d ∈ AddError diags summary detail ->
  d ∈ diags \/ Summary d = summary.
Proof.
  unfold AddError. intros [Hd|Hd]%elem_of_app; [by left|right].
  apply list_elem_of_singleton in Hd. by subst d.
Qed.

(** With the url [Configure] works with, the only diagnostic the two tests
    can add is the one of the token. *)
Lemma Configure_missing_url_present env config (token : string) diags :
  Configure_missing (Configure_url env config) token diags
  = if String.eqb token ""
    then diags ++
         [{| Severity_ := SeverityError;
             Summary := "Missing InfluxDB Token Configuration";
             Detail := "While configuring the provider, the InfluxDB token was not found in the INFLUXDB_V2_TOKEN environment variable or provider configuration block token attribute." |}]
    else diags.
Proof.
  unfold Configure_missing. rewrite Configure_url_eqb. reflexivity.
Qed.

(** C7.  [Configure] takes the token from the configuration when the token
    attribute is not null, and from the environment variable
    INFLUXDB_V2_TOKEN otherwise.  When the configuration decodes and the
    token so resolved is the empty string, [Configure] returns with one more
    diagnostic, an error whose summary names the token and whose detail
    names the environment variable and the token attribute of the provider
    block; no client is built and no call is made (the world is the one it
    started in), and no client is handed to resources and data sources. *)
Theorem Configure_token_missing
    (NewClientWithOptions : string -> string -> Client Remote)
    env (req : Source influxdbProviderModel.t) w :
  let config := Get_Model req in
  (String_IsNull (influxdbProviderModel.Token config) = false ->
   Configure_token env config = ValueString (influxdbProviderModel.Token config))
  /\ (String_IsNull (influxdbProviderModel.Token config) = true ->
      Configure_token env config = default "" (env !! "INFLUXDB_V2_TOKEN"))
  /\ (HasError (Get_Diagnostics req) = false ->
      Configure_token env config = "" ->
      exists d,
        influxdbProvider_Configure NewClientWithOptions env req w
        = (Done {| Configure_Diagnostics := Get_Diagnostics req ++ [d];
                   DataSourceData := None;
                   ResourceData := None |}, w)
        /\ Severity_ d = SeverityError
        /\ Summary d = "Missing InfluxDB Token Configuration"
        /\ mentions "InfluxDB token" (Detail d) = true
        /\ mentions "INFLUXDB_V2_TOKEN environment variable" (Detail d) = true
        /\ mentions "provider configuration block token attribute" (Detail d)
           = true).
Proof.
  intros config. split; [|split].
  - unfold Configure_token. by intros ->.
  - unfold Configure_token. by intros ->.
  - intros Hdiags Htoken. eexists. split.
    + unfold influxdbProvider_Configure. fold config.
      rewrite Hdiags, Htoken, Configure_missing_url_present. cbn [String.eqb].
      unfold HasError at 1. rewrite existsb_app. cbn [existsb is_error Severity_].
      rewrite orb_true_r. reflexivity.
    + repeat split; vm_compute; reflexivity.
Qed.

(** C9.  The url [Configure] tests is never empty, whatever the
    configuration and the environment: the default is applied first.  So
    the test for a missing url never adds its diagnostic, and a diagnostic
    "Missing InfluxDB URL Configuration" in a response of [Configure] can
    only be one the request came with.  A url configured as the empty string
    resolves to the default, whatever INFLUXDB_V2_URL holds. *)
Theorem Configure_url_never_missing env config :
  Configure_url env config <> ""
  /\ (forall (token : string) diags (d : Diagnostic),
        d ∈ Configure_missing (Configure_url env config) token diags ->
        Summary d = "Missing InfluxDB URL Configuration" ->
        d ∈ diags)
  /\ (forall (NewClientWithOptions : string -> string -> Client Remote)
             (req : Source influxdbProviderModel.t) w resp (w' : World Remote)
             (d : Diagnostic),
        Get_Model req = config ->
        influxdbProvider_Configure NewClientWithOptions env req w
          = (Done resp, w') ->
        d ∈ Configure_Diagnostics resp ->
        Summary d = "Missing InfluxDB URL Configuration" ->
        d ∈ Get_Diagnostics req)
  /\ (influxdbProviderModel.URL config = StringValue "" ->
      Configure_url env config = "http://localhost:8086").
Proof.
  assert (Hmissing : forall (token : string) diags (d : Diagnostic),
            d ∈ Configure_missing (Configure_url env config) token diags ->
            Summary d = "Missing InfluxDB URL Configuration" ->
            d ∈ diags).
  { intros token diags d. rewrite Configure_missing_url_present.
    destruct (String.eqb token ""); [|done].
    intros [Hd|Hd]%elem_of_app Hsum; [done|].
    apply list_elem_of_singleton in Hd. subst d. discriminate Hsum. }
  split; [|split; [exact Hmissing|split]].
  - intros Hurl. pose proof (Configure_url_eqb env config) as Hne.
    rewrite Hurl in Hne. discriminate Hne.
  - intros NewClientWithOptions req w resp w' d <-.
    unfold influxdbProvider_Configure.
    destruct (HasError (Get_Diagnostics req)); [by intros [= <- _]|].
    destruct (HasError (Configure_missing _ _ _)).
    { intros [= <- _]. cbn. apply Hmissing. }
    unfold bind, call. cbn.
    destruct (Ready _ _) as [[err|ready] s]; cbn.
    { intros [= <- _]. cbn.
      intros [Hd|Hd]%elem_of_AddError Hsum; [by eapply Hmissing|].
      rewrite Hd in Hsum. discriminate Hsum. }
    match goal with |- context [if ?b then _ else _] => destruct b end;
      cbn; intros [= <- _]; cbn.
    + intros [Hd|Hd]%elem_of_AddError Hsum; [by eapply Hmissing|].
      rewrite Hd in Hsum. discriminate Hsum.
    + apply Hmissing.
  - intros Hurl. unfold Configure_url. rewrite Hurl. reflexivity.
Qed.

End influxdbProvider_claims.

(** Nothing set in the provider block and nothing in the environment: the
    token is missing and no client is built. *)
Lemma Configure_token_missing_witness :
  exists d,
    influxdbProvider_Configure scripted_NewClientWithOptions ∅
      (decoded config_unset) start
    = (Done {| Configure_Diagnostics := [d];
               DataSourceData := None;
               ResourceData := None |}, start)
    /\ Summary d = "Missing InfluxDB Token Configuration".
Proof.
  destruct (Configure_token_missing (TI := rendered_time)
              scripted_NewClientWithOptions ∅ (decoded config_unset) start)
    as (_ & _ & Hmissing).
  destruct (Hmissing eq_refl eq_refl) as (d & Hrun & _ & Hsummary & _).
  exists d. split; [exact Hrun|exact Hsummary].
Defined.

(** The url set to the empty string in the provider block, with
    INFLUXDB_V2_URL set: the default is used, not the variable. *)
Lemma Configure_url_never_missing_witness :
  Getenv env_with_url "INFLUXDB_V2_URL" = "http://influx.example:8086"
  /\ Configure_url env_with_url config_empty_url = "http://localhost:8086".
Proof.
  split; [reflexivity|].
  apply (Configure_url_never_missing (TI := rendered_time) (Remote := unit)
           env_with_url config_empty_url).
  reflexivity.
Defined.

(** ** Properties of the readiness data source *)

Section ReadyDataSource_claims.
Context {TI : TimeImpl} {Remote : Type}.
Implicit Types (client : Client Remote) (w : World Remote).

(** C8.  When [client.Ready] returns an error, [Read] reports one error
    diagnostic whose detail ends with the text of the error, and saves no
    state.  When it returns a readiness record, [Read] saves a state whose
    [ready] attribute is true.  On every path, a state that [Read] saves has
    [ready] true: false is never written. *)
Theorem ReadyDataSource_Read_ready client w :
  (forall (err : error) (s : Remote),
     Ready client (remote w) = (GoErr err, s) ->
     fst (ReadyDataSource_Read client w)
     = Done {| Resp_Diagnostics :=
                 [{| Severity_ := SeverityError;
                     Summary := "Error Checking Server Status";
                     Detail := "Could not check if server is ready: " +:+ err |}];
               State_Set := None |})
  /\ (forall (ready : Ready.t) (s : Remote),
        Ready client (remote w) = (GoOk (Some ready), s) ->
        exists state,
          fst (ReadyDataSource_Read client w)
            = Done {| Resp_Diagnostics := []; State_Set := Some state |}
          /\ ReadyDataSourceModel.Ready state = BoolValue true)
  /\ (forall resp state,
        fst (ReadyDataSource_Read client w) = Done resp ->
        State_Set resp = Some state ->
        ReadyDataSourceModel.Ready state = BoolValue true).
Proof.
  unfold ReadyDataSource_Read, bind, call.
  destruct (Ready client (remote w)) as [[err|[ready|]] s]; cbn;
    (split; [|split]); intros; simplify_eq/=; eauto.
Qed.

End ReadyDataSource_claims.

(** A server that answers the probe, and one that cannot be reached. *)
Lemma ReadyDataSource_Read_ready_witness :
  (exists state,
     fst (ReadyDataSource_Read
            (scripted_client (GoOk (Some ready_server)) no_error no_error no_error)
            start)
       = Done {| Resp_Diagnostics := []; State_Set := Some state |}
     /\ ReadyDataSourceModel.Ready state = BoolValue true)
  /\ fst (ReadyDataSource_Read
            (scripted_client (GoErr "connection refused") no_error no_error no_error)
            start)
     = Done {| Resp_Diagnostics :=
                 [{| Severity_ := SeverityError;
                     Summary := "Error Checking Server Status";
                     Detail := "Could not check if server is ready: connection refused" |}];
               State_Set := None |}.
Proof.
  split.
  - destruct (ReadyDataSource_Read_ready (TI := rendered_time)
                (scripted_client (GoOk (Some ready_server))
                   no_error no_error no_error) start) as (_ & Hready & _).
    exact (Hready ready_server tt eq_refl).
  - destruct (ReadyDataSource_Read_ready (TI := rendered_time)
                (scripted_client (GoErr "connection refused")
                   no_error no_error no_error) start) as (Herror & _).
    exact (Herror "connection refused" tt eq_refl).
Defined.

(** ** Further properties of the bucket resource *)

Section BucketResource_conversions.

Lemma convertRetentionRulesToDomain_eq (rulesSet : types_Set) :
  convertRetentionRulesToDomain rulesSet
  = match ElementsAs RetentionRuleModel.decode rulesSet with
    | None => GoErr "error converting retention rules set"
    | Some rules => GoOk (map retentionRuleSent rules)
    end.
Proof.
  unfold convertRetentionRulesToDomain.
  destruct (ElementsAs _ _) as [rules|]; [|done].
  by rewrite (fold_left_append retentionRuleSent).
Qed.

Lemma ElementsAs_convertRetentionRulesToTerraform
    (domainRules : list RetentionRule.t) :
  ElementsAs RetentionRuleModel.decode
    (fst (convertRetentionRulesToTerraform domainRules))
  = Some (map retentionRuleRead domainRules).
Proof.
  rewrite convertRetentionRulesToTerraform_eq. unfold ElementsAs. cbn.
  apply decode_retentionRuleObjects.
Qed.

(** X1.  Rules of the store converted to Terraform and back come back with
    the same durations, in the same order, and with the type "expire" in
    place of a nil type; rules that all carry a type come back unchanged. *)
Theorem retentionRules_store_roundtrip (domainRules : list RetentionRule.t) :
  convertRetentionRulesToDomain
    (fst (convertRetentionRulesToTerraform domainRules))
  = GoOk (map retentionRuleDefaulted domainRules)
  /\ (Forall (fun rule => is_Some (RetentionRule.Type_ rule)) domainRules ->
      convertRetentionRulesToDomain
        (fst (convertRetentionRulesToTerraform domainRules))
      = GoOk domainRules).
Proof.
  assert (Hround : convertRetentionRulesToDomain
                     (fst (convertRetentionRulesToTerraform domainRules))
                   = GoOk (map retentionRuleDefaulted domainRules)).
  { rewrite convertRetentionRulesToDomain_eq,
      ElementsAs_convertRetentionRulesToTerraform.
    by rewrite map_map. }
  split; [exact Hround|].
  intros Htyped. rewrite Hround. f_equal. clear Hround.
  induction Htyped as [|rule rest Hsome _ IH]; [done|].
  cbn [map]. rewrite IH.
  destruct rule as [every [ty|]]; [reflexivity|].
  by destruct Hsome.
Qed.

(** X2.  Rules of the plan whose attributes are known, sent to the store
    and read back as they were sent, decode to the rules of the plan: the
    read after a create or an update shows no difference with the plan.  In
    general a rule reads back with the duration and the type that were
    sent, a null or unknown attribute having been sent as 0 or as the empty
    string. *)
Theorem retentionRules_plan_roundtrip (rulesSet : types_Set)
    (rules : list RetentionRuleModel.t) :
  ElementsAs RetentionRuleModel.decode rulesSet = Some rules ->
  exists sent,
    convertRetentionRulesToDomain rulesSet = GoOk sent
    /\ length sent = length rules
    /\ Forall (fun rule => is_Some (RetentionRule.Type_ rule)) sent
    /\ snd (convertRetentionRulesToTerraform sent) = None
    /\ ElementsAs RetentionRuleModel.decode
         (fst (convertRetentionRulesToTerraform sent))
       = Some (map (fun rule =>
                      {| RetentionRuleModel.EverySeconds :=
                           Int64Value (ValueInt64 (RetentionRuleModel.EverySeconds rule));
                         RetentionRuleModel.Type_ :=
                           StringValue (ValueString (RetentionRuleModel.Type_ rule)) |})
                   rules)
    /\ (Forall retentionRuleKnown rules ->
        ElementsAs RetentionRuleModel.decode
          (fst (convertRetentionRulesToTerraform sent))
        = Some rules).
Proof.
  intros Hdecode. exists (map retentionRuleSent rules).
  assert (Hback : ElementsAs RetentionRuleModel.decode
            (fst (convertRetentionRulesToTerraform (map retentionRuleSent rules)))
          = Some (map (fun rule =>
                      {| RetentionRuleModel.EverySeconds :=
                           Int64Value (ValueInt64 (RetentionRuleModel.EverySeconds rule));
                         RetentionRuleModel.Type_ :=
                           StringValue (ValueString (RetentionRuleModel.Type_ rule)) |})
                   rules)).
  { rewrite ElementsAs_convertRetentionRulesToTerraform. by rewrite map_map. }
  split; [by rewrite convertRetentionRulesToDomain_eq, Hdecode|].
  split; [apply length_map|]. split.
  { apply Forall_forall. intros rule [m [-> _]]%list_elem_of_fmap. by eexists. }
  split; [by rewrite convertRetentionRulesToTerraform_eq|].
  split; [exact Hback|].
  intros Hknown. rewrite Hback. f_equal. clear Hback Hdecode.
  induction Hknown as [|rule rest (every & type & ->) _ IH]; [done|].
  cbn. by rewrite IH.
Qed.

End BucketResource_conversions.

(** The rule of scenario 6, sent and read back. *)
Lemma retentionRules_store_roundtrip_witness :
  convertRetentionRulesToDomain
    (fst (convertRetentionRulesToTerraform
            [{| RetentionRule.EverySeconds := 2592000;
                RetentionRule.Type_ := Some "expire" |}]))
  = GoOk [{| RetentionRule.EverySeconds := 2592000;
             RetentionRule.Type_ := Some "expire" |}].
Proof.
  apply retentionRules_store_roundtrip.
  repeat constructor. by eexists.
Defined.

Lemma retentionRules_plan_roundtrip_witness :
  exists sent,
    convertRetentionRulesToDomain (BucketResourceModel.RetentionRules temp_plan)
      = GoOk sent
    /\ ElementsAs RetentionRuleModel.decode
         (fst (convertRetentionRulesToTerraform sent))
       = ElementsAs RetentionRuleModel.decode
           (BucketResourceModel.RetentionRules temp_plan).
Proof.
  destruct (retentionRules_plan_roundtrip
              (BucketResourceModel.RetentionRules temp_plan)
              [{| RetentionRuleModel.EverySeconds := Int64Value 2592000;
                  RetentionRuleModel.Type_ := StringValue "expire" |}] eq_refl)
    as (sent & Hsent & _ & _ & _ & _ & Hknown).
  exists sent. split; [exact Hsent|]. apply Hknown.
  repeat constructor. by eexists _, _.
Defined.

Section BucketResource_operations.
Context {TI : TimeImpl} {VR : ValueRendering} {Remote : Type}.
Implicit Types (client : Client Remote) (w : World Remote).
Implicit Types (model plan state : BucketResourceModel.t).

(** The two ways [readBucket] ends. *)
Lemma readBucket_cases client model w :
  let id := ValueString (BucketResourceModel.ID model) in
  let w_read s := {| remote := s; calls := calls w ++ [call_FindBucketByID id] |} in
  (exists (found : Bucket.t) (s : Remote),
      FindBucketByID client id (remote w) = (GoOk found, s)
      /\ readBucket client model w
         = (Done (BucketResourceModel.set_RetentionRules
                    (mkSet (ObjectType retentionRuleType) ValueStateKnown
                       (map retentionRuleObject (Bucket.RetentionRules found)))
                    (readBucket_fields found model), None), w_read s))
  \/ (exists (err : error) (s : Remote),
        FindBucketByID client id (remote w) = (GoErr err, s)
        /\ readBucket client model w
           = (Done (model, Some ("error finding bucket: " +:+ err)), w_read s)).
Proof.
  intros id w_read.
  destruct (FindBucketByID client id (remote w)) as [[err|found] s] eqn:Hfind.
  - right. exists err, s. split; [done|]. by apply readBucket_failed.
  - left. exists found, s. split; [done|]. by apply readBucket_found.
Qed.

(** [readBucket] returns, after one lookup. *)
Lemma readBucket_returns client model w :
  exists model' (err : option error) (w' : World Remote),
    readBucket client model w = (Done (model', err), w')
    /\ calls w' = calls w ++ [call_FindBucketByID
                                (ValueString (BucketResourceModel.ID model))].
Proof.
  destruct (readBucket_cases client model w)
    as [(found & s & _ & ->)|(e & s & _ & ->)]; by eexists _, _, _.
Qed.

(** X3.  [readBucket] always returns; it makes one call, the lookup of the
    model's id, and does not change the id of the model.  It fails exactly
    when the lookup fails, and then hands the model back untouched: no field
    is assigned before the last point of failure is passed. *)
Theorem readBucket_frame client model w :
  exists model' (err : option error) (w' : World Remote),
    readBucket client model w = (Done (model', err), w')
    /\ calls w' = calls w ++ [call_FindBucketByID
                                (ValueString (BucketResourceModel.ID model))]
    /\ BucketResourceModel.ID model' = BucketResourceModel.ID model
    /\ (err <> None -> model' = model)
    /\ (err = None <->
        exists found,
          fst (FindBucketByID client
                 (ValueString (BucketResourceModel.ID model)) (remote w))
          = GoOk found).
Proof.
  destruct (readBucket_cases client model w)
    as [(found & s & Hfind & ->)|(e & s & Hfind & ->)];
    eexists _, _, _; (split; [reflexivity|]); cbn [calls];
    (split; [reflexivity|]); rewrite Hfind; cbn [fst].
  - split; [apply readBucket_fields_ID|]. split; [done|].
    split; [by eexists|done].
  - split; [done|]. split; [done|].
    split; [done|]. by intros [found [=]].
Qed.

(** X4.  A response of [Create], [Read] or [Update] of the bucket resource
    saves a state exactly when it carries no error diagnostic, and a
    response that saves a state carries the diagnostics of the request and
    nothing more. *)
Theorem BucketResource_state_iff_no_error client
    (req : Source BucketResourceModel.t) w (resp : Response BucketResourceModel.t) :
  fst (BucketResource_Create client req w) = Done resp
  \/ fst (BucketResource_Read client req w) = Done resp
  \/ fst (BucketResource_Update client req w) = Done resp ->
  (State_Set resp = None <-> HasError (Resp_Diagnostics resp) = true)
  /\ (is_Some (State_Set resp) -> Resp_Diagnostics resp = Get_Diagnostics req).
Proof.
  assert (Hadd : forall ds summary detail,
             HasError (AddError ds summary detail) = true).
  { intros. unfold HasError, AddError. rewrite existsb_app. cbn.
    apply orb_true_r. }
  assert (Herr : forall ds summary detail,
            resp = respond (AddError ds summary detail) ->
            (State_Set resp = None <-> HasError (Resp_Diagnostics resp) = true)
            /\ (is_Some (State_Set resp) ->
                Resp_Diagnostics resp = Get_Diagnostics req)).
  { intros ds summary detail ->. unfold respond.
    cbn [State_Set Resp_Diagnostics]. rewrite Hadd.
    split; [done|]. by intros [? [=]]. }
  assert (Hdecode : HasError (Get_Diagnostics req) = true ->
            resp = respond (Get_Diagnostics req) ->
            (State_Set resp = None <-> HasError (Resp_Diagnostics resp) = true)
            /\ (is_Some (State_Set resp) ->
                Resp_Diagnostics resp = Get_Diagnostics req)).
  { intros Hd ->. unfold respond. cbn [State_Set Resp_Diagnostics].
    split; [done|]. by intros [? [=]]. }
  assert (Hsaved : forall m, HasError (Get_Diagnostics req) = false ->
            resp = respond_state (Get_Diagnostics req) m ->
            (State_Set resp = None <-> HasError (Resp_Diagnostics resp) = true)
            /\ (is_Some (State_Set resp) ->
                Resp_Diagnostics resp = Get_Diagnostics req)).
  { intros m Hd ->. unfold respond_state. cbn [State_Set Resp_Diagnostics].
    rewrite Hd. split; [|done]. split; discriminate. }
  assert (Hset : forall m, HasError (Get_Diagnostics req) = false ->
            resp = BucketState_Set (Get_Diagnostics req) m ->
            (State_Set resp = None <-> HasError (Resp_Diagnostics resp) = true)
            /\ (is_Some (State_Set resp) ->
                Resp_Diagnostics resp = Get_Diagnostics req)).
  { intros m Hd Hresp.
    destruct (BucketState_Set_cases (Get_Diagnostics req) m)
      as [[_ Hsave]|(errors & Herrors & Hrefuse)].
    - apply (Hsaved m Hd). by rewrite Hresp.
    - rewrite Hresp, Hrefuse. unfold respond.
      cbn [State_Set Resp_Diagnostics]. unfold HasError in Herrors |- *.
      rewrite existsb_app, Herrors, orb_true_r.
      split; [done|]. by intros [? [=]]. }
  unfold BucketResource_Create, BucketResource_Read, BucketResource_Update.
  destruct (HasError (Get_Diagnostics req)) eqn:Hdiags.
  { cbn. intros [[= <-]|[[= <-]|[= <-]]]; by apply Hdecode. }
  intros [Hrun|[Hrun|Hrun]]; revert Hrun.
  - destruct (convertRetentionRulesToDomain _) as [e|rules].
    { cbn. intros [= <-]. by eapply Herr. }
    unfold bind at 1. unfold call at 1.
    destruct (CreateBucket _ _ _) as [[e|result] s]; cbn.
    { intros [= <-]. by eapply Herr. }
    unfold bind at 1. destruct (Bucket.Id result) as [id|]; cbn; [|done].
    unfold bind.
    match goal with |- context [readBucket client ?m ?v] =>
      destruct (readBucket_returns client m v) as (m' & e & w' & -> & _) end.
    destruct e as [e|]; cbn [fst ret]; intros [= <-];
      [by eapply Herr|by eapply Hset].
  - unfold bind.
    match goal with |- context [readBucket client ?m ?v] =>
      destruct (readBucket_returns client m v) as (m' & e & w' & -> & _) end.
    destruct e as [e|]; cbn [fst ret]; intros [= <-];
      [by eapply Herr|by eapply Hset].
  - destruct (convertRetentionRulesToDomain _) as [e|rules].
    { cbn. intros [= <-]. by eapply Herr. }
    unfold bind at 1. unfold call at 1.
    destruct (UpdateBucket _ _ _) as [[e|result] s]; cbn.
    { intros [= <-]. by eapply Herr. }
    unfold bind.
    match goal with |- context [readBucket client ?m ?v] =>
      destruct (readBucket_returns client m v) as (m' & e & w' & -> & _) end.
    destruct e as [e|]; cbn [fst ret]; intros [= <-];
      [by eapply Herr|by eapply Hset].
Qed.

End BucketResource_operations.

(** The creation of scenario 6 saves a state and reports nothing. *)
Lemma BucketResource_state_iff_no_error_witness :
  let client := scripted_client no_error (GoOk temp_bucket) no_error no_error in
  exists resp,
    fst (BucketResource_Create (VR := plain_rendering) client
           (decoded temp_plan) start) = Done resp
    /\ is_Some (State_Set resp) /\ Resp_Diagnostics resp = [].
Proof.
  intros client. eexists. split; [reflexivity|].
  split; [by eexists|].
  eapply (BucketResource_state_iff_no_error (TI := rendered_time)
            (VR := plain_rendering) client (decoded temp_plan) start).
  - left. reflexivity.
  - by eexists.
Defined.

Section BucketResource_composition.
Context {TI : TimeImpl} {VR : ValueRendering} {Remote : Type}.
Implicit Types (client : Client Remote) (w : World Remote).
Implicit Types (model plan state : BucketResourceModel.t).

(** X5.  When the retention rules of the plan do not convert, [Create] and
    [Update] report "Error Converting Retention Rules" and return in the
    world they started in: the store is not called. *)
Theorem BucketResource_conversion_error_no_call client
    (req : Source BucketResourceModel.t) w (err : error) :
  HasError (Get_Diagnostics req) = false ->
  convertRetentionRulesToDomain (BucketResourceModel.RetentionRules (Get_Model req))
    = GoErr err ->
  let failed : Response BucketResourceModel.t :=
    {| Resp_Diagnostics :=
         Get_Diagnostics req ++
         [{| Severity_ := SeverityError;
             Summary := "Error Converting Retention Rules";
             Detail := "Could not convert retention rules: "
                       +:+ "error converting retention rules set" |}];
       State_Set := None |} in
  err = "error converting retention rules set"
  /\ BucketResource_Create client req w = (Done failed, w)
  /\ BucketResource_Update client req w = (Done failed, w).
Proof.
  intros Hdiags Hconv failed.
  assert (Herr : err = "error converting retention rules set").
  { unfold convertRetentionRulesToDomain in Hconv.
    destruct (ElementsAs _ _); by inversion Hconv. }
  subst err. split; [done|].
  unfold BucketResource_Create, BucketResource_Update.
  by rewrite Hdiags, Hconv.
Qed.

(** X6.  [Update], when the plan decodes and its rules convert, first
    sends the whole bucket of the plan, with the plan's id, in one
    [UpdateBucket] call.  If that call fails nothing else is called and no
    state is saved.  If it succeeds the bucket is looked up by the plan's
    id; the update is the only call that changes the store.  A state is
    saved, with the diagnostics of the request, exactly when [readBucket]
    returns a model whose retention rules [State.Set] accepts, and the
    state saved is that model: it is saved when the rules of the bucket
    found are distinct once their type is defaulted, and otherwise the
    response carries an error and no state. *)
Theorem BucketResource_Update_resends client
    (req : Source BucketResourceModel.t) w (retentionRules : list RetentionRule.t) :
  HasError (Get_Diagnostics req) = false ->
  convertRetentionRulesToDomain (BucketResourceModel.RetentionRules (Get_Model req))
    = GoOk retentionRules ->
  let plan := Get_Model req in
  let updateBucket := Update_updateBucket plan retentionRules in
  let w_updated s := {| remote := s; calls := calls w ++ [call_UpdateBucket updateBucket] |} in
  Bucket.Id updateBucket = Some (ValueString (BucketResourceModel.ID plan))
  /\ Bucket.Name updateBucket = ValueString (BucketResourceModel.Name plan)
  /\ Bucket.RetentionRules updateBucket = retentionRules
  /\ (forall (err : error) (s : Remote),
        UpdateBucket client updateBucket (remote w) = (GoErr err, s) ->
        BucketResource_Update client req w
        = (Done {| Resp_Diagnostics :=
                     Get_Diagnostics req ++
                     [{| Severity_ := SeverityError;
                         Summary := "Error Updating Bucket";
                         Detail := "Could not update bucket, unexpected error: "
                                   +:+ err |}];
                   State_Set := None |}, w_updated s))
  /\ (forall (result : Bucket.t) (s : Remote),
        UpdateBucket client updateBucket (remote w) = (GoOk result, s) ->
        calls (snd (BucketResource_Update client req w))
          = calls w ++
            [call_UpdateBucket updateBucket;
             call_FindBucketByID (ValueString (BucketResourceModel.ID plan))]
        /\ (forall saved,
              fst (readBucket client plan (w_updated s)) = Done (saved, None)
              /\ HasError (Set_Validate (BucketResourceModel.RetentionRules saved))
                 = false <->
              fst (BucketResource_Update client req w)
              = Done {| Resp_Diagnostics := Get_Diagnostics req;
                        State_Set := Some saved |})
        /\ (forall resp saved,
              fst (BucketResource_Update client req w) = Done resp ->
              State_Set resp = Some saved ->
              fst (readBucket client plan (w_updated s)) = Done (saved, None)
              /\ Resp_Diagnostics resp = Get_Diagnostics req)
        /\ (forall (found : Bucket.t) (s' : Remote),
              FindBucketByID client (ValueString (BucketResourceModel.ID plan)) s
                = (GoOk found, s') ->
              exists hydrated,
                fst (readBucket client plan (w_updated s)) = Done (hydrated, None)
                /\ (NoDup (map retentionRuleDefaulted (Bucket.RetentionRules found)) ->
                    fst (BucketResource_Update client req w)
                    = Done {| Resp_Diagnostics := Get_Diagnostics req;
                              State_Set := Some hydrated |})
                /\ (~ NoDup (map retentionRuleDefaulted
                               (Bucket.RetentionRules found)) ->
                    exists resp,
                      fst (BucketResource_Update client req w) = Done resp
                      /\ State_Set resp = None
                      /\ HasError (Resp_Diagnostics resp) = true))).
Proof.
  intros Hdiags Hconv plan updateBucket w_updated.
  split; [done|]. split; [done|]. split; [done|]. split.
  - intros err s Hupdate. unfold BucketResource_Update.
    rewrite Hdiags, Hconv. fold plan updateBucket.
    unfold bind, call. by rewrite Hupdate.
  - intros result s Hupdate.
    assert (Hrun : BucketResource_Update client req w
              = match readBucket client plan (w_updated s) with
                | (Done (saved, None), w') =>
                    (Done (BucketState_Set (Get_Diagnostics req) saved), w')
                | (Done (_, Some err), w') =>
                    (Done (respond (AddError (Get_Diagnostics req)
                                      "Error Reading Bucket After Update"
                                      ("Could not read bucket after update: "
                                       +:+ err))), w')
                | (Panicked, w') => (Panicked, w')
                end).
    { unfold BucketResource_Update. rewrite Hdiags, Hconv.
      fold plan updateBucket. unfold bind at 1. unfold call at 1.
      rewrite Hupdate. fold (w_updated s). unfold bind.
      by destruct (readBucket client plan (w_updated s)) as [[[m [e|]]|] w']. }
    rewrite Hrun. clear Hrun.
    split; [|split; [|split]].
    + destruct (readBucket_returns client plan (w_updated s))
        as (m & e & w' & -> & Hcalls).
      unfold w_updated in Hcalls. cbn [calls] in Hcalls.
      destruct e; cbn [snd]; by rewrite Hcalls, <- app_assoc.
    + intros saved.
      destruct (readBucket_returns client plan (w_updated s))
        as (m & e & w' & -> & _).
      destruct e as [e|]; cbn [fst].
      { unfold respond. split; [by intros [[=] _]|by intros [=]]. }
      split.
      * intros [[= ->] Hvalid]. by rewrite (BucketState_Set_valid _ _ Hvalid).
      * intros Hsaved.
        destruct (BucketState_Set_cases (Get_Diagnostics req) m)
          as [[Hvalid Hsave]|(errors & _ & Hrefuse)].
        -- rewrite Hsave in Hsaved. unfold respond_state in Hsaved.
           injection Hsaved as <-. by split.
        -- rewrite Hrefuse in Hsaved. unfold respond in Hsaved.
           by injection Hsaved.
    + intros resp saved.
      destruct (readBucket_returns client plan (w_updated s))
        as (m & e & w' & -> & _).
      destruct e as [e|]; cbn [fst]; intros [= <-].
      { unfold respond. by cbn [State_Set]. }
      destruct (BucketState_Set_cases (Get_Diagnostics req) m)
        as [[_ ->]|(errors & _ & ->)];
        unfold respond_state, respond; cbn [State_Set Resp_Diagnostics];
        [|done].
      by intros [= <-].
    + intros found s' Hfind.
      assert (Hfind' : FindBucketByID client
                         (ValueString (BucketResourceModel.ID plan))
                         (remote (w_updated s)) = (GoOk found, s'))
        by exact Hfind.
      rewrite (readBucket_found _ _ _ _ _ Hfind'). cbn [fst].
      destruct (BucketState_Set_read (Get_Diagnostics req)
                  (readBucket_fields found plan) (Bucket.RetentionRules found))
        as [Hok Hdup].
      eexists. split; [reflexivity|]. split.
      * intros Hnodup. by rewrite (Hok Hnodup).
      * intros Hnot. destruct (Hdup Hnot) as (errors & Herrors & ->).
        eexists. split; [reflexivity|]. split; [reflexivity|].
        unfold respond; cbn [Resp_Diagnostics].
        unfold HasError in Herrors |- *.
        rewrite existsb_app, Herrors. apply orb_true_r.
Qed.

(** X7.  A second [Read] of a bucket that the store returns unchanged
    saves the state the first [Read] saved: reading is idempotent. *)
Theorem BucketResource_Read_idempotent client state
    (diags : Diagnostics) w (v : World Remote) (found : Bucket.t) (s s' : Remote)
    saved :
  FindBucketByID client (ValueString (BucketResourceModel.ID state)) (remote w)
    = (GoOk found, s) ->
  FindBucketByID client (ValueString (BucketResourceModel.ID state)) (remote v)
    = (GoOk found, s') ->
  fst (BucketResource_Read client
         {| Get_Diagnostics := diags; Get_Model := state |} w)
    = Done {| Resp_Diagnostics := diags; State_Set := Some saved |} ->
  fst (BucketResource_Read client
         {| Get_Diagnostics := diags; Get_Model := saved |} v)
    = Done {| Resp_Diagnostics := diags; State_Set := Some saved |}.
Proof.
  intros Hfind Hfind'. unfold BucketResource_Read. cbn [Get_Diagnostics Get_Model].
  destruct (HasError diags); [done|]. unfold bind.
  rewrite (readBucket_found _ _ _ _ _ Hfind). cbn [fst ret].
  set (first := BucketResourceModel.set_RetentionRules
                  (mkSet (ObjectType retentionRuleType) ValueStateKnown
                     (map retentionRuleObject (Bucket.RetentionRules found)))
                  (readBucket_fields found state)).
  intros Hfirst.
  assert (Hsave : BucketState_Set diags first = respond_state diags first
                  /\ saved = first).
  { destruct (BucketState_Set_cases diags first)
      as [[_ Hsave]|(errors & _ & Hrefuse)].
    - split; [exact Hsave|]. rewrite Hsave in Hfirst.
      unfold respond_state in Hfirst. by injection Hfirst as <-.
    - rewrite Hrefuse in Hfirst. unfold respond in Hfirst.
      by injection Hfirst. }
  destruct Hsave as [Hsave ->].
  assert (Hid : ValueString (BucketResourceModel.ID first)
           = ValueString (BucketResourceModel.ID state)).
  { unfold first. cbn. by rewrite readBucket_fields_ID. }
  rewrite <- Hid in Hfind'.
  rewrite (readBucket_found _ _ _ _ _ Hfind'). cbn [fst ret].
  assert (Hsecond : BucketResourceModel.set_RetentionRules
                      (mkSet (ObjectType retentionRuleType) ValueStateKnown
                         (map retentionRuleObject (Bucket.RetentionRules found)))
                      (readBucket_fields found first) = first).
  { unfold first, readBucket_fields.
    destruct found as [[?|] [?|] ? ? [?|] ? [?|] [?|] [?|]]; reflexivity. }
  rewrite Hsecond, Hsave. reflexivity.
Qed.

(** X8.  When the store gives back the bucket it was sent at creation
    (the same name, description, organization, retention policy and rules)
    and the rules sent are distinct, [Create] saves a state that holds the
    plan's values as known strings, the id the store assigned, and
    retention rules that decode to the rules that were sent; for a plan
    whose name, description, organization and retention policy are known,
    these four attributes are those of the plan.  When two of the rules
    sent are the same, [State.Set] refuses the set read back: the response
    carries an error and no state. *)
Theorem BucketResource_Create_preserves_plan client
    (req : Source BucketResourceModel.t) w (retentionRules : list RetentionRule.t)
    (result found : Bucket.t) (id : string) (s s' : Remote) :
  HasError (Get_Diagnostics req) = false ->
  convertRetentionRulesToDomain (BucketResourceModel.RetentionRules (Get_Model req))
    = GoOk retentionRules ->
  let plan := Get_Model req in
  let newBucket := Create_newBucket plan retentionRules in
  CreateBucket client newBucket (remote w) = (GoOk result, s) ->
  Bucket.Id result = Some id ->
  FindBucketByID client id s = (GoOk found, s') ->
  Bucket.Name found = Bucket.Name newBucket ->
  Bucket.Description found = Bucket.Description newBucket ->
  Bucket.OrgID found = Bucket.OrgID newBucket ->
  Bucket.Rp found = Bucket.Rp newBucket ->
  Bucket.RetentionRules found = Bucket.RetentionRules newBucket ->
  (~ NoDup retentionRules ->
   exists resp,
     fst (BucketResource_Create client req w) = Done resp
     /\ State_Set resp = None
     /\ HasError (Resp_Diagnostics resp) = true)
  /\ (NoDup retentionRules ->
  exists saved,
    fst (BucketResource_Create client req w)
      = Done {| Resp_Diagnostics := Get_Diagnostics req; State_Set := Some saved |}
    /\ BucketResourceModel.ID saved = StringValue id
    /\ BucketResourceModel.Name saved
       = StringValue (ValueString (BucketResourceModel.Name plan))
    /\ BucketResourceModel.Description saved
       = StringValue (ValueString (BucketResourceModel.Description plan))
    /\ BucketResourceModel.OrgID saved
       = StringValue (ValueString (BucketResourceModel.OrgID plan))
    /\ BucketResourceModel.RP saved
       = StringValue (ValueString (BucketResourceModel.RP plan))
    /\ convertRetentionRulesToDomain (BucketResourceModel.RetentionRules saved)
       = GoOk retentionRules
    /\ (forall name description orgID rp,
          BucketResourceModel.Name plan = StringValue name ->
          BucketResourceModel.Description plan = StringValue description ->
          BucketResourceModel.OrgID plan = StringValue orgID ->
          BucketResourceModel.RP plan = StringValue rp ->
          BucketResourceModel.Name saved = BucketResourceModel.Name plan
          /\ BucketResourceModel.Description saved
             = BucketResourceModel.Description plan
          /\ BucketResourceModel.OrgID saved = BucketResourceModel.OrgID plan
          /\ BucketResourceModel.RP saved = BucketResourceModel.RP plan)).
Proof.
  intros Hdiags Hconv plan newBucket Hcreate Hid Hfind Hname Hdesc Horg Hrp Hrules.
  rewrite (BucketResource_Create_created _ _ _ _ _ _ _ Hdiags Hconv Hcreate Hid).
  fold plan newBucket.
  assert (Hfind' :
    FindBucketByID client
      (ValueString (BucketResourceModel.ID
                      (BucketResourceModel.set_ID (StringValue id) plan)))
      (remote {| remote := s;
                 calls := calls w ++ [call_CreateBucket newBucket] |})
    = (GoOk found, s')) by exact Hfind.
  rewrite (readBucket_found _ _ _ _ _ Hfind'). cbn [fst].
  assert (Hdefaulted : map retentionRuleDefaulted (Bucket.RetentionRules found)
                       = retentionRules).
  { rewrite Hrules. cbn [Bucket.RetentionRules newBucket Create_newBucket].
    pose proof Hconv as Hsent. rewrite convertRetentionRulesToDomain_eq in Hsent.
    destruct (ElementsAs _ _) as [rules|]; [|done].
    injection Hsent as <-. rewrite map_map. apply map_ext. by intros [every ty]. }
  destruct (BucketState_Set_read (Get_Diagnostics req)
              (readBucket_fields found
                 (BucketResourceModel.set_ID (StringValue id) plan))
              (Bucket.RetentionRules found)) as [Hok Hdup].
  rewrite Hdefaulted in Hok, Hdup.
  split.
  { intros Hnot. destruct (Hdup Hnot) as (errors & Herrors & ->).
    eexists. split; [reflexivity|]. split; [reflexivity|].
    unfold respond; cbn [Resp_Diagnostics]. unfold HasError in Herrors |- *.
    rewrite existsb_app, Herrors. apply orb_true_r. }
  intros Hnodup. rewrite (Hok Hnodup).
  eexists. split; [reflexivity|].
  assert (Hsent : convertRetentionRulesToDomain
            (mkSet (ObjectType retentionRuleType) ValueStateKnown
               (map retentionRuleObject (Bucket.RetentionRules found)))
          = GoOk retentionRules).
  { rewrite Hrules. cbn [Bucket.RetentionRules newBucket Create_newBucket].
    rewrite convertRetentionRulesToDomain_eq in Hconv |- *.
    unfold ElementsAs at 1. cbn [Set_state Set_Elements].
    rewrite decode_retentionRuleObjects.
    destruct (ElementsAs _ _) as [rules|]; [|done].
    injection Hconv as <-. f_equal. rewrite !map_map.
    apply map_ext. by intros [every ty]. }
  assert (Hfields :
    let saved := readBucket_fields found
                   (BucketResourceModel.set_ID (StringValue id) plan) in
    BucketResourceModel.ID saved = StringValue id
    /\ BucketResourceModel.Name saved
       = StringValue (ValueString (BucketResourceModel.Name plan))
    /\ BucketResourceModel.Description saved
       = StringValue (ValueString (BucketResourceModel.Description plan))
    /\ BucketResourceModel.OrgID saved
       = StringValue (ValueString (BucketResourceModel.OrgID plan))
    /\ BucketResourceModel.RP saved
       = StringValue (ValueString (BucketResourceModel.RP plan))).
  { unfold readBucket_fields.
    destruct found as [fc fd fi fn fo frr frp ft fu].
    cbn in Hname, Hdesc, Horg, Hrp. subst fn fd fo frp.
    destruct fc, ft, fu; cbn; done. }
  destruct Hfields as (Hfid & Hfname & Hfdesc & Hforg & Hfrp).
  cbn [BucketResourceModel.set_RetentionRules BucketResourceModel.ID
       BucketResourceModel.Name BucketResourceModel.Description
       BucketResourceModel.OrgID BucketResourceModel.RP
       BucketResourceModel.RetentionRules].
  split; [exact Hfid|]. split; [exact Hfname|]. split; [exact Hfdesc|].
  split; [exact Hforg|]. split; [exact Hfrp|]. split; [exact Hsent|].
  intros name description orgID rp Hn Hd Ho Hr.
  rewrite Hfname, Hfdesc, Hforg, Hfrp, Hn, Hd, Ho, Hr. done.
Qed.

End BucketResource_composition.

(** A plan whose rules are not known yet: nothing is sent. *)
Lemma BucketResource_conversion_error_no_call_witness :
  let client := scripted_client no_error (GoOk temp_bucket) no_error no_error in
  snd (BucketResource_Create (VR := plain_rendering) client
         (decoded temp_plan_unknown_rules) start)
    = start
  /\ snd (BucketResource_Update (VR := plain_rendering) client
            (decoded temp_plan_unknown_rules) start)
     = start.
Proof.
  intros client.
  destruct (BucketResource_conversion_error_no_call (TI := rendered_time)
              (VR := plain_rendering) client (decoded temp_plan_unknown_rules) start
              "error converting retention rules set" eq_refl eq_refl)
    as (_ & Hcreate & Hupdate).
  by rewrite Hcreate, Hupdate.
Defined.

(** An update of the bucket "temp": the update, then the lookup. *)
Lemma BucketResource_Update_resends_witness :
  let client := scripted_client no_error (GoOk temp_bucket) no_error no_error in
  calls (snd (BucketResource_Update (VR := plain_rendering) client
                (decoded temp_state) start))
  = [call_UpdateBucket (Update_updateBucket temp_state temp_rules);
     call_FindBucketByID "b1"]
  /\ exists saved,
       fst (BucketResource_Update (VR := plain_rendering) client
              (decoded temp_state) start)
       = Done {| Resp_Diagnostics := []; State_Set := Some saved |}.
Proof.
  intros client.
  destruct (BucketResource_Update_resends (TI := rendered_time)
              (VR := plain_rendering)
              client (decoded temp_state) start temp_rules eq_refl eq_refl)
    as (_ & _ & _ & _ & Hok).
  destruct (Hok temp_bucket tt eq_refl) as (Hcalls & _ & _ & Hfound).
  split; [exact Hcalls|].
  destruct (Hfound temp_bucket tt eq_refl) as (hydrated & _ & Hsaved & _).
  exists hydrated. apply Hsaved.
  repeat constructor. by intros Hin%elem_of_nil.
Defined.

(** Two reads of the bucket "temp" in a row. *)
Lemma BucketResource_Read_idempotent_witness :
  let client := scripted_client no_error (GoOk temp_bucket) no_error no_error in
  exists saved,
    fst (BucketResource_Read (VR := plain_rendering) client
           (decoded temp_state) start)
      = Done {| Resp_Diagnostics := []; State_Set := Some saved |}
    /\ fst (BucketResource_Read (VR := plain_rendering) client
              (decoded saved) start)
       = Done {| Resp_Diagnostics := []; State_Set := Some saved |}.
Proof.
  intros client. eexists. split; [reflexivity|].
  apply (BucketResource_Read_idempotent (TI := rendered_time)
           (VR := plain_rendering) client temp_state [] start start temp_bucket tt tt);
    reflexivity.
Defined.

(** Scenario 6 against a store that keeps what it is sent. *)
Lemma BucketResource_Create_preserves_plan_witness :
  let client := scripted_client no_error (GoOk temp_bucket_kept)
                  no_error no_error in
  exists saved,
    fst (BucketResource_Create (VR := plain_rendering) client
           (decoded temp_plan) start)
      = Done {| Resp_Diagnostics := []; State_Set := Some saved |}
    /\ BucketResourceModel.Name saved = StringValue "temp"
    /\ BucketResourceModel.Description saved = StringValue "".
Proof.
  intros client.
  destruct (BucketResource_Create_preserves_plan (TI := rendered_time)
              (VR := plain_rendering)
              client (decoded temp_plan) start temp_rules
              temp_bucket_kept temp_bucket_kept "b1" tt tt
              eq_refl eq_refl eq_refl eq_refl eq_refl
              eq_refl eq_refl eq_refl eq_refl eq_refl)
    as [_ Hdistinct].
  destruct Hdistinct as (saved & Hrun & _ & Hname & Hdesc & _).
  { repeat constructor. by intros Hin%elem_of_nil. }
  exists saved. split; [exact Hrun|]. split; [exact Hname|exact Hdesc].
Defined.

(** ** Deletion, and what reading never does *)

Section Delete_and_Read.
Context {TI : TimeImpl} {VR : ValueRendering} {Remote : Type}.
Implicit Types (client : Client Remote) (w : World Remote).

(** X9.  [Delete] of a bucket whose state decodes makes one call,
    [DeleteBucketWithID] with the id of the state, and [Delete] of an
    authorization one call, [DeleteAuthorization] with a record that holds
    the id only.  Every error of the store is reported, a missing entity
    like any other: the diagnostics returned have an error exactly when the
    store returned one, and are those of the request otherwise. *)
Theorem Delete_reports_every_error client w :
  (forall req : Source BucketResourceModel.t,
     HasError (Get_Diagnostics req) = false ->
     let id := ValueString (BucketResourceModel.ID (Get_Model req)) in
     exists diags,
       fst (BucketResource_Delete client req w) = Done diags
       /\ calls (snd (BucketResource_Delete client req w))
          = calls w ++ [call_DeleteBucketWithID id]
       /\ (HasError diags = true <->
           is_Some (fst (DeleteBucketWithID client id (remote w))))
       /\ (HasError diags = false -> diags = Get_Diagnostics req))
  /\ (forall req : Source AuthorizationResourceModel.t,
        HasError (Get_Diagnostics req) = false ->
        let authorization :=
          {| Authorization.Description := None;
             Authorization.Status := None;
             Authorization.Id :=
               Some (ValueString (AuthorizationResourceModel.ID (Get_Model req)));
             Authorization.OrgID := None;
             Authorization.Permissions := None;
             Authorization.Token := None;
             Authorization.UserID := None |} in
        exists diags,
          fst (AuthorizationResource_Delete client req w) = Done diags
          /\ calls (snd (AuthorizationResource_Delete client req w))
             = calls w ++ [call_DeleteAuthorization authorization]
          /\ (HasError diags = true <->
              is_Some (fst (DeleteAuthorization client authorization (remote w))))
          /\ (HasError diags = false -> diags = Get_Diagnostics req)).
Proof.
  assert (Hadd : forall ds summary detail,
             HasError (AddError ds summary detail) = true).
  { intros. unfold HasError, AddError. rewrite existsb_app. cbn.
    apply orb_true_r. }
  split; intros req Hdiags; cbv zeta.
  - unfold BucketResource_Delete. rewrite Hdiags. unfold bind, call.
    destruct (DeleteBucketWithID _ _ _) as [[err|] s]; cbn [fst snd calls];
      eexists; (split; [reflexivity|]); (split; [reflexivity|]).
    + rewrite Hadd. split; [by split; [eexists|]|done].
    + rewrite Hdiags. split; [|done]. split; [done|]. by intros [? [=]].
  - unfold AuthorizationResource_Delete. rewrite Hdiags. unfold bind, call.
    destruct (DeleteAuthorization _ _ _) as [[err|] s]; cbn [fst snd calls];
      eexists; (split; [reflexivity|]); (split; [reflexivity|]).
    + rewrite Hadd. split; [by split; [eexists|]|done].
    + rewrite Hdiags. split; [|done]. split; [done|]. by intros [? [=]].
Qed.

(** X10.  Reading never changes the store: [Read] of a bucket, [Read] of
    an authorization and [Read] of the readiness data source add no
    mutating call to the log, whatever the store answers. *)
Theorem Read_never_mutates client w :
  (forall req : Source BucketResourceModel.t,
     List.filter is_mutation (calls (snd (BucketResource_Read client req w)))
     = List.filter is_mutation (calls w))
  /\ (forall req : Source AuthorizationResourceModel.t,
        List.filter is_mutation
          (calls (snd (AuthorizationResource_Read client req w)))
        = List.filter is_mutation (calls w))
  /\ List.filter is_mutation (calls (snd (ReadyDataSource_Read client w)))
     = List.filter is_mutation (calls w).
Proof.
  split; [|split].
  - intros req. unfold BucketResource_Read.
    destruct (HasError _); [done|]. unfold bind.
    destruct (readBucket_returns client (Get_Model req) w)
      as (m & e & w' & -> & Hcalls).
    destruct e; cbn [snd ret]; rewrite Hcalls, List.filter_app; cbn;
      by rewrite app_nil_r.
  - intros req. unfold AuthorizationResource_Read.
    destruct (HasError _); [done|]. unfold bind.
    pose proof (readAuthorization_calls client (Get_Model req) w) as Hcalls.
    destruct (readAuthorization client (Get_Model req) w) as [[[m [e|]]|] w'];
      cbn [snd ret] in *; rewrite Hcalls, List.filter_app; cbn;
      by rewrite app_nil_r.
  - unfold ReadyDataSource_Read, bind, call.
    destruct (Ready client (remote w)) as [[e|[ready|]] s]; cbn;
      rewrite List.filter_app; cbn; by rewrite app_nil_r.
Qed.

End Delete_and_Read.

(** The bucket "temp" is deleted by its id. *)
Lemma Delete_reports_every_error_witness :
  let client := scripted_client no_error no_error no_error no_error in
  calls (snd (BucketResource_Delete client (decoded temp_state) start))
  = [call_DeleteBucketWithID "b1"].
Proof.
  intros client.
  destruct (Delete_reports_every_error (TI := rendered_time) client start)
    as [Hbucket _].
  destruct (Hbucket (decoded temp_state) eq_refl) as (diags & _ & Hcalls & _).
  exact Hcalls.
Defined.

(** ** Further properties of the authorization resource *)

Section AuthorizationResource_conversions.

Lemma permissionElements_eq (domainPerms : list Permission.t) :
  forall elements,
    permissionElements domainPerms elements
    = GoOk (elements ++ map permissionObject domainPerms).
Proof.
  induction domainPerms as [|perm rest IH]; intros elements.
  - cbn. by rewrite app_nil_r.
  - cbn [permissionElements map].
    destruct perm as [action [[id|] name [org|] [orgID|] type]]; cbn;
      rewrite IH, <- app_assoc; reflexivity.
Qed.

Lemma permissionObjects_typed (domainPerms : list Permission.t) :
  forallb (fun v => Type_Equal (ObjectType permissionType) (Value_Type v))
          (map permissionObject domainPerms) = true.
Proof. induction domainPerms as [|perm rest IH]; [done|]. cbn. exact IH. Qed.

Lemma convertPermissionsToTerraform_eq (domainPerms : list Permission.t) :
  convertPermissionsToTerraform domainPerms
  = (permissions_value (map permissionObject domainPerms), None).
Proof.
  unfold convertPermissionsToTerraform, SetValue.
  rewrite permissionElements_eq. cbn [app].
  by rewrite permissionObjects_typed.
Qed.

Lemma convertPermissionsToDomain_objects (domainPerms : list Permission.t) :
  convertPermissionsToDomain (permissions_value (map permissionObject domainPerms))
  = GoOk (map permissionDefaulted domainPerms).
Proof.
  unfold convertPermissionsToDomain, ElementsAs, permissions_value.
  cbn [Set_state Set_Elements].
  assert (Hloop : forall acc,
    match decode_all PermissionModel.decode (map permissionObject domainPerms) with
    | Some permissions => convertPermissions_loop permissions acc
    | None => GoErr "error converting permissions set"
    end = GoOk (acc ++ map permissionDefaulted domainPerms)).
  { induction domainPerms as [|perm rest IH]; intros acc.
    - cbn. by rewrite app_nil_r.
    - cbn [map decode_all]. cbn [permissionObject permission_value PermissionModel.decode
        attr_lookup String.eqb Ascii.eqb Bool.eqb length Nat.eqb].
      specialize (IH (acc ++ [permissionDefaulted perm])).
      destruct (decode_all PermissionModel.decode (map permissionObject rest))
        as [permissions|]; [|discriminate IH].
      cbn.
      change (domainPermission _ _) with (permissionDefaulted perm).
      rewrite IH, <- app_assoc. reflexivity. }
  apply (Hloop []).
Qed.

(** X11.  [convertPermissionsToTerraform] never fails.  It returns a known
    set with one permission per domain permission, in order, each with the
    permission's action and a set of exactly one resource, whose id,
    organization and organization id are the empty string where the domain
    resource has nil. *)
Theorem convertPermissionsToTerraform_one_per_permission
    (domainPerms : list Permission.t) :
  exists permsSet permissions,
    convertPermissionsToTerraform domainPerms = (permsSet, None)
    /\ Set_state permsSet = ValueStateKnown
    /\ ElementsAs PermissionModel.decode permsSet = Some permissions
    /\ length permissions = length domainPerms
    /\ (forall (i : nat) perm,
          domainPerms !! i = Some perm ->
          exists entry,
            permissions !! i = Some entry
            /\ PermissionModel.Action entry = StringValue (Permission.Action perm)
            /\ ElementsAs ResourceModel.decode (PermissionModel.Resource entry)
               = Some [{| ResourceModel.ID :=
                            StringValue (default "" (Resource.Id (Permission.Resource perm)));
                          ResourceModel.Org :=
                            StringValue (default "" (Resource.Org (Permission.Resource perm)));
                          ResourceModel.OrgID :=
                            StringValue (default "" (Resource.OrgID (Permission.Resource perm)));
                          ResourceModel.Type_ :=
                            StringValue (Resource.Type_ (Permission.Resource perm)) |}]).
Proof.
  pose (entry_of (perm : Permission.t) :=
    {| PermissionModel.Action := StringValue (Permission.Action perm);
       PermissionModel.Resource :=
         mkSet (ObjectType resourceAttrTypes) ValueStateKnown
           [resource_value
              (default "" (Resource.Id (Permission.Resource perm)))
              (default "" (Resource.Org (Permission.Resource perm)))
              (default "" (Resource.OrgID (Permission.Resource perm)))
              (Resource.Type_ (Permission.Resource perm))] |}).
  exists (permissions_value (map permissionObject domainPerms)),
         (map entry_of domainPerms).
  split; [apply convertPermissionsToTerraform_eq|]. split; [done|]. split.
  { unfold ElementsAs. cbn [Set_state Set_Elements permissions_value].
    induction domainPerms as [|perm rest IH]; [done|].
    cbn [map decode_all]. rewrite IH. reflexivity. }
  split; [apply length_map|].
  intros i perm Hi. exists (entry_of perm).
  split; [by rewrite list_lookup_fmap, Hi|]. split; reflexivity.
Qed.

(** What [convertPermissionsToDomain] produces has no nil field and an
    empty name. *)
Lemma convertPermissionsToDomain_defaulted (permsSet : types_Set)
    (domainPerms : list Permission.t) :
  convertPermissionsToDomain permsSet = GoOk domainPerms ->
  map permissionDefaulted domainPerms = domainPerms.
Proof.
  intros Hconv.
  assert (Hfixed : Forall (fun d => permissionDefaulted d = d) domainPerms).
  { unfold convertPermissionsToDomain in Hconv.
    destruct (ElementsAs PermissionModel.decode permsSet) as [permissions|];
      [|discriminate Hconv].
    assert (Hloop : forall permissions acc result,
              Forall (fun d => permissionDefaulted d = d) acc ->
              convertPermissions_loop permissions acc = GoOk result ->
              Forall (fun d => permissionDefaulted d = d) result).
    { clear. induction permissions as [|perm rest IH]; intros acc result Hacc.
      - cbn. by intros [= <-].
      - cbn [convertPermissions_loop].
        destruct (ElementsAs ResourceModel.decode _) as [resources|]; [|done].
        apply IH. rewrite fold_left_append.
        apply Forall_app. split; [exact Hacc|].
        apply Forall_forall. intros d [res [-> _]]%list_elem_of_fmap.
        reflexivity. }
    by apply (Hloop permissions [] domainPerms). }
  clear Hconv.
  induction Hfixed as [|d rest Hd _ IH]; [done|]. cbn [map]. by rewrite Hd, IH.
Qed.

(** X12.  Domain permissions converted to Terraform and back come back in
    the same number and order, with the same action and resource type, a
    nil id, organization or organization id replaced by the empty string
    and the name set to the empty string.  The permissions that
    [convertPermissionsToDomain] produces come back unchanged. *)
Theorem permissions_store_roundtrip (domainPerms : list Permission.t) :
  convertPermissionsToDomain (fst (convertPermissionsToTerraform domainPerms))
  = GoOk (map permissionDefaulted domainPerms)
  /\ (forall (permsSet : types_Set),
        convertPermissionsToDomain permsSet = GoOk domainPerms ->
        convertPermissionsToDomain
          (fst (convertPermissionsToTerraform domainPerms))
        = GoOk domainPerms).
Proof.
  assert (Hround : convertPermissionsToDomain
                     (fst (convertPermissionsToTerraform domainPerms))
                   = GoOk (map permissionDefaulted domainPerms)).
  { rewrite convertPermissionsToTerraform_eq. apply convertPermissionsToDomain_objects. }
  split; [exact Hround|].
  intros permsSet Hconv. rewrite Hround.
  by rewrite (convertPermissionsToDomain_defaulted _ _ Hconv).
Qed.

(** X13.  Permissions of a plan sent to the store and converted back to
    Terraform do not keep their grouping: the set has one entry per
    resource, as many as the entries of the plan have resources in total.
    An entry with several resources comes back as several entries and an
    entry with none does not come back. *)
Theorem permissions_plan_regrouped (permsSet : types_Set)
    (permissions : list PermissionModel.t)
    (resources : list (list ResourceModel.t)) :
  ElementsAs PermissionModel.decode permsSet = Some permissions ->
  Forall2 (fun perm rs =>
             ElementsAs ResourceModel.decode (PermissionModel.Resource perm)
             = Some rs) permissions resources ->
  exists sent,
    convertPermissionsToDomain permsSet = GoOk sent
    /\ snd (convertPermissionsToTerraform sent) = None
    /\ length (Set_Elements (fst (convertPermissionsToTerraform sent)))
       = sum_list (length <$> resources)
    /\ convertPermissionsToDomain (fst (convertPermissionsToTerraform sent))
       = GoOk sent.
Proof.
  intros Hperms Hres.
  pose proof (Forall2_length _ _ _ Hres) as Hlen.
  eexists. split.
  { unfold convertPermissionsToDomain. rewrite Hperms.
    rewrite (convertPermissions_loop_groups _ _ Hres). reflexivity. }
  cbn [app]. split; [by rewrite convertPermissionsToTerraform_eq|]. split.
  { rewrite convertPermissionsToTerraform_eq. cbn [fst Set_Elements permissions_value].
    rewrite length_map. by apply length_groups. }
  rewrite convertPermissionsToTerraform_eq. cbn [fst].
  rewrite convertPermissionsToDomain_objects. f_equal.
  apply (convertPermissionsToDomain_defaulted permsSet).
  unfold convertPermissionsToDomain. rewrite Hperms.
  rewrite (convertPermissions_loop_groups _ _ Hres). reflexivity.
Qed.

End AuthorizationResource_conversions.

(** A permission the store returns without organization name: one entry,
    one resource, the organization name empty. *)
Lemma convertPermissionsToTerraform_one_per_permission_witness :
  exists permsSet entry,
    convertPermissionsToTerraform [read_b1] = (permsSet, None)
    /\ ElementsAs PermissionModel.decode permsSet = Some [entry]
    /\ PermissionModel.Action entry = StringValue "read"
    /\ ElementsAs ResourceModel.decode (PermissionModel.Resource entry)
       = Some [{| ResourceModel.ID := StringValue "b1";
                  ResourceModel.Org := StringValue "";
                  ResourceModel.OrgID := StringValue "org1";
                  ResourceModel.Type_ := StringValue "buckets" |}].
Proof.
  destruct (convertPermissionsToTerraform_one_per_permission [read_b1])
    as (permsSet & permissions & Hconv & _ & Hdecode & Hlen & Hentries).
  destruct (Hentries 0 read_b1 eq_refl) as (entry & Hentry & Haction & Hres).
  destruct permissions as [|entry' [|? ?]]; try discriminate Hlen.
  injection Hentry as ->.
  exists permsSet, entry. done.
Defined.

(** The permissions of scenario 7, sent and read back. *)
Lemma permissions_store_roundtrip_witness :
  exists sent,
    convertPermissionsToDomain read_write_temp = GoOk sent
    /\ convertPermissionsToDomain (fst (convertPermissionsToTerraform sent))
       = GoOk sent.
Proof.
  eexists. split; [reflexivity|].
  apply (proj2 (permissions_store_roundtrip _) read_write_temp). reflexivity.
Defined.

(** An entry with two resources and an entry with none come back as two
    entries. *)
Lemma permissions_plan_regrouped_witness :
  exists sent,
    convertPermissionsToDomain read_two_write_none = GoOk sent
    /\ length (Set_Elements read_two_write_none) = 2
    /\ length (Set_Elements (fst (convertPermissionsToTerraform sent))) = 2
    /\ ElementsAs PermissionModel.decode (fst (convertPermissionsToTerraform sent))
       <> ElementsAs PermissionModel.decode read_two_write_none.
Proof.
  pose (b r := {| ResourceModel.ID := StringValue r;
                  ResourceModel.Org := StringValue "";
                  ResourceModel.OrgID := StringValue "org1";
                  ResourceModel.Type_ := StringValue "buckets" |}).
  destruct (permissions_plan_regrouped read_two_write_none
              [ {| PermissionModel.Action := StringValue "read";
                   PermissionModel.Resource :=
                     mkSet (ObjectType resourceAttrTypes) ValueStateKnown
                       [resource_value "b1" "" "org1" "buckets";
                        resource_value "b2" "" "org1" "buckets"] |};
                {| PermissionModel.Action := StringValue "write";
                   PermissionModel.Resource :=
                     mkSet (ObjectType resourceAttrTypes) ValueStateKnown [] |} ]
              [[b "b1"; b "b2"]; []] eq_refl)
    as (sent & Hsent & _ & Hlen & _).
  { repeat constructor. }
  exists sent. split; [exact Hsent|]. split; [reflexivity|].
  split; [exact Hlen|].
  assert (Hsent' : sent = [domainPermission
                             {| PermissionModel.Action := StringValue "read";
                                PermissionModel.Resource :=
                                  mkSet (ObjectType resourceAttrTypes) ValueStateKnown [] |}
                             (b "b1");
                           domainPermission
                             {| PermissionModel.Action := StringValue "read";
                                PermissionModel.Resource :=
                                  mkSet (ObjectType resourceAttrTypes) ValueStateKnown [] |}
                             (b "b2")]).
  { cut (GoOk sent = GoOk [domainPermission
                             {| PermissionModel.Action := StringValue "read";
                                PermissionModel.Resource :=
                                  mkSet (ObjectType resourceAttrTypes) ValueStateKnown [] |}
                             (b "b1");
                           domainPermission
                             {| PermissionModel.Action := StringValue "read";
                                PermissionModel.Resource :=
                                  mkSet (ObjectType resourceAttrTypes) ValueStateKnown [] |}
                             (b "b2")]); [by intros [=]|].
    rewrite <- Hsent. reflexivity. }
  rewrite Hsent'. discriminate.
Defined.

Section AuthorizationResource_operations.
Context {TI : TimeImpl} {Remote : Type}.
Implicit Types (client : Client Remote) (w : World Remote).
Implicit Types (model plan state : AuthorizationResourceModel.t).
Implicit Types (auth : Authorization.t) (authorizations : list Authorization.t).

(** X14.  [Create] sends one record, with the plan's description, status
    and org_id and the converted permissions, and nothing else is called:
    the authorization is not read back.  When the store returns a record
    with an id, the state saved has that id, the token, user id and
    organization the record carries (the plan's value where the record has
    nil), and org_id, description, status and permissions of the plan; when
    the store returns an error, "Error Creating Authorization" is reported
    and no state is saved. *)
Theorem AuthorizationResource_Create_saves client
    (req : Source AuthorizationResourceModel.t) w
    (permissions : list Permission.t) :
  HasError (Get_Diagnostics req) = false ->
  convertPermissionsToDomain
    (AuthorizationResourceModel.Permissions (Get_Model req)) = GoOk permissions ->
  let plan := Get_Model req in
  let authorization := Create_authorization plan permissions in
  let w_created s :=
    {| remote := s; calls := calls w ++ [call_CreateAuthorization authorization] |} in
  (forall (result : Authorization.t) (id : string) (s : Remote),
     CreateAuthorization client authorization (remote w) = (GoOk result, s) ->
     Authorization.Id result = Some id ->
     exists saved,
       AuthorizationResource_Create client req w
       = (Done {| Resp_Diagnostics := Get_Diagnostics req;
                  State_Set := Some saved |}, w_created s)
       /\ AuthorizationResourceModel.ID saved = StringValue id
       /\ AuthorizationResourceModel.Token saved
          = from_option StringValue (AuthorizationResourceModel.Token plan)
              (Authorization.Token result)
       /\ AuthorizationResourceModel.UserID saved
          = from_option StringValue (AuthorizationResourceModel.UserID plan)
              (Authorization.UserID result)
       /\ AuthorizationResourceModel.UserOrgID saved
          = from_option StringValue (AuthorizationResourceModel.UserOrgID plan)
              (Authorization.OrgID result)
       /\ AuthorizationResourceModel.OrgID saved
          = AuthorizationResourceModel.OrgID plan
       /\ AuthorizationResourceModel.Description saved
          = AuthorizationResourceModel.Description plan
       /\ AuthorizationResourceModel.Status saved
          = AuthorizationResourceModel.Status plan
       /\ AuthorizationResourceModel.Permissions saved
          = AuthorizationResourceModel.Permissions plan)
  /\ (forall (err : error) (s : Remote),
        CreateAuthorization client authorization (remote w) = (GoErr err, s) ->
        AuthorizationResource_Create client req w
        = (Done {| Resp_Diagnostics :=
                     Get_Diagnostics req ++
                     [{| Severity_ := SeverityError;
                         Summary := "Error Creating Authorization";
                         Detail := "Could not create authorization: " +:+ err |}];
                   State_Set := None |}, w_created s)).
Proof.
  intros Hdiags Hconv plan authorization w_created. split.
  - intros result id s Hcreate Hid.
    unfold AuthorizationResource_Create. rewrite Hdiags, Hconv.
    unfold bind, call.
    change (Authorization.Build_t _ _ _ _ _ _ _) with authorization.
    rewrite Hcreate. cbn [deref]. rewrite Hid. cbn [deref ret].
    eexists. split; [reflexivity|].
    destruct result as [? ? ? [?|] ? [?|] [?|]]; cbn; done.
  - intros err s Hcreate.
    unfold AuthorizationResource_Create. rewrite Hdiags, Hconv.
    unfold bind, call.
    change (Authorization.Build_t _ _ _ _ _ _ _) with authorization.
    by rewrite Hcreate.
Qed.

(** X15.  A response of [Create], [Read] or [Update] of the authorization
    resource saves a state exactly when it carries no error diagnostic, and
    then carries the diagnostics of the request and nothing more. *)
Theorem AuthorizationResource_state_iff_no_error client
    (req : Source AuthorizationResourceModel.t) w
    (resp : Response AuthorizationResourceModel.t) :
  fst (AuthorizationResource_Create client req w) = Done resp
  \/ fst (AuthorizationResource_Read client req w) = Done resp
  \/ fst (AuthorizationResource_Update client req w) = Done resp ->
  (State_Set resp = None <-> HasError (Resp_Diagnostics resp) = true)
  /\ (is_Some (State_Set resp) -> Resp_Diagnostics resp = Get_Diagnostics req).
Proof.
  assert (Hadd : forall ds summary detail,
             HasError (AddError ds summary detail) = true).
  { intros. unfold HasError, AddError. rewrite existsb_app. cbn.
    apply orb_true_r. }
  assert (Herr : forall ds summary detail,
            resp = respond (AddError ds summary detail) ->
            (State_Set resp = None <-> HasError (Resp_Diagnostics resp) = true)
            /\ (is_Some (State_Set resp) ->
                Resp_Diagnostics resp = Get_Diagnostics req)).
  { intros ds summary detail ->. unfold respond.
    cbn [State_Set Resp_Diagnostics]. rewrite Hadd.
    split; [done|]. by intros [? [=]]. }
  assert (Hdecode : HasError (Get_Diagnostics req) = true ->
            resp = respond (Get_Diagnostics req) ->
            (State_Set resp = None <-> HasError (Resp_Diagnostics resp) = true)
            /\ (is_Some (State_Set resp) ->
                Resp_Diagnostics resp = Get_Diagnostics req)).
  { intros Hd ->. unfold respond. cbn [State_Set Resp_Diagnostics].
    split; [done|]. by intros [? [=]]. }
  assert (Hsaved : forall m, HasError (Get_Diagnostics req) = false ->
            resp = respond_state (Get_Diagnostics req) m ->
            (State_Set resp = None <-> HasError (Resp_Diagnostics resp) = true)
            /\ (is_Some (State_Set resp) ->
                Resp_Diagnostics resp = Get_Diagnostics req)).
  { intros m Hd ->. unfold respond_state. cbn [State_Set Resp_Diagnostics].
    rewrite Hd. split; [|done]. split; discriminate. }
  unfold AuthorizationResource_Create, AuthorizationResource_Read,
    AuthorizationResource_Update.
  destruct (HasError (Get_Diagnostics req)) eqn:Hdiags.
  { cbn. intros [[= <-]|[[= <-]|[= <-]]]; by apply Hdecode. }
  intros [Hrun|[Hrun|Hrun]]; revert Hrun.
  - destruct (convertPermissionsToDomain _) as [e|permissions].
    { cbn. intros [= <-]. by eapply Herr. }
    unfold bind, call.
    destruct (CreateAuthorization _ _ _) as [[e|result] s]; cbn.
    { intros [= <-]. by eapply Herr. }
    destruct (Authorization.Id result) as [id|]; cbn; [|done].
    intros [= <-]. by eapply Hsaved.
  - unfold bind.
    destruct (readAuthorization client (Get_Model req) w) as [[[m [e|]]|] w'];
      cbn; [| |done]; intros [= <-]; [by eapply Herr|by eapply Hsaved].
  - unfold bind at 1. unfold call at 1.
    destruct (UpdateAuthorizationStatus _ _ _ _) as [[e|result] s]; cbn.
    { intros [= <-]. by eapply Herr. }
    unfold bind.
    match goal with |- context [readAuthorization client ?m ?v] =>
      destruct (readAuthorization client m v) as [[[m' [e|]]|] w'] end;
      cbn; [| |done]; intros [= <-]; [by eapply Herr|by eapply Hsaved].
Qed.

(** The record found does not depend on the world the search runs in. *)
Lemma findAuthorization_fst authorizations (id : string) w (v : World Remote) :
  fst (findAuthorization authorizations id w)
  = fst (findAuthorization authorizations id v).
Proof.
  induction authorizations as [|a rest IH]; [done|].
  cbn [findAuthorization]. unfold bind.
  destruct (Authorization.Id a) as [a_Id|]; cbn; [|done].
  destruct (String.eqb a_Id id); [done|]. apply IH.
Qed.

Lemma readAuthorization_fields_idempotent auth model :
  readAuthorization_fields auth (readAuthorization_fields auth model)
  = readAuthorization_fields auth model.
Proof.
  unfold readAuthorization_fields.
  destruct auth as [? [?|] ? [?|] ? [?|] [?|]]; reflexivity.
Qed.

(** X16.  A second [Read] of an authorization, against the same listing,
    saves the state the first [Read] saved. *)
Theorem AuthorizationResource_Read_idempotent client state
    (diags : Diagnostics) w (v : World Remote) authorizations (s s' : Remote)
    saved :
  FindAuthorizationsByOrgID client
    (ValueString (AuthorizationResourceModel.OrgID state)) (remote w)
    = (GoOk (Some authorizations), s) ->
  FindAuthorizationsByOrgID client
    (ValueString (AuthorizationResourceModel.OrgID state)) (remote v)
    = (GoOk (Some authorizations), s') ->
  fst (AuthorizationResource_Read client
         {| Get_Diagnostics := diags; Get_Model := state |} w)
    = Done {| Resp_Diagnostics := diags; State_Set := Some saved |} ->
  fst (AuthorizationResource_Read client
         {| Get_Diagnostics := diags; Get_Model := saved |} v)
    = Done {| Resp_Diagnostics := diags; State_Set := Some saved |}.
Proof.
  intros Hlist Hlist'. unfold AuthorizationResource_Read.
  cbn [Get_Diagnostics Get_Model].
  destruct (HasError diags); [done|]. unfold bind.
  unfold readAuthorization at 1. unfold bind, call. rewrite Hlist.
  cbn [deref ret].
  match goal with |- context [findAuthorization ?l ?i ?u] =>
    pose proof (findAuthorization_fst l i u
                  {| remote := s';
                     calls := calls v ++
                       [call_FindAuthorizationsByOrgID
                          (ValueString (AuthorizationResourceModel.OrgID state))] |})
      as Hsame;
    destruct (findAuthorization l i u) as [[[auth|]|] w'] end;
    cbn; [|done..].
  intros [= <-].
  destruct (readAuthorization_fields_frame auth state) as (Hid & Horg & _).
  unfold readAuthorization. unfold bind, call.
  rewrite Horg, Hlist', Hid. cbn [deref ret].
  cbn [fst] in Hsame.
  destruct (findAuthorization _ _ _) as [[[auth'|]|] w''];
    cbn in Hsame; try discriminate Hsame.
  injection Hsame as <-. cbn.
  by rewrite readAuthorization_fields_idempotent.
Qed.

(** X17.  The state that [Read] or [Update] saves has the id, org_id,
    description and permissions of the model it was given: these are never
    taken from the store, whatever the listed record holds. *)
Theorem AuthorizationResource_never_refreshed client
    (req : Source AuthorizationResourceModel.t) w
    (resp : Response AuthorizationResourceModel.t) saved :
  fst (AuthorizationResource_Read client req w) = Done resp
  \/ fst (AuthorizationResource_Update client req w) = Done resp ->
  State_Set resp = Some saved ->
  AuthorizationResourceModel.ID saved
    = AuthorizationResourceModel.ID (Get_Model req)
  /\ AuthorizationResourceModel.OrgID saved
     = AuthorizationResourceModel.OrgID (Get_Model req)
  /\ AuthorizationResourceModel.Description saved
     = AuthorizationResourceModel.Description (Get_Model req)
  /\ AuthorizationResourceModel.Permissions saved
     = AuthorizationResourceModel.Permissions (Get_Model req).
Proof.
  unfold AuthorizationResource_Read, AuthorizationResource_Update.
  destruct (HasError (Get_Diagnostics req)).
  { cbn. by intros [[= <-]|[= <-]]. }
  intros [Hrun|Hrun]; revert Hrun.
  - unfold bind.
    destruct (readAuthorization client (Get_Model req) w)
      as [[[m [e|]]|] w'] eqn:Hread; cbn; [| |done]; intros [= <-]; [done|].
    cbn. intros [= <-].
    by apply (readAuthorization_never_assigns _ _ _ _ _ _ Hread).
  - unfold bind at 1. unfold call at 1.
    destruct (UpdateAuthorizationStatus _ _ _ _) as [[e|result] s]; cbn.
    { by intros [= <-]. }
    unfold bind.
    match goal with |- context [readAuthorization client ?m ?u] =>
      destruct (readAuthorization client m u) as [[[m' [e|]]|] w'] eqn:Hread end;
      cbn; [| |done]; intros [= <-]; [done|].
    cbn. intros [= <-].
    by apply (readAuthorization_never_assigns _ _ _ _ _ _ Hread).
Qed.

End AuthorizationResource_operations.

(** Scenario 7: the creation saves id, token and user id of the record
    the store returns, and the two permissions of the plan. *)
Lemma AuthorizationResource_Create_saves_witness :
  let client := scripted_client no_error no_error (GoOk created_a1) no_error in
  exists saved,
    fst (AuthorizationResource_Create client (decoded auth_plan) start)
      = Done {| Resp_Diagnostics := []; State_Set := Some saved |}
    /\ AuthorizationResourceModel.ID saved = StringValue "a1"
    /\ AuthorizationResourceModel.Token saved = StringValue "issued-token"
    /\ AuthorizationResourceModel.UserID saved = StringValue "u1"
    /\ AuthorizationResourceModel.Permissions saved = read_write_temp.
Proof.
  intros client.
  destruct (convertPermissionsToDomain read_write_temp) as [e|permissions] eqn:Hconv;
    [discriminate Hconv|].
  destruct (AuthorizationResource_Create_saves (TI := rendered_time)
              client (decoded auth_plan) start permissions eq_refl Hconv)
    as [Hok _].
  destruct (Hok created_a1 "a1" tt eq_refl eq_refl)
    as (saved & Hrun & Hid & Htoken & Huser & _ & _ & _ & _ & Hperms).
  exists saved. rewrite Hrun. done.
Defined.

(** A read of "a1" that does not find it saves nothing and reports an
    error. *)
Lemma AuthorizationResource_state_iff_no_error_witness :
  let client := scripted_client no_error no_error no_error (GoOk [listed_a2]) in
  exists resp,
    fst (AuthorizationResource_Read client (decoded auth_model) start) = Done resp
    /\ State_Set resp = None /\ HasError (Resp_Diagnostics resp) = true.
Proof.
  intros client. eexists. split; [reflexivity|]. split; [reflexivity|].
  eapply (AuthorizationResource_state_iff_no_error (TI := rendered_time)
            client (decoded auth_model) start).
  - right. left. reflexivity.
  - reflexivity.
Defined.

(** Two reads of "a1" in a row. *)
Lemma AuthorizationResource_Read_idempotent_witness :
  let client := scripted_client no_error no_error no_error
                  (GoOk [listed_a2; listed_a1]) in
  exists saved,
    fst (AuthorizationResource_Read client (decoded auth_model) start)
      = Done {| Resp_Diagnostics := []; State_Set := Some saved |}
    /\ fst (AuthorizationResource_Read client (decoded saved) start)
       = Done {| Resp_Diagnostics := []; State_Set := Some saved |}.
Proof.
  intros client. eexists. split; [reflexivity|].
  apply (AuthorizationResource_Read_idempotent (TI := rendered_time)
           client auth_model [] start start [listed_a2; listed_a1] tt tt);
    reflexivity.
Defined.

(** An update whose plan changes the description: the state saved has the
    description of the plan, not that of the store. *)
Lemma AuthorizationResource_never_refreshed_witness :
  let client := scripted_client no_error no_error (GoOk listed_a1)
                  (GoOk [listed_a1]) in
  exists resp saved,
    fst (AuthorizationResource_Update client
           (decoded auth_plan_new_description) start) = Done resp
    /\ State_Set resp = Some saved
    /\ Authorization.Description listed_a1 = Some "Test authorization"
    /\ AuthorizationResourceModel.Description saved
       = StringValue "Updated description".
Proof.
  intros client. eexists _, _. split; [reflexivity|]. split; [reflexivity|].
  split; [reflexivity|].
  eapply (AuthorizationResource_never_refreshed (TI := rendered_time)
            client (decoded auth_plan_new_description) start).
  - right. reflexivity.
  - reflexivity.
Defined.

(** ** Further properties of the provider *)

Section influxdbProvider_operations.
Context {TI : TimeImpl} {Remote : Type}.
Implicit Types (env : gmap string string) (config : influxdbProviderModel.t).
Implicit Types (w : World Remote) (diags : Diagnostics).
Implicit Types (NewClientWithOptions : string -> string -> Client Remote).

Lemma prefix_refl (s : string) : String.prefix s s = true.
Proof.
  induction s as [|c s IH]; [done|].
  cbn [String.prefix]. destruct (Ascii.ascii_dec c c); [exact IH|done].
Qed.

Lemma prefix_append (s post : string) : String.prefix s (s +:+ post) = true.
Proof.
  induction s as [|c s IH]; [by destruct post|].
  change (String c s +:+ post) with (String c (s +:+ post)).
  cbn [String.prefix]. destruct (Ascii.ascii_dec c c); [exact IH|done].
Qed.

(** A text mentions what it was built around. *)
Lemma mentions_infix (pattern pre post : string) :
  mentions pattern (pre +:+ pattern +:+ post) = true.
Proof.
  unfold mentions.
  cut (String.index 0 pattern (pre +:+ pattern +:+ post) <> None);
    [by destruct (String.index _ _ _)|].
  induction pre as [|c pre IH].
  - change ("" +:+ pattern +:+ post) with (pattern +:+ post).
    pose proof (prefix_append pattern post) as Hprefix.
    destruct pattern as [|c p]; [by destruct post|].
    change (String c p +:+ post) with (String c (p +:+ post)) in *.
    cbn [String.index]. by rewrite Hprefix.
  - change (String c pre +:+ pattern +:+ post)
      with (String c (pre +:+ pattern +:+ post)).
    cbn [String.index].
    destruct (String.prefix pattern _); [done|].
    by destruct (String.index 0 pattern (pre +:+ pattern +:+ post)).
Qed.

(** A text mentions what it ends with. *)
Lemma mentions_append (pattern pre : string) :
  mentions pattern (pre +:+ pattern) = true.
Proof.
  unfold mentions.
  cut (String.index 0 pattern (pre +:+ pattern) <> None);
    [by destruct (String.index _ _ _)|].
  induction pre as [|c pre IH].
  - change ("" +:+ pattern) with pattern.
    destruct pattern as [|c p]; [done|].
    cbn [String.index]. by rewrite prefix_refl.
  - change (String c pre +:+ pattern) with (String c (pre +:+ pattern)).
    cbn [String.index].
    destruct (String.prefix pattern (String c (pre +:+ pattern))); [done|].
    by destruct (String.index 0 pattern (pre +:+ pattern)).
Qed.

(** X18.  The url [Configure] connects to: a non-empty url of the provider
    block wins over the environment; a null url gives the variable
    INFLUXDB_V2_URL when it is set and not empty, and the default
    otherwise; a url that is not known yet gives the default, whatever the
    environment. *)
Theorem Configure_url_precedence env config :
  (forall url, influxdbProviderModel.URL config = StringValue url -> url <> "" ->
     Configure_url env config = url)
  /\ (forall url, influxdbProviderModel.URL config = StringNull ->
        env !! "INFLUXDB_V2_URL" = Some url -> url <> "" ->
        Configure_url env config = url)
  /\ (influxdbProviderModel.URL config = StringNull ->
      env !! "INFLUXDB_V2_URL" = None \/ env !! "INFLUXDB_V2_URL" = Some "" ->
      Configure_url env config = "http://localhost:8086")
  /\ (influxdbProviderModel.URL config = StringUnknown ->
      Configure_url env config = "http://localhost:8086").
Proof.
  unfold Configure_url, Getenv. repeat split.
  - intros url -> Hne. cbn. apply String.eqb_neq in Hne. by rewrite Hne.
  - intros url -> -> Hne. cbn. apply String.eqb_neq in Hne. by rewrite Hne.
  - by intros -> [-> | ->].
  - by intros ->.
Qed.

(** The ways [Configure] ends once the configuration decoded and a token
    was found. *)
Lemma Configure_with_token NewClientWithOptions env
    (req : Source influxdbProviderModel.t) w :
  HasError (Get_Diagnostics req) = false ->
  Configure_token env (Get_Model req) <> "" ->
  let url := Configure_url env (Get_Model req) in
  let token := Configure_token env (Get_Model req) in
  let client := NewClientWithOptions url token in
  let diags := Get_Diagnostics req in
  influxdbProvider_Configure NewClientWithOptions env req w
  = (Done match fst (Ready client (remote w)) with
          | GoErr err =>
              configure_failed
                (AddError diags "Unable to Connect to InfluxDB Server"
                   ("An unexpected error occurred when connecting to the InfluxDB server. "
                    +:+ "If the error is not clear, please contact the provider developers."
                    +:+ newline +:+ newline
                    +:+ "InfluxDB Client Error: " +:+ err))
          | GoOk ready =>
              match ready ≫= Ready.Status with
              | None =>
                  configure_failed
                    (AddError diags "InfluxDB Server Not Ready"
                       "The InfluxDB server is not ready to accept connections.")
              | Some _ =>
                  {| Configure_Diagnostics := diags;
                     DataSourceData := Some client;
                     ResourceData := Some client |}
              end
          end,
     {| remote := snd (Ready client (remote w));
        calls := calls w ++ [call_NewClientWithOptions url token; call_Ready] |}).
Proof.
  intros Hdiags Htoken url token client diags.
  unfold influxdbProvider_Configure. rewrite Hdiags.
  rewrite Configure_missing_url_present.
  apply String.eqb_neq in Htoken. rewrite Htoken, Hdiags.
  fold url token. unfold bind, call. cbn [remote calls]. fold client.
  rewrite <- app_assoc. cbn [app].
  destruct (Ready client (remote w)) as [[err|[ready|]] s]; cbn; [done| |done].
  by destruct (Ready.Status ready).
Qed.

(** X19.  With a configuration that decodes and a token, [Configure]
    builds one client, for the url and the token it resolved, and probes it
    once.  If the probe returns a status, that client is handed to resources
    and to data sources and no diagnostic is added.  If the probe fails, or
    returns nil or no status, an error is reported and no client is handed
    over. *)
Theorem Configure_hands_the_client_over NewClientWithOptions env
    (req : Source influxdbProviderModel.t) w :
  HasError (Get_Diagnostics req) = false ->
  Configure_token env (Get_Model req) <> "" ->
  let url := Configure_url env (Get_Model req) in
  let token := Configure_token env (Get_Model req) in
  let client := NewClientWithOptions url token in
  let run := influxdbProvider_Configure NewClientWithOptions env req w in
  calls (snd run)
    = calls w ++ [call_NewClientWithOptions url token; call_Ready]
  /\ (forall (ready : Ready.t) (status : string) (s : Remote),
        Ready client (remote w) = (GoOk (Some ready), s) ->
        Ready.Status ready = Some status ->
        fst run = Done {| Configure_Diagnostics := Get_Diagnostics req;
                          DataSourceData := Some client;
                          ResourceData := Some client |})
  /\ (forall (err : error) (s : Remote),
        Ready client (remote w) = (GoErr err, s) ->
        exists d,
          fst run = Done {| Configure_Diagnostics := Get_Diagnostics req ++ [d];
                            DataSourceData := None;
                            ResourceData := None |}
          /\ Severity_ d = SeverityError
          /\ Summary d = "Unable to Connect to InfluxDB Server"
          /\ mentions err (Detail d) = true)
  /\ (forall (ready : option Ready.t) (s : Remote),
        Ready client (remote w) = (GoOk ready, s) ->
        ready ≫= Ready.Status = None ->
        fst run
        = Done {| Configure_Diagnostics :=
                    Get_Diagnostics req ++
                    [{| Severity_ := SeverityError;
                        Summary := "InfluxDB Server Not Ready";
                        Detail := "The InfluxDB server is not ready to accept connections." |}];
                  DataSourceData := None;
                  ResourceData := None |}).
Proof.
  intros Hdiags Htoken url token client run. unfold run.
  rewrite (Configure_with_token _ _ _ _ Hdiags Htoken).
  fold url token client. cbn [fst snd calls].
  split; [done|]. split; [|split].
  - intros ready status s -> Hstatus. cbn. by rewrite Hstatus.
  - intros err s ->. cbn. eexists. split; [reflexivity|].
    split; [done|]. split; [done|]. cbn [Detail].
    match goal with |- mentions err ?t = true =>
      change t with
        (("An unexpected error occurred when connecting to the InfluxDB server. "
          +:+ "If the error is not clear, please contact the provider developers."
          +:+ newline +:+ newline +:+ "InfluxDB Client Error: ") +:+ err)
    end.
    apply mentions_append.
  - intros ready s -> Hnone. cbn. by rewrite Hnone.
Qed.

(** The response of [Configure], on every path. *)
Lemma Configure_returns NewClientWithOptions env
    (req : Source influxdbProviderModel.t) w :
  exists resp (w' : World Remote),
    influxdbProvider_Configure NewClientWithOptions env req w = (Done resp, w')
    /\ DataSourceData resp = ResourceData resp
    /\ (is_Some (ResourceData resp) <->
        HasError (Configure_Diagnostics resp) = false)
    /\ (forall client, ResourceData resp = Some client ->
          client = NewClientWithOptions (Configure_url env (Get_Model req))
                     (Configure_token env (Get_Model req))
          /\ Configure_token env (Get_Model req) <> ""
          /\ Configure_Diagnostics resp = Get_Diagnostics req).
Proof.
  assert (Hadd : forall ds summary detail,
             HasError (AddError ds summary detail) = true).
  { intros. unfold HasError, AddError. rewrite existsb_app. cbn.
    apply orb_true_r. }
  assert (Hfailed : forall ds (v : World Remote),
            HasError ds = true ->
            exists resp (w' : World Remote),
              (Done (configure_failed ds), v) = (Done resp, w')
              /\ DataSourceData resp = ResourceData resp
              /\ (is_Some (ResourceData resp) <->
                  HasError (Configure_Diagnostics resp) = false)
              /\ (forall client, ResourceData resp = Some client ->
                    client = NewClientWithOptions (Configure_url env (Get_Model req))
                               (Configure_token env (Get_Model req))
                    /\ Configure_token env (Get_Model req) <> ""
                    /\ Configure_Diagnostics resp = Get_Diagnostics req)).
  { intros ds v Hds. eexists _, _. split; [reflexivity|].
    cbn [configure_failed DataSourceData ResourceData Configure_Diagnostics].
    rewrite Hds. split; [done|]. split; [|done].
    split; [by intros [? [=]]|done]. }
  destruct (HasError (Get_Diagnostics req)) eqn:Hdiags.
  { unfold influxdbProvider_Configure. rewrite Hdiags. by apply Hfailed. }
  destruct (String.eqb (Configure_token env (Get_Model req)) "") eqn:Htoken.
  { unfold influxdbProvider_Configure. rewrite Hdiags.
    rewrite Configure_missing_url_present, Htoken.
    match goal with |- context [HasError (?ds ++ [?d])] =>
      assert (Hd : HasError (ds ++ [d]) = true)
        by (unfold HasError; rewrite existsb_app; cbn; apply orb_true_r)
    end.
    rewrite Hd. by apply Hfailed. }
  apply String.eqb_neq in Htoken.
  rewrite (Configure_with_token _ _ _ _ Hdiags Htoken).
  destruct (Ready _ _) as [[err|ready] s]; cbn [fst snd].
  { by apply Hfailed. }
  destruct (ready ≫= Ready.Status); [|by apply Hfailed].
  eexists _, _. split; [reflexivity|].
  cbn [DataSourceData ResourceData Configure_Diagnostics].
  rewrite Hdiags. split; [done|]. split; [by split; [|eexists]|].
  by intros client [= <-].
Qed.

(** X20.  Whatever the configuration, the environment and the server,
    [Configure] returns; it hands the same client to resources and to data
    sources or none to either; and it hands a client over exactly when the
    response has no error diagnostic.  The client handed over is the one
    built for the url and the token resolved, and the token is not empty. *)
Theorem Configure_outcome NewClientWithOptions env
    (req : Source influxdbProviderModel.t) w :
  exists resp (w' : World Remote),
    influxdbProvider_Configure NewClientWithOptions env req w = (Done resp, w')
    /\ DataSourceData resp = ResourceData resp
    /\ (is_Some (ResourceData resp) <->
        HasError (Configure_Diagnostics resp) = false)
    /\ (forall client, ResourceData resp = Some client ->
          client = NewClientWithOptions (Configure_url env (Get_Model req))
                     (Configure_token env (Get_Model req))
          /\ Configure_token env (Get_Model req) <> ""
          /\ Configure_Diagnostics resp = Get_Diagnostics req).
Proof. apply Configure_returns. Qed.

End influxdbProvider_operations.

(** The url of the provider block wins over INFLUXDB_V2_URL. *)
Lemma Configure_url_precedence_witness :
  Getenv env_set "INFLUXDB_V2_URL" = "http://influx.example:8086"
  /\ Configure_url env_set config_set = "http://configured:8086"
  /\ Configure_url env_set config_unset = "http://influx.example:8086".
Proof.
  destruct (Configure_url_precedence env_set config_set) as (Hconfig & _).
  destruct (Configure_url_precedence env_set config_unset) as (_ & Henv & _).
  split; [reflexivity|]. split.
  - by apply Hconfig.
  - by apply Henv.
Defined.

(** Nothing in the provider block, both variables set: the client is built
    for the url and the token of the environment and handed over. *)
Lemma Configure_hands_the_client_over_witness :
  fst (influxdbProvider_Configure scripted_NewClientWithOptions env_set
         (decoded config_unset) start)
  = Done {| Configure_Diagnostics := [];
            DataSourceData :=
              Some (scripted_NewClientWithOptions
                      "http://influx.example:8086" "env-secret");
            ResourceData :=
              Some (scripted_NewClientWithOptions
                      "http://influx.example:8086" "env-secret") |}.
Proof.
  assert (Htoken : Configure_token env_set config_unset <> "") by done.
  destruct (Configure_hands_the_client_over (TI := rendered_time)
              scripted_NewClientWithOptions env_set (decoded config_unset)
              start eq_refl Htoken) as (_ & Hready & _).
  exact (Hready ready_server "ready" tt eq_refl eq_refl).
Defined.

(** ** [Configure] of the resources, after the provider's *)

Section Configure_composition.
Context {TI : TimeImpl} {Remote : Type}.
Implicit Types (env : gmap string string) (w : World Remote).
Implicit Types (NewClientWithOptions : string -> string -> Client Remote).

(** X21.  What the provider's [Configure] hands over is what the
    resources and the data source receive.  After a configuration that
    succeeded, [Configure] of the bucket resource, of the authorization
    resource and of the data source each store the client built for the
    resolved url and token and report nothing; after one that failed they
    receive nil, leave the receiver without client and report nothing.  A
    value of another type is refused by all three with an error that prints
    its type, "Unexpected Resource Configure Type" from the two resources
    and "Unexpected Data Source Configure Type", with the same detail, from
    the data source, and leaves the receiver as it was. *)
Theorem resource_Configure_after_provider NewClientWithOptions env
    (req : Source influxdbProviderModel.t) w (resp : ConfigureResponse) :
  fst (influxdbProvider_Configure NewClientWithOptions env req w) = Done resp ->
  let client := NewClientWithOptions (Configure_url env (Get_Model req))
                  (Configure_token env (Get_Model req)) in
  let received :=
    if HasError (Configure_Diagnostics resp) then None else Some client in
  BucketResource_Configure None (any_Client <$> ResourceData resp)
    = (received, [])
  /\ AuthorizationResource_Configure None (any_Client <$> ResourceData resp)
     = (received, [])
  /\ ReadyDataSource_Configure None (any_Client <$> DataSourceData resp)
     = (received, [])
  /\ (forall (r_client : option (Client Remote)) (typeName : string),
        exists d d',
          BucketResource_Configure r_client (Some (any_other typeName))
            = (r_client, [d])
          /\ AuthorizationResource_Configure r_client
               (Some (any_other typeName))
             = (r_client, [d])
          /\ ReadyDataSource_Configure r_client (Some (any_other typeName))
             = (r_client, [d'])
          /\ Severity_ d = SeverityError
          /\ Summary d = "Unexpected Resource Configure Type"
          /\ mentions typeName (Detail d) = true
          /\ Severity_ d' = SeverityError
          /\ Summary d' = "Unexpected Data Source Configure Type"
          /\ Detail d' = Detail d).
Proof.
  intros Hrun client received.
  destruct (Configure_returns NewClientWithOptions env req w)
    as (resp' & w' & Hrun' & Hsame & Hiff & Hclient).
  rewrite Hrun' in Hrun. injection Hrun as ->.
  assert (Hreceived : ResourceData resp = received).
  { unfold received.
    destruct (ResourceData resp) as [c|] eqn:Hdata.
    - destruct (Hclient c eq_refl) as (-> & _ & _).
      destruct Hiff as [-> _]; [by eexists|done].
    - destruct (HasError (Configure_Diagnostics resp)); [done|].
      destruct Hiff as [_ [c [=]]]. done. }
  rewrite Hsame, Hreceived.
  unfold BucketResource_Configure, AuthorizationResource_Configure,
    ReadyDataSource_Configure, resource_Configure.
  split; [by destruct received|]. split; [by destruct received|].
  split; [by destruct received|].
  intros r_client typeName. eexists _, _. split; [reflexivity|].
  split; [reflexivity|]. split; [reflexivity|].
  split; [done|]. split; [done|]. cbn [Detail].
  split; [apply mentions_infix|done].
Qed.

End Configure_composition.

(** The client of the environment reaches the bucket resource. *)
Lemma resource_Configure_after_provider_witness :
  exists resp,
    fst (influxdbProvider_Configure scripted_NewClientWithOptions env_set
           (decoded config_unset) start) = Done resp
    /\ BucketResource_Configure None (any_Client <$> ResourceData resp)
       = (Some (scripted_NewClientWithOptions
                  "http://influx.example:8086" "env-secret"), [])
    /\ ReadyDataSource_Configure None (any_Client <$> DataSourceData resp)
       = (Some (scripted_NewClientWithOptions
                  "http://influx.example:8086" "env-secret"), [])
    /\ exists d',
         ReadyDataSource_Configure (TI := rendered_time) (Remote := unit) None
           (Some (any_other "string")) = (None, [d'])
         /\ Summary d' = "Unexpected Data Source Configure Type".
Proof.
  eexists. split; [reflexivity|].
  destruct (resource_Configure_after_provider (TI := rendered_time)
              scripted_NewClientWithOptions env_set (decoded config_unset) start
              _ eq_refl)
    as (Hbucket & _ & Hready & Hother).
  split; [exact Hbucket|]. split; [exact Hready|].
  destruct (Hother None "string") as (d & d' & _ & _ & Hrefused & _ & _ & _ & _ & Hsummary & _).
  exists d'. split; [exact Hrefused|exact Hsummary].
Defined.

(** ** Further properties of the readiness data source, and the provider
       of the plugin SDK *)

Section Ready_operations.
Context {TI : TimeImpl} {Remote : Type}.
Implicit Types (client : Client Remote) (w : World Remote).
Implicit Types (NewClientWithOptions : string -> string -> Client Remote).

(** [Read] of the data source on a readiness record. *)
Lemma ReadyDataSource_Read_found client w (ready : Ready.t) (s : Remote) :
  Ready client (remote w) = (GoOk (Some ready), s) ->
  ReadyDataSource_Read client w
  = (Done {| Resp_Diagnostics := [];
             State_Set :=
               Some {| ReadyDataSourceModel.ID := StringValue (ServerURL client);
                       ReadyDataSourceModel.URL := StringValue (ServerURL client);
                       ReadyDataSourceModel.Ready := BoolValue true;
                       ReadyDataSourceModel.Status :=
                         StringValue (default "unknown" (Ready.Status ready));
                       ReadyDataSourceModel.Started :=
                         StringValue (from_option Time_String "" (Ready.Started ready)) |} |},
     {| remote := s; calls := calls w ++ [call_Ready] |}).
Proof.
  intros Hready. unfold ReadyDataSource_Read, bind, call. rewrite Hready. cbn.
  by destruct (Ready.Status ready), (Ready.Started ready).
Qed.

(** X22.  When the probe returns a record, [Read] of the data source makes
    that one call and saves a state in which every attribute is known: id
    and url are the url of the client, status is the status of the record
    or "unknown" when it has none, and started is the rendering of the start
    time or the empty string when it has none.  No diagnostic is raised. *)
Theorem ReadyDataSource_Read_state client w (ready : Ready.t) (s : Remote) :
  Ready client (remote w) = (GoOk (Some ready), s) ->
  ReadyDataSource_Read client w
  = (Done {| Resp_Diagnostics := [];
             State_Set :=
               Some {| ReadyDataSourceModel.ID := StringValue (ServerURL client);
                       ReadyDataSourceModel.URL := StringValue (ServerURL client);
                       ReadyDataSourceModel.Ready := BoolValue true;
                       ReadyDataSourceModel.Status :=
                         StringValue (default "unknown" (Ready.Status ready));
                       ReadyDataSourceModel.Started :=
                         StringValue (from_option Time_String "" (Ready.Started ready)) |} |},
     {| remote := s; calls := calls w ++ [call_Ready] |}).
Proof. apply ReadyDataSource_Read_found. Qed.

(** X23.  The framework's [Configure] is stricter than [providerConfigure]
    of the plugin SDK.  Whenever [Configure] hands a client over,
    [providerConfigure] run with the url and the token resolved returns the
    same client after the same calls.  [providerConfigure] returns a client
    exactly when the probe returns no error: it accepts an empty token and a
    probe that returns nil or no status, which [Configure] refuses. *)
Theorem providerConfigure_accepts_more NewClientWithOptions
    (env : gmap string string) (req : Source influxdbProviderModel.t) w :
  (forall resp client,
     fst (influxdbProvider_Configure NewClientWithOptions env req w) = Done resp ->
     ResourceData resp = Some client ->
     providerConfigure NewClientWithOptions
       (Configure_url env (Get_Model req)) (Configure_token env (Get_Model req)) w
     = (Done (GoOk client),
        snd (influxdbProvider_Configure NewClientWithOptions env req w)))
  /\ (forall (url token : string),
        (exists ready,
           fst (Ready (NewClientWithOptions url token) (remote w)) = GoOk ready)
        <-> fst (providerConfigure NewClientWithOptions url token w)
            = Done (GoOk (NewClientWithOptions url token)))
  /\ (forall (url token : string),
        calls (snd (providerConfigure NewClientWithOptions url token w))
        = calls w ++ [call_NewClientWithOptions url token; call_Ready]).
Proof.
  split; [|split].
  - intros resp client Hrun Hclient.
    destruct (Configure_returns NewClientWithOptions env req w)
      as (resp' & w' & Hrun' & _ & Hiff & Hhanded).
    rewrite Hrun' in Hrun. injection Hrun as ->.
    destruct (Hhanded client Hclient) as (-> & Htoken & Hdiags).
    assert (Hdecoded : HasError (Get_Diagnostics req) = false).
    { rewrite <- Hdiags. apply Hiff. by eexists. }
    rewrite (Configure_with_token _ _ _ _ Hdecoded Htoken) in Hrun' |- *.
    unfold providerConfigure, bind, call. cbn [remote calls snd].
    rewrite <- app_assoc. cbn [app].
    destruct (Ready _ _) as [[err|ready] s]; cbn [fst snd] in *.
    + injection Hrun' as <- _. discriminate Hclient.
    + reflexivity.
  - intros url token. unfold providerConfigure, bind, call. cbn [remote calls].
    destruct (Ready _ _) as [[err|ready] s]; cbn; split.
    + by intros [? [=]].
    + discriminate.
    + done.
    + by eexists.
  - intros url token. unfold providerConfigure, bind, call. cbn [remote calls].
    destruct (Ready _ _) as [[err|ready] s]; cbn; by rewrite <- app_assoc.
Qed.

(** X24.  The framework's [Read] of the data source accepts every answer
    of the server that [DataGetReady] of the plugin SDK accepts, and
    identifies the data source the same way: when [DataGetReady] returns
    without error, [Read] makes the same call and saves a state whose id is
    the id [DataGetReady] set and whose url is the "url" of its output map.
    [DataGetReady] panics on a record without start time, which [Read]
    accepts. *)
Theorem DataGetReady_refined client w (d d' : schema_ResourceData)
    (w' : World Remote) :
  (DataGetReady d (any_Client client) w = (Done (d', None), w') ->
   exists state output,
     ReadyDataSource_Read client w
       = (Done {| Resp_Diagnostics := []; State_Set := Some state |}, w')
     /\ ReadyDataSourceModel.ID state = StringValue (Data_Id d')
     /\ Data_output d' = Some output
     /\ dom output = {[ "url" ]}
     /\ StringValue <$> output !! "url" = Some (ReadyDataSourceModel.URL state))
  /\ (forall (ready : Ready.t) (s : Remote),
        Ready client (remote w) = (GoOk (Some ready), s) ->
        Ready.Started ready = None ->
        fst (DataGetReady d (any_Client client) w) = Panicked
        /\ exists state,
             fst (ReadyDataSource_Read client w)
               = Done {| Resp_Diagnostics := []; State_Set := Some state |}
             /\ ReadyDataSourceModel.Started state = StringValue "").
Proof.
  split.
  - unfold DataGetReady, bind, call.
    destruct (Ready client (remote w)) as [[err|[ready|]] s] eqn:Hready;
      cbn; [done| |done].
    destruct (Ready.Started ready) as [started|] eqn:Hstarted; cbn; [|done].
    intros [= <- <-].
    rewrite (ReadyDataSource_Read_found _ _ _ _ Hready).
    eexists _, _. split; [reflexivity|]. split; [reflexivity|].
    split; [reflexivity|]. split; [|by rewrite lookup_singleton_eq].
    by rewrite dom_singleton_L.
  - intros ready s Hready Hstarted. split.
    + unfold DataGetReady, bind, call. rewrite Hready. cbn.
      by rewrite Hstarted.
    + rewrite (ReadyDataSource_Read_found _ _ _ _ Hready).
      eexists. split; [reflexivity|]. cbn. by rewrite Hstarted.
Qed.

End Ready_operations.

(** A server that answers the probe. *)
Lemma ReadyDataSource_Read_state_witness :
  exists state,
    fst (ReadyDataSource_Read
           (scripted_client (GoOk (Some ready_server)) no_error no_error no_error)
           start)
      = Done {| Resp_Diagnostics := []; State_Set := Some state |}
    /\ ReadyDataSourceModel.ID state = StringValue "http://localhost:8086"
    /\ ReadyDataSourceModel.Status state = StringValue "ready".
Proof.
  rewrite (ReadyDataSource_Read_state (TI := rendered_time)
             (scripted_client (GoOk (Some ready_server)) no_error no_error no_error)
             start ready_server tt eq_refl).
  by eexists.
Defined.

(** The client both providers hand over for the environment's settings. *)
Lemma providerConfigure_accepts_more_witness :
  fst (providerConfigure scripted_NewClientWithOptions
         "http://influx.example:8086" "env-secret" start)
  = Done (GoOk (scripted_NewClientWithOptions
                  "http://influx.example:8086" "env-secret")).
Proof.
  destruct (providerConfigure_accepts_more (TI := rendered_time)
              scripted_NewClientWithOptions env_set (decoded config_unset) start)
    as (Hsame & _).
  exact (f_equal fst (Hsame _ _ eq_refl eq_refl)).
Defined.

(** A server that answers the probe without a start time. *)
Lemma DataGetReady_refined_witness :
  let client := scripted_client (GoOk (Some ready_server_no_start))
                  no_error no_error no_error in
  fst (DataGetReady no_data (any_Client client) start) = Panicked
  /\ exists state,
       fst (ReadyDataSource_Read client start)
         = Done {| Resp_Diagnostics := []; State_Set := Some state |}
       /\ ReadyDataSourceModel.Started state = StringValue "".
Proof.
  intros client.
  destruct (DataGetReady_refined (TI := rendered_time)
              client start no_data no_data start) as [_ Hno_start].
  exact (Hno_start ready_server_no_start tt eq_refl eq_refl).
Defined.
